(** * nina_mqtt_bridge: a shallow embedding of the orchestration engine

    The development follows the layout of the Python package
    [nina_mqtt_bridge]: one module per source file ([device_model],
    [config], [discovery], [scheduler], [bridge]), preceded by a small
    model of the Python values and string operations the package relies
    on.  All definitions come first; the verified properties follow. *)

From Stdlib Require Import List String Ascii Bool ZArith QArith Qminmax Lia Lqa.
From Stdlib Require Import DecimalString DecimalNat ListSet.
From Stdlib Require Import PrimFloat.
Import ListNotations.

#[local] Set Warnings "-register-all".
Local Open Scope string_scope.
Local Open Scope list_scope.

(* ================================================================== *)
(** * Python runtime model *)
(* ================================================================== *)

Module Py.

(** ** Exceptions

    [exn_msg] is what [str(exc)] returns. *)

Inductive exn_class : Set :=
| JSONDecodeError
| UnicodeDecodeError
| ValueError
| KeyError
| IndexError
| AttributeError
| TypeError
| HTTPError
| FormatNotModelled.

Record exn : Set := Exn { exn_kind : exn_class; exn_msg : string }.

Inductive Result (A : Type) : Type :=
| Ok (a : A)
| Raise (e : exn).
Arguments Ok {A} a.
Arguments Raise {A} e.

Definition rbind {A B} (r : Result A) (k : A -> Result B) : Result B :=
  match r with
  | Ok a => k a
  | Raise e => Raise e
  end.

(** ** Values

    JSON documents as [json.loads] / [requests] hand them to the
    package, plus [bytes].  A [dict] keeps insertion order, so it is an
    association list; floats are IEEE doubles. *)

Inductive value : Type :=
| VNone
| VBool (b : bool)
| VInt (z : Z)
| VFloat (f : PrimFloat.float)
| VStr (s : string)
| VBytes (b : string)
| VList (l : list value)
| VDict (d : list (string * value)).

Definition dict : Type := list (string * value).

(** [bool(v)]: the truth value tested by [if v:] and [v or default]. *)
Definition truthy (v : value) : bool :=
  match v with
  | VNone => false
  | VBool b => b
  | VInt z => negb (Z.eqb z 0)
  | VFloat f => negb (PrimFloat.eqb f PrimFloat.zero)
  | VStr s => negb (String.eqb s "")
  | VBytes b => negb (String.eqb b "")
  | VList l => match l with [] => false | _ :: _ => true end
  | VDict d => match d with [] => false | _ :: _ => true end
  end.

(** [a or b] *)
Definition por (a b : value) : value := if truthy a then a else b.

Definition isinstance_dict (v : value) : bool :=
  match v with VDict _ => true | _ => false end.

(** [json.dumps] raises [TypeError] on [bytes]; every other value of
    this model serialises. *)
Fixpoint json_serializable (v : value) : bool :=
  match v with
  | VBytes _ => false
  | VList l => forallb json_serializable l
  | VDict d => forallb (fun kv => json_serializable (snd kv)) d
  | _ => true
  end.

(** ** Insertion-ordered dictionaries, generic in the value type *)

Section Dict.
Context {V : Type}.

Fixpoint dict_get (k : string) (d : list (string * V)) : option V :=
  match d with
  | [] => None
  | (k', v) :: d' => if String.eqb k k' then Some v else dict_get k d'
  end.

Definition dict_mem (k : string) (d : list (string * V)) : bool :=
  match dict_get k d with Some _ => true | None => false end.

(** [d[k] = v]: overwrite in place, or append a new last entry. *)
Fixpoint dict_set (k : string) (v : V) (d : list (string * V))
  : list (string * V) :=
  match d with
  | [] => [(k, v)]
  | (k', v') :: d' =>
      if String.eqb k k' then (k', v) :: d'
      else (k', v') :: dict_set k v d'
  end.

Definition dict_keys (d : list (string * V)) : list string := map fst d.
End Dict.

(** [d.get(k)] on a Python mapping: [None] when the key is absent. *)
Definition get_or_none (k : string) (d : dict) : value :=
  match dict_get k d with Some v => v | None => VNone end.

(** ** Strings

    Strings are sequences of ASCII characters: the field names of the
    device API and every literal of the package are ASCII.  Characters
    above 127 are carried unchanged and count as neither letters nor
    digits. *)

Definition is_upper (c : ascii) : bool :=
  let n := nat_of_ascii c in (65 <=? n)%nat && (n <=? 90)%nat.
Definition is_lower (c : ascii) : bool :=
  let n := nat_of_ascii c in (97 <=? n)%nat && (n <=? 122)%nat.
Definition is_digit (c : ascii) : bool :=
  let n := nat_of_ascii c in (48 <=? n)%nat && (n <=? 57)%nat.

Definition to_lower (c : ascii) : ascii :=
  if is_upper c then ascii_of_nat (nat_of_ascii c + 32) else c.
Definition to_upper (c : ascii) : ascii :=
  if is_lower c then ascii_of_nat (nat_of_ascii c - 32) else c.

(** [ch.isalnum()] *)
Definition isalnum (c : ascii) : bool :=
  is_upper c || is_lower c || is_digit c.

(** [s.lower()] *)
Fixpoint lower (s : string) : string :=
  match s with
  | EmptyString => EmptyString
  | String c s' => String (to_lower c) (lower s')
  end.

(** ["".join(ch for ch in s if p(ch))] *)
Fixpoint filter_chars (p : ascii -> bool) (s : string) : string :=
  match s with
  | EmptyString => EmptyString
  | String c s' =>
      if p c then String c (filter_chars p s') else filter_chars p s'
  end.

(** [s.replace(a, b)] for one-character [a] and [b]. *)
Fixpoint replace_char (a b : ascii) (s : string) : string :=
  match s with
  | EmptyString => EmptyString
  | String c s' =>
      String (if Ascii.eqb c a then b else c) (replace_char a b s')
  end.

(** [s.title()]: a cased character is upper-cased when the previous
    character is uncased and lower-cased otherwise. *)
Fixpoint title_from (prev_cased : bool) (s : string) : string :=
  match s with
  | EmptyString => EmptyString
  | String c s' =>
      if is_lower c then
        String (if prev_cased then c else to_upper c) (title_from true s')
      else if is_upper c then
        String (if prev_cased then to_lower c else c) (title_from true s')
      else String c (title_from false s')
  end.
Definition title (s : string) : string := title_from false s.

(** [s.rstrip(c)] for a one-character [c]. *)
Fixpoint rstrip_char (c : ascii) (s : string) : string :=
  match s with
  | EmptyString => EmptyString
  | String x s' =>
      let r := rstrip_char c s' in
      if Ascii.eqb x c && String.eqb r "" then EmptyString else String x r
  end.

(** [s.split(c)] for a one-character separator. *)
Fixpoint split_char (c : ascii) (s : string) : list string :=
  match s with
  | EmptyString => [EmptyString]
  | String x s' =>
      if Ascii.eqb x c then EmptyString :: split_char c s'
      else match split_char c s' with
           | h :: t => String x h :: t
           | [] => [String x EmptyString]
           end
  end.

(** [str(n)] for a non-negative index. *)
Definition str_of_nat (n : nat) : string :=
  NilEmpty.string_of_uint (Nat.to_uint n).

(** ** [str.format] with keyword arguments

    The fragment used by topic templates: literal text, the escapes
    [{{] and [}}], and plain replacement fields [{name}].  Conversions,
    format specs and attribute or index access are outside the
    fragment and reported as [FormatNotModelled]. *)

Definition field_special (c : ascii) : bool :=
  Ascii.eqb c "!" || Ascii.eqb c ":" || Ascii.eqb c "." || Ascii.eqb c "[".

Fixpoint all_chars (p : ascii -> bool) (s : string) : bool :=
  match s with
  | EmptyString => true
  | String c s' => p c && all_chars p s'
  end.

Definition format_field (kw : list (string * string)) (name : string)
  : Result string :=
  if all_chars is_digit name then
    Raise (Exn IndexError "Replacement index out of range for positional args tuple")
  else match dict_get name kw with
       | Some v => Ok v
       | None => Raise (Exn KeyError name)
       end.

Fixpoint format_go (kw : list (string * string)) (tpl : string)
         (field : option string) : Result string :=
  match tpl with
  | EmptyString =>
      match field with
      | None => Ok EmptyString
      | Some _ => Raise (Exn ValueError "expected '}' before end of string")
      end
  | String c rest =>
      match field with
      | None =>
          if Ascii.eqb c "{" then
            match rest with
            | String "{" rest' =>
                rbind (format_go kw rest' None) (fun r => Ok (String "{" r))
            | _ => format_go kw rest (Some EmptyString)
            end
          else if Ascii.eqb c "}" then
            match rest with
            | String "}" rest' =>
                rbind (format_go kw rest' None) (fun r => Ok (String "}" r))
            | _ => Raise (Exn ValueError "Single '}' encountered in format string")
            end
          else rbind (format_go kw rest None) (fun r => Ok (String c r))
      | Some name =>
          if Ascii.eqb c "}" then
            rbind (format_field kw name) (fun v =>
            rbind (format_go kw rest None) (fun r => Ok (v ++ r)%string))
          else if Ascii.eqb c "{" then
            Raise (Exn ValueError "unexpected '{' in field name")
          else if field_special c then
            Raise (Exn FormatNotModelled "conversion, format spec or attribute access")
          else format_go kw rest (Some (name ++ String c EmptyString)%string)
      end
  end.

Definition format (tpl : string) (kw : list (string * string))
  : Result string :=
  format_go kw tpl None.

(** ** More string methods *)

(** [ch.isspace()] on ASCII: tab to carriage return, the four
    separators 28-31, and space. *)
Definition is_space (c : ascii) : bool :=
  let n := nat_of_ascii c in
  ((9 <=? n)%nat && (n <=? 13)%nat) || ((28 <=? n)%nat && (n <=? 32)%nat).

Fixpoint lstrip (s : string) : string :=
  match s with
  | EmptyString => EmptyString
  | String c s' => if is_space c then lstrip s' else s
  end.

Fixpoint rstrip (s : string) : string :=
  match s with
  | EmptyString => EmptyString
  | String c s' =>
      let r := rstrip s' in
      if is_space c && String.eqb r "" then EmptyString else String c r
  end.

(** [s.strip()] *)
Definition strip (s : string) : string := rstrip (lstrip s).

(** [s.isdigit()] *)
Definition isdigit (s : string) : bool :=
  negb (String.eqb s "") && all_chars is_digit s.

(** [int(s)] for a string of decimal digits *)
Fixpoint int_of_digits_from (acc : Z) (s : string) : Z :=
  match s with
  | EmptyString => acc
  | String c s' =>
      int_of_digits_from (acc * 10 + Z.of_nat (nat_of_ascii c - 48))%Z s'
  end.
Definition int_of_digits (s : string) : Z := int_of_digits_from 0%Z s.


End Py.

Import Py.

(* ================================================================== *)
(** * config.py *)
(* ================================================================== *)

Module config.

Definition DEFAULT_NINA_API_URI := "http://127.0.0.1:1888/v2/api".

Definition DEFAULT_MQTT_HOST := "127.0.0.1".
Definition DEFAULT_MQTT_PORT : Z := 1883.
Definition DEFAULT_MQTT_USERNAME : option string := None.
Definition DEFAULT_MQTT_PASSWORD : option string := None.
Definition DEFAULT_MQTT_CLIENT_ID := "nina_mqtt_bridge".
Definition DEFAULT_MQTT_KEEPALIVE : Z := 60.

Definition DEFAULT_DISCOVERY_PREFIX := "homeassistant".
Definition DEFAULT_BASE_TOPIC := "nina".
Definition DEFAULT_AVAILABILITY_TOPIC_TEMPLATE := "{base}/{device}/availability".
Definition DEFAULT_COMMAND_TOPIC_TEMPLATE := "{base}/{device}/command".
Definition DEFAULT_COMMAND_ERROR_TOPIC_TEMPLATE := "{base}/{device}/command/error".
Definition DEFAULT_COMMAND_RESPONSE_TIMEOUT : Z := 10.

Definition DEFAULT_DEVICE_ID := "nina_server".
Definition DEFAULT_DEVICE_NAME := "NINA Advanced API".
Definition DEFAULT_DEVICE_MANUFACTURER := "christian-photo".
Definition DEFAULT_DEVICE_MODEL := "NINA Advanced API".

Definition DEFAULT_REFRESH_SECONDS : Z := 60.

Record DeviceConfig : Set := mkDeviceConfig {
  enabled : bool;
  refresh_every : Z
}.

Record MQTTTopicConfig : Set := mkMQTTTopicConfig {
  discovery_prefix : string;
  base_topic : string;
  availability_topic : string;
  command_topic : string;
  command_error_topic : string;
  command_response_timeout : Z
}.

Record DeviceInfo : Set := mkDeviceInfo {
  device_id : string;
  name : string;
  manufacturer : string;
  model : string
}.

Record NINAConfig : Set := mkNINAConfig {
  api_uri : string
}.

Record MQTTConfig : Set := mkMQTTConfig {
  host : string;
  port : Z;
  username : option string;
  password : option string;
  client_id : string;
  keepalive : Z;
  topics : MQTTTopicConfig
}.

(** [devices] is a dict: device name to its polling configuration, in
    insertion order. *)
Record BridgeConfig : Set := mkBridgeConfig {
  nina : NINAConfig;
  mqtt : MQTTConfig;
  devices : list (string * DeviceConfig);
  device_info : DeviceInfo
}.

Definition default_topics : MQTTTopicConfig :=
  mkMQTTTopicConfig DEFAULT_DISCOVERY_PREFIX DEFAULT_BASE_TOPIC
    DEFAULT_AVAILABILITY_TOPIC_TEMPLATE DEFAULT_COMMAND_TOPIC_TEMPLATE
    DEFAULT_COMMAND_ERROR_TOPIC_TEMPLATE DEFAULT_COMMAND_RESPONSE_TIMEOUT.

Definition default_nina : NINAConfig := mkNINAConfig DEFAULT_NINA_API_URI.

Definition default_mqtt : MQTTConfig :=
  mkMQTTConfig DEFAULT_MQTT_HOST DEFAULT_MQTT_PORT DEFAULT_MQTT_USERNAME
    DEFAULT_MQTT_PASSWORD DEFAULT_MQTT_CLIENT_ID DEFAULT_MQTT_KEEPALIVE
    default_topics.

Definition default_device_info : DeviceInfo :=
  mkDeviceInfo DEFAULT_DEVICE_ID DEFAULT_DEVICE_NAME
    DEFAULT_DEVICE_MANUFACTURER DEFAULT_DEVICE_MODEL.

(** [device_slug = device or "bridge"] *)
Definition render_availability_topic (t : MQTTTopicConfig)
           (device : option string) : Result string :=
  let device_slug :=
    match device with
    | Some d => if String.eqb d "" then "bridge" else d
    | None => "bridge"
    end in
  format (availability_topic t)
         [("base", base_topic t); ("device", device_slug)].

Definition render_device_availability_topic (t : MQTTTopicConfig)
           (device : string) : Result string :=
  render_availability_topic t (Some device).

Definition render_command_topic (t : MQTTTopicConfig) (device : string)
  : Result string :=
  format (command_topic t) [("base", base_topic t); ("device", device)].

Definition render_command_error_topic (t : MQTTTopicConfig)
           (device : string) : Result string :=
  format (command_error_topic t)
         [("base", base_topic t); ("device", device)].

End config.

(* ================================================================== *)
(** * mqtt_client.py *)
(* ================================================================== *)

Module mqtt_client.

(** [payload: bytes | str].  [PJson v] is the text [json.dumps(v)]
    of a serialisable [v], kept structured so that its fields can be
    inspected. *)
Inductive payload_t : Type :=
| PText (s : string)
| PBytes (b : string)
| PJson (v : value).

Record PublishMessage : Type := mkPublishMessage {
  topic : string;
  payload : payload_t;
  retain : bool;
  qos : Z
}.

End mqtt_client.

(* ================================================================== *)
(** * device_model.py *)
(* ================================================================== *)

Module device_model.

Definition _normalize (key : string) : string :=
  filter_chars isalnum (lower key).

Record SensorDef : Set := mkSensorDef {
  sd_name : option string;
  sd_unit : option string;
  sd_icon : option string;
  sd_device_class : option string;
  sd_state_class : option string;
  sd_source : option (list string);
  sd_platform : string
}.

Definition DEVICE_SENSORS : list (string * list (string * SensorDef)) :=
[
  ("application",
    [
     ("nina_version",
      mkSensorDef (Some "NINA Version") None (Some "mdi:alpha-n-box")
        None None None "sensor");
     ("api_version",
      mkSensorDef (Some "API Version") None (Some "mdi:api")
        None None None "sensor");
     ("application_start",
      mkSensorDef (Some "Application Start") None (Some "mdi:clock-start")
        (Some "timestamp") None None "sensor") ]);
  ("camera",
    [
     ("target_temp",
      mkSensorDef (Some "Target Temperature") (Some "°C") (Some "mdi:thermometer")
        (Some "temperature") (Some "measurement") (Some ["TargetTemp"]) "sensor");
     ("temperature",
      mkSensorDef (Some "Temperature") (Some "°C") (Some "mdi:thermometer")
        (Some "temperature") (Some "measurement") None "sensor");
     ("gain",
      mkSensorDef (Some "Gain") None (Some "mdi:signal")
        None (Some "measurement") None "sensor");
     ("binx",
      mkSensorDef (Some "Bin X") (Some "px") (Some "mdi:grid")
        None None None "sensor");
     ("biny",
      mkSensorDef (Some "Bin Y") (Some "px") (Some "mdi:grid")
        None None None "sensor");
     ("bitdepth",
      mkSensorDef (Some "Bit Depth") (Some "bit") (Some "mdi:binary")
        None None None "sensor");
     ("offset",
      mkSensorDef (Some "Offset") None (Some "mdi:arrow-collapse-horizontal")
        None None None "sensor");
     ("cooler_on",
      mkSensorDef (Some "Cooler On") None (Some "mdi:snowflake")
        None None None "binary_sensor");
     ("cooler_power",
      mkSensorDef (Some "Cooler Power") (Some "%") (Some "mdi:gauge")
        None (Some "measurement") None "sensor");
     ("dewheater_on",
      mkSensorDef (Some "Dew Heater On") None (Some "mdi:radiator")
        None None None "binary_sensor");
     ("is_exposing",
      mkSensorDef (Some "Is Exposing") None (Some "mdi:camera-timer")
        None None None "binary_sensor");
     ("name",
      mkSensorDef (Some "Camera Name") None (Some "mdi:camera")
        None None None "sensor");
     ("display_name",
      mkSensorDef (Some "Camera Display Name") None (Some "mdi:label")
        None None None "sensor");
     ("connected",
      mkSensorDef (Some "Camera Connected") None (Some "mdi:lan-connect")
        (Some "connectivity") None None "binary_sensor") ]);
  ("dome",
    [
     ("shutter_status",
      mkSensorDef (Some "Shutter Status") None (Some "mdi:garage-open-variant")
        None None None "sensor");
     ("at_park",
      mkSensorDef (Some "At Park") None (Some "mdi:parking")
        None None None "binary_sensor");
     ("at_home",
      mkSensorDef (Some "At Home") None (Some "mdi:home")
        None None None "binary_sensor");
     ("driver_following",
      mkSensorDef (Some "Driver Following") None (Some "mdi:link-variant")
        None None None "binary_sensor");
     ("slewing",
      mkSensorDef (Some "Slewing") None (Some "mdi:rotate-3d-variant")
        None None None "binary_sensor");
     ("azimuth",
      mkSensorDef (Some "Azimuth") (Some "°") (Some "mdi:compass-outline")
        None (Some "measurement") None "sensor");
     ("connected",
      mkSensorDef (Some "Dome Connected") None (Some "mdi:lan-connect")
        (Some "connectivity") None None "binary_sensor");
     ("name",
      mkSensorDef (Some "Dome Name") None (Some "mdi:home-circle")
        None None None "sensor");
     ("displayname",
      mkSensorDef (Some "Dome Display Name") None (Some "mdi:label")
        None None None "sensor");
     ("is_following",
      mkSensorDef (Some "Is Following") None (Some "mdi:orbit-variant")
        None None None "binary_sensor");
     ("is_synchronized",
      mkSensorDef (Some "Is Synchronized") None (Some "mdi:sync")
        None None None "binary_sensor") ]);
  ("filterwheel",
    [
     ("connected",
      mkSensorDef (Some "Filter Wheel Connected") None (Some "mdi:lan-connect")
        (Some "connectivity") None None "binary_sensor");
     ("name",
      mkSensorDef (Some "Filter Wheel Name") None (Some "mdi:filter-variant")
        None None None "sensor");
     ("displayname",
      mkSensorDef (Some "Filter Wheel Display Name") None (Some "mdi:label")
        None None None "sensor");
     ("description",
      mkSensorDef (Some "Filter Wheel Description") None (Some "mdi:text-box-outline")
        None None None "sensor");
     ("is_moving",
      mkSensorDef (Some "Filter Wheel Moving") None (Some "mdi:rotate-3d-variant")
        None None None "binary_sensor");
     ("selected_filter_name",
      mkSensorDef (Some "Selected Filter") None (Some "mdi:filter")
        None None None "sensor");
     ("selected_filter_id",
      mkSensorDef (Some "Selected Filter Id") None (Some "mdi:filter")
        None (Some "measurement") None "sensor") ]);
  ("flatdevice",
    [
     ("cover_state",
      mkSensorDef (Some "Cover State") None (Some "mdi:window-shutter")
        None None None "sensor");
     ("light_on",
      mkSensorDef (Some "Light On") None (Some "mdi:lightbulb-on-outline")
        None None None "binary_sensor");
     ("brightness",
      mkSensorDef (Some "Brightness") (Some "%") (Some "mdi:brightness-6")
        None (Some "measurement") None "sensor");
     ("connected",
      mkSensorDef (Some "Flat Panel Connected") None (Some "mdi:lan-connect")
        (Some "connectivity") None None "binary_sensor");
     ("name",
      mkSensorDef (Some "Flat Panel Name") None (Some "mdi:label")
        None None None "sensor");
     ("displayname",
      mkSensorDef (Some "Flat Panel Display Name") None (Some "mdi:label-outline")
        None None None "sensor") ]);
  ("focuser",
    [
     ("position",
      mkSensorDef (Some "Position") (Some "step") (Some "mdi:arrow-expand-vertical")
        None (Some "measurement") None "sensor");
     ("temperature",
      mkSensorDef (Some "Temperature") (Some "°C") (Some "mdi:thermometer")
        (Some "temperature") (Some "measurement") None "sensor");
     ("is_moving",
      mkSensorDef (Some "Is Moving") None (Some "mdi:swap-vertical")
        None None None "binary_sensor");
     ("is_settling",
      mkSensorDef (Some "Is Settling") None (Some "mdi:progress-clock")
        None None None "binary_sensor");
     ("temp_comp",
      mkSensorDef (Some "Temperature Compensation") None (Some "mdi:thermometer-auto")
        None None None "binary_sensor");
     ("connected",
      mkSensorDef (Some "Focuser Connected") None (Some "mdi:lan-connect")
        (Some "connectivity") None None "binary_sensor");
     ("name",
      mkSensorDef (Some "Focuser Name") None (Some "mdi:label")
        None None None "sensor");
     ("displayname",
      mkSensorDef (Some "Focuser Display Name") None (Some "mdi:label-outline")
        None None None "sensor") ]);
  ("guider",
    [
     ("connected",
      mkSensorDef (Some "Guider Connected") None (Some "mdi:lan-connect")
        (Some "connectivity") None None "binary_sensor");
     ("name",
      mkSensorDef (Some "Guider Name") None (Some "mdi:telescope")
        None None None "sensor");
     ("displayname",
      mkSensorDef (Some "Guider Display Name") None (Some "mdi:label")
        None None None "sensor");
     ("rmserror_ra_pixels",
      mkSensorDef (Some "RMS Error RA (px)") (Some "px") (Some "mdi:chart-line")
        None (Some "measurement") None "sensor");
     ("rmserror_ra_arcsec",
      mkSensorDef (Some "RMS Error RA (arcsec)") (Some "arcsec") (Some "mdi:chart-line")
        None (Some "measurement") None "sensor");
     ("rmserror_dec_pixels",
      mkSensorDef (Some "RMS Error Dec (px)") (Some "px") (Some "mdi:chart-line")
        None (Some "measurement") None "sensor");
     ("rmserror_dec_arcsec",
      mkSensorDef (Some "RMS Error Dec (arcsec)") (Some "arcsec") (Some "mdi:chart-line")
        None (Some "measurement") None "sensor");
     ("rmserror_total_pixels",
      mkSensorDef (Some "RMS Error Total (px)") (Some "px") (Some "mdi:chart-line")
        None (Some "measurement") None "sensor");
     ("rmserror_total_arcsec",
      mkSensorDef (Some "RMS Error Total (arcsec)") (Some "arcsec") (Some "mdi:chart-line")
        None (Some "measurement") None "sensor");
     ("rmserror_peak_ra_pixels",
      mkSensorDef (Some "Peak RA Error (px)") (Some "px") (Some "mdi:chart-line")
        None (Some "measurement") None "sensor");
     ("rmserror_peak_ra_arcsec",
      mkSensorDef (Some "Peak RA Error (arcsec)") (Some "arcsec") (Some "mdi:chart-line")
        None (Some "measurement") None "sensor");
     ("rmserror_peak_dec_pixels",
      mkSensorDef (Some "Peak Dec Error (px)") (Some "px") (Some "mdi:chart-line")
        None (Some "measurement") None "sensor");
     ("rmserror_peak_dec_arcsec",
      mkSensorDef (Some "Peak Dec Error (arcsec)") (Some "arcsec") (Some "mdi:chart-line")
        None (Some "measurement") None "sensor");
     ("state",
      mkSensorDef (Some "Guider State") None (Some "mdi:play-circle")
        None None None "sensor") ]);
  ("mount",
    [
     ("tracking_mode",
      mkSensorDef (Some "Tracking Mode") None (Some "mdi:orbit-variant")
        None None None "sensor");
     ("sidereal_time",
      mkSensorDef (Some "Sidereal Time") (Some "h") (Some "mdi:clock-outline")
        None (Some "measurement") None "sensor");
     ("right_ascension",
      mkSensorDef (Some "Right Ascension") (Some "h") (Some "mdi:alpha-r-circle")
        None (Some "measurement") None "sensor");
     ("declination",
      mkSensorDef (Some "Declination") (Some "°") (Some "mdi:alpha-d-circle")
        None (Some "measurement") None "sensor");
     ("site_latitude",
      mkSensorDef (Some "Site Latitude") (Some "°") (Some "mdi:earth")
        None (Some "measurement") None "sensor");
     ("site_longitude",
      mkSensorDef (Some "Site Longitude") (Some "°") (Some "mdi:earth")
        None (Some "measurement") None "sensor");
     ("site_elevation",
      mkSensorDef (Some "Site Elevation") (Some "m") (Some "mdi:image-filter-hdr")
        None (Some "measurement") None "sensor");
     ("right_ascension_string",
      mkSensorDef (Some "RA String") None (Some "mdi:alpha-r-box")
        None None None "sensor");
     ("declination_string",
      mkSensorDef (Some "Dec String") None (Some "mdi:alpha-d-box")
        None None None "sensor");
     ("time_to_flip",
      mkSensorDef (Some "Time To Flip") (Some "min") (Some "mdi:timer-sand")
        None (Some "measurement") (Some ["TimeToMeridianFlip"]) "sensor");
     ("side_of_pier",
      mkSensorDef (Some "Side of Pier") None (Some "mdi:swap-horizontal-bold")
        None None None "sensor");
     ("altitude",
      mkSensorDef (Some "Altitude") (Some "°") (Some "mdi:altimeter")
        None (Some "measurement") None "sensor");
     ("azimuth",
      mkSensorDef (Some "Azimuth") (Some "°") (Some "mdi:compass-outline")
        None (Some "measurement") None "sensor");
     ("sidereal_time_string",
      mkSensorDef (Some "Sidereal Time String") None (Some "mdi:clock-outline")
        None None None "sensor");
     ("hours_to_meridian",
      mkSensorDef (Some "Hours To Meridian") None (Some "mdi:timer-outline")
        None None (Some ["HoursToMeridianString"]) "sensor");
     ("at_park",
      mkSensorDef (Some "At Park") None (Some "mdi:parking")
        None None None "binary_sensor");
     ("at_home",
      mkSensorDef (Some "At Home") None (Some "mdi:home")
        None None None "binary_sensor");
     ("tracking_enabled",
      mkSensorDef (Some "Tracking Enabled") None (Some "mdi:orbit")
        None None None "binary_sensor");
     ("slewing",
      mkSensorDef (Some "Mount Slewing") None (Some "mdi:rotate-3d-variant")
        None None None "binary_sensor");
     ("time_to_flip_string",
      mkSensorDef (Some "Time To Flip String") None (Some "mdi:timer-outline")
        None None (Some ["TimeToMeridianFlipString"]) "sensor");
     ("is_pulse_guiding",
      mkSensorDef (Some "Pulse Guiding") None (Some "mdi:cursor-default-click-outline")
        None None None "binary_sensor");
     ("connected",
      mkSensorDef (Some "Mount Connected") None (Some "mdi:lan-connect")
        (Some "connectivity") None None "binary_sensor");
     ("utc_date",
      mkSensorDef (Some "UTC Date") None (Some "mdi:calendar-clock")
        (Some "timestamp") None None "sensor");
     ("name",
      mkSensorDef (Some "Mount Name") None (Some "mdi:telescope")
        None None None "sensor");
     ("displayname",
      mkSensorDef (Some "Mount Display Name") None (Some "mdi:label")
        None None None "sensor") ]);
  ("rotator",
    [
     ("mechanical_position",
      mkSensorDef (Some "Mechanical Position") (Some "°") (Some "mdi:rotate-3d")
        None (Some "measurement") None "sensor");
     ("position",
      mkSensorDef (Some "Position") (Some "°") (Some "mdi:rotate-orbit")
        None (Some "measurement") None "sensor");
     ("is_moving",
      mkSensorDef (Some "Is Moving") None (Some "mdi:rotate-right")
        None None None "binary_sensor");
     ("connected",
      mkSensorDef (Some "Rotator Connected") None (Some "mdi:lan-connect")
        (Some "connectivity") None None "binary_sensor");
     ("name",
      mkSensorDef (Some "Rotator Name") None (Some "mdi:label")
        None None None "sensor");
     ("displayname",
      mkSensorDef (Some "Rotator Display Name") None (Some "mdi:label-outline")
        None None None "sensor") ]);
  ("safetymonitor",
    [
     ("is_safe",
      mkSensorDef (Some "Is Safe") None (Some "mdi:shield-check")
        (Some "safety") None None "binary_sensor");
     ("connected",
      mkSensorDef (Some "Safety Monitor Connected") None (Some "mdi:lan-connect")
        (Some "connectivity") None None "binary_sensor");
     ("name",
      mkSensorDef (Some "Safety Monitor Name") None (Some "mdi:shield")
        None None None "sensor");
     ("displayname",
      mkSensorDef (Some "Safety Monitor Display Name") None (Some "mdi:label")
        None None None "sensor") ]);
  ("sequence",
    [
     ("status",
      mkSensorDef (Some "Sequence Status") None (Some "mdi:script-text")
        None None None "sensor");
     ("name",
      mkSensorDef (Some "Sequence Name") None (Some "mdi:label")
        None None None "sensor") ]);
  ("switch",
    [
     ("connected",
      mkSensorDef (Some "Switch Connected") None (Some "mdi:lan-connect")
        (Some "connectivity") None None "binary_sensor");
     ("name",
      mkSensorDef (Some "Switch Name") None (Some "mdi:toggle-switch")
        None None None "sensor");
     ("displayname",
      mkSensorDef (Some "Switch Display Name") None (Some "mdi:label")
        None None None "sensor") ]);
  ("weather",
    [
     ("cloudcover",
      mkSensorDef (Some "Cloud Cover") (Some "%") (Some "mdi:weather-cloudy")
        None (Some "measurement") None "sensor");
     ("averageperiod",
      mkSensorDef (Some "Average Period") (Some "s") (Some "mdi:timer-outline")
        None (Some "measurement") None "sensor");
     ("dewpoint",
      mkSensorDef (Some "Dew Point") (Some "°C") (Some "mdi:thermometer-water")
        (Some "temperature") (Some "measurement") None "sensor");
     ("humidity",
      mkSensorDef (Some "Humidity") (Some "%") (Some "mdi:water-percent")
        (Some "humidity") (Some "measurement") None "sensor");
     ("pressure",
      mkSensorDef (Some "Pressure") (Some "hPa") (Some "mdi:gauge")
        (Some "pressure") (Some "measurement") None "sensor");
     ("rain_rate",
      mkSensorDef (Some "Rain Rate") None (Some "mdi:weather-pouring")
        None None None "sensor");
     ("sky_brightness",
      mkSensorDef (Some "Sky Brightness") None (Some "mdi:weather-night")
        None None None "sensor");
     ("sky_quality",
      mkSensorDef (Some "Sky Quality") None (Some "mdi:weather-night-partly-cloudy")
        None None None "sensor");
     ("sky_temperature",
      mkSensorDef (Some "Sky Temperature") (Some "°C") (Some "mdi:thermometer-chevron-down")
        (Some "temperature") (Some "measurement") None "sensor");
     ("star_fwhm",
      mkSensorDef (Some "Star FWHM") (Some "arcsec") (Some "mdi:chart-bell-curve")
        None (Some "measurement") None "sensor");
     ("temperature",
      mkSensorDef (Some "Temperature") (Some "°C") (Some "mdi:thermometer")
        (Some "temperature") (Some "measurement") None "sensor");
     ("wind_direction",
      mkSensorDef (Some "Wind Direction") (Some "°") (Some "mdi:compass")
        None (Some "measurement") None "sensor");
     ("wind_gust",
      mkSensorDef (Some "Wind Gust") None (Some "mdi:weather-windy")
        None None None "sensor");
     ("wind_speed",
      mkSensorDef (Some "Wind Speed") (Some "m/s") (Some "mdi:weather-windy")
        None (Some "measurement") None "sensor");
     ("connected",
      mkSensorDef (Some "Weather Connected") None (Some "mdi:lan-connect")
        (Some "connectivity") None None "binary_sensor");
     ("name",
      mkSensorDef (Some "Weather Name") None (Some "mdi:label")
        None None None "sensor");
     ("displayname",
      mkSensorDef (Some "Weather Display Name") None (Some "mdi:label-outline")
        None None None "sensor") ])
].

Definition type_name (v : value) : string :=
  match v with
  | VNone => "NoneType"
  | VBool _ => "bool"
  | VInt _ => "int"
  | VFloat _ => "float"
  | VStr _ => "str"
  | VBytes _ => "bytes"
  | VList _ => "list"
  | VDict _ => "dict"
  end.

Definition no_attribute (v : value) (attr : string) : exn :=
  Exn AttributeError
      ("'" ++ type_name v ++ "' object has no attribute '" ++ attr ++ "'")%string.

(** [v.items()] *)
Definition items (v : value) : Result dict :=
  match v with
  | VDict d => Ok d
  | _ => Raise (no_attribute v "items")
  end.

(** [v.get(k, default)] *)
Definition get (v : value) (k : string) (default : value) : Result value :=
  match v with
  | VDict d =>
      Ok (match dict_get k d with Some x => x | None => default end)
  | _ => Raise (no_attribute v "get")
  end.

(** The elements a [for] loop draws from [v]. *)
Definition iterate (v : value) : Result (list value) :=
  match v with
  | VList l => Ok l
  | VDict d => Ok (map (fun kv => VStr (fst kv)) d)
  | VStr s =>
      Ok (map (fun c => VStr (String c EmptyString)) (list_ascii_of_string s))
  | VBytes b =>
      Ok (map (fun c => VInt (Z.of_nat (nat_of_ascii c)))
              (list_ascii_of_string b))
  | _ => Raise (Exn TypeError
                    ("'" ++ type_name v ++ "' object is not iterable")%string)
  end.

(** [enumerate(l)] *)
Definition enumerate {A} (l : list A) : list (nat * A) :=
  combine (seq 0 (List.length l)) l.

(** One pass of the outer loop of [_build_lookup]. *)
Definition lookup_step (lookup : dict) (kv : string * value) : dict :=
  let '(key, val) := kv in
  match val with
  | VDict inner =>
      if String.eqb key "Response" then
        fold_left (fun lk iv => dict_set (_normalize (fst iv)) (snd iv) lk)
                  inner lookup
      else
        fold_left (fun lk iv =>
                     dict_set (_normalize (key ++ "_" ++ fst iv)%string) (snd iv) lk)
                  inner lookup
  | _ => dict_set (_normalize key) val lookup
  end.

Definition _build_lookup (status : value) : Result dict :=
  rbind (items status) (fun its => Ok (fold_left lookup_step its [])).

Definition ro_fields : list (string * string) :=
  [("name", "Name"); ("value", "Value"); ("id", "Id");
   ("description", "Description")].

Definition rw_fields : list (string * string) :=
  [("name", "Name"); ("id", "Id"); ("min", "Min"); ("max", "Max");
   ("description", "Description"); ("stepsize", "StepSize");
   ("targetvalue", "TargetValue")].

(** The body of one switch loop: non-mapping entries are skipped, a
    mapping entry writes one value per field, in the listed order. *)
Definition switch_entry (kind : string) (fields : list (string * string))
           (values : dict) (ie : nat * value) : dict :=
  let '(idx, entry) := ie in
  match entry with
  | VDict e =>
      fold_left (fun vs f =>
                   dict_set (kind ++ "_" ++ str_of_nat idx ++ "_" ++ fst f)%string
                            (get_or_none (snd f) e) vs)
                fields values
  | _ => values
  end.

Definition _append_switches (status : value) (values : dict) : Result dict :=
  rbind (if isinstance_dict status then get status "Response" (VDict [])
         else Ok (VDict [])) (fun resp =>
  rbind (get resp "ReadonlySwitches" (VList [])) (fun ro =>
  rbind (iterate (por ro (VList []))) (fun ro_list =>
  let values := fold_left (switch_entry "readonly_switch" ro_fields)
                          (enumerate ro_list) values in
  rbind (get resp "WriteableSwitches" (VList [])) (fun rw =>
  rbind (iterate (por rw (VList []))) (fun rw_list =>
  Ok (fold_left (switch_entry "writable_switch" rw_fields)
                (enumerate rw_list) values)))))).

(** The inner loop of [extract_state_values]: the first candidate whose
    normalised form is a key of the lookup table. *)
Fixpoint first_candidate (lookup : dict) (candidates : list string)
  : option value :=
  match candidates with
  | [] => None
  | candidate :: rest =>
      let norm := _normalize candidate in
      if dict_mem norm lookup then Some (get_or_none norm lookup)
      else first_candidate lookup rest
  end.

Definition candidates (var : string) (definition : SensorDef) : list string :=
  match sd_source definition with
  | Some source => source
  | None => []
  end ++ [var].

Definition extract_step (lookup : dict) (values : dict)
           (vd : string * SensorDef) : dict :=
  let '(var, definition) := vd in
  match first_candidate lookup (candidates var definition) with
  | Some v => dict_set var v values
  | None => values
  end.

Definition extract_state_values (device : string) (status : value)
  : Result dict :=
  match dict_get device DEVICE_SENSORS with
  | None => Ok []
  | Some sensors =>
      rbind (if String.eqb device "switch" then _append_switches status []
             else Ok []) (fun values =>
      rbind (_build_lookup (por status (VDict []))) (fun lookup =>
      Ok (fold_left (extract_step lookup) sensors values)))
  end.

Definition device_identifier (device_info : config.DeviceInfo)
           (device : string) : string :=
  (config.device_id device_info ++ "_" ++ device)%string.

Definition device_payload (device_info : config.DeviceInfo)
           (device : string) : value :=
  VDict [("identifiers", VList [VStr (device_identifier device_info device)]);
         ("name", VStr (config.name device_info ++ " " ++ title device)%string);
         ("manufacturer", VStr (config.manufacturer device_info));
         ("model", VStr (config.model device_info))].

End device_model.

(* ================================================================== *)
(** * config.py: building the device table *)
(* ================================================================== *)

Module config_loader.
Import config.

Definition DEFAULT_DEVICE_TYPES : list string :=
  ["application"; "camera"; "mount"; "dome"; "filterwheel"; "flatdevice";
   "focuser"; "guider"; "rotator"; "safetymonitor"; "sequence"; "switch";
   "weather"; "livestack"; "most_recent_image"; "screenshot"].

Section WithInt.

(** [int(v)] for a [float], [str] or [bytes] argument. *)
Variable int_conv : value -> Result Z.

(** [int(v)] *)
Definition py_int (v : value) : Result Z :=
  match v with
  | VInt z => Ok z
  | VBool b => Ok (if b then 1 else 0)%Z
  | VFloat _ | VStr _ | VBytes _ => int_conv v
  | _ => Raise (Exn TypeError
                    ("int() argument must be a string, a bytes-like object or a real number, not '"
                       ++ device_model.type_name v ++ "'")%string)
  end.

(** The body of the loop of [_build_devices].  [enabled] is stored as
    read and only ever tested for truth, so its truth value is kept. *)
Definition build_device (devices_section : value) (device : string)
  : Result DeviceConfig :=
  rbind (device_model.get devices_section device (VDict [])) (fun raw =>
  rbind (device_model.get raw "enabled" (VBool true)) (fun enabled =>
  rbind (device_model.get raw "refresh_every" (VInt DEFAULT_REFRESH_SECONDS))
        (fun r =>
  rbind (py_int r) (fun refresh_every =>
  if (refresh_every <=? 0)%Z then
    Raise (Exn ValueError
               ("refresh_every must be positive for device '"
                  ++ device ++ "'")%string)
  else Ok (mkDeviceConfig (truthy enabled) refresh_every))))).

Fixpoint build_devices_loop (devices_section : value) (todo : list string)
         (devices : list (string * DeviceConfig))
  : Result (list (string * DeviceConfig)) :=
  match todo with
  | [] => Ok devices
  | device :: rest =>
      rbind (build_device devices_section device) (fun dc =>
      build_devices_loop devices_section rest (dict_set device dc devices))
  end.

Definition _build_devices (config : value)
  : Result (list (string * DeviceConfig)) :=
  rbind (device_model.get config "devices" (VDict [])) (fun ds =>
  build_devices_loop (por ds (VDict [])) DEFAULT_DEVICE_TYPES []).

End WithInt.

End config_loader.

(* ================================================================== *)
(** * discovery.py *)
(* ================================================================== *)

Module discovery.
Import config mqtt_client device_model.

(** [STATE_TOPIC_TEMPLATE.format(base=..., device=..., variable=...)] *)
Definition state_topic (base device variable : string) : string :=
  (base ++ "/" ++ device ++ "/" ++ variable)%string.

(** [IMAGE_TOPIC_TEMPLATE.format(base=..., device=...)] *)
Definition image_topic (base device : string) : string :=
  (base ++ "/" ++ device ++ "/image")%string.

Definition IMAGE_DEVICES : list string :=
  ["livestack"; "most_recent_image"; "screenshot"].

Definition str_in (s : string) (l : list string) : bool :=
  existsb (String.eqb s) l.

Definition opt_truthy (o : option string) : bool :=
  match o with
  | Some s => negb (String.eqb s "")
  | None => false
  end.

(** [o or default] on an optional string *)
Definition opt_or (o : option string) (default : string) : string :=
  match o with
  | Some s => if String.eqb s "" then default else s
  | None => default
  end.

Definition dynamic_switch_def (key : string) : SensorDef :=
  mkSensorDef (Some (title (replace_char "_" " " key))) None
              (Some "mdi:toggle-switch") None None None "sensor".

Definition _iter_sensor_definitions (device : string)
           (extra_keys : option (list string))
  : list (string * SensorDef) :=
  let base_defs :=
    match dict_get device DEVICE_SENSORS with
    | Some defs => defs
    | None => []
    end in
  base_defs ++
  flat_map (fun key =>
              if dict_mem key base_defs then []
              else if String.eqb device "switch"
                   then [(key, dynamic_switch_def key)]
                   else [])
           (match extra_keys with Some ks => ks | None => [] end).

(** [payload[k] = v] when [o] is truthy *)
Definition set_opt (k : string) (o : option string) (d : dict) : dict :=
  if opt_truthy o then dict_set k (VStr (opt_or o "")) d else d.

(** [int(refresh_every * 2.2)]: the float product truncated toward
    zero, which for the positive intervals a configuration can hold
    (far below 2^50) is the integer quotient of [22 * refresh_every]
    by [10]. *)
Definition expire_after (refresh_every : Z) : Z :=
  Z.quot (refresh_every * 22) 10.

(** The body of the loop of [build_sensor_discovery_messages]. *)
Definition sensor_discovery_message (cfg : BridgeConfig) (device : string)
           (refresh_every : Z) (availability_topic : string)
           (vd : string * SensorDef) : PublishMessage :=
  let '(variable, definition) := vd in
  let base := base_topic (topics (mqtt cfg)) in
  let discovery_prefix := rstrip_char "/" (discovery_prefix (topics (mqtt cfg))) in
  let device_id := device_identifier (device_info cfg) device in
  let platform :=
    if String.eqb (sd_platform definition) "binary_sensor"
    then "binary_sensor" else "sensor" in
  let discovery_topic :=
    (discovery_prefix ++ "/" ++ platform ++ "/" ++ device_id ++ "/"
                      ++ variable ++ "/config")%string in
  let payload0 : dict :=
    [("name",
      VStr (opt_or (sd_name definition)
                   (title device ++ " "
                      ++ title (replace_char "_" " " variable))%string));
     ("state_topic", VStr (state_topic base device variable));
     ("unique_id", VStr (device_id ++ "_" ++ variable)%string);
     ("availability_topic", VStr availability_topic);
     ("payload_available", VStr "ON");
     ("payload_not_available", VStr "OFF");
     ("device", device_payload (device_info cfg) device)] in
  let payload1 :=
    if String.eqb platform "binary_sensor"
    then dict_set "payload_off" (VStr "false")
                  (dict_set "payload_on" (VStr "true") payload0)
    else payload0 in
  let payload2 := set_opt "unit_of_measurement" (sd_unit definition) payload1 in
  let payload3 := set_opt "device_class" (sd_device_class definition) payload2 in
  let payload4 := set_opt "state_class" (sd_state_class definition) payload3 in
  let payload5 := set_opt "icon" (sd_icon definition) payload4 in
  let payload6 :=
    if (0 <? refresh_every)%Z
    then dict_set "expire_after" (VInt (expire_after refresh_every)) payload5
    else payload5 in
  mkPublishMessage discovery_topic (PJson (VDict payload6)) true 1.

Definition build_sensor_discovery_messages (cfg : BridgeConfig)
           (device : string) (refresh_every : Z)
           (extra_keys : option (list string))
  : Result (list PublishMessage) :=
  rbind (render_device_availability_topic (topics (mqtt cfg)) device)
        (fun availability_topic =>
  Ok (map (sensor_discovery_message cfg device refresh_every
                                    availability_topic)
          (_iter_sensor_definitions device extra_keys))).

Definition build_image_discovery_message (cfg : BridgeConfig)
           (device : string) : Result PublishMessage :=
  let base := base_topic (topics (mqtt cfg)) in
  let discovery_prefix := rstrip_char "/" (discovery_prefix (topics (mqtt cfg))) in
  let device_id := device_identifier (device_info cfg) device in
  rbind (render_device_availability_topic (topics (mqtt cfg)) device)
        (fun availability_topic =>
  let discovery_topic :=
    (discovery_prefix ++ "/camera/" ++ device_id ++ "/config")%string in
  let payload : dict :=
    [("name", VStr ("NINA " ++ title (replace_char "_" " " device))%string);
     ("unique_id", VStr device_id);
     ("topic", VStr (image_topic base device));
     ("content_type", VStr "image/jpeg");
     ("availability_topic", VStr availability_topic);
     ("payload_available", VStr "ON");
     ("payload_not_available", VStr "OFF");
     ("device", device_payload (device_info cfg) device)] in
  Ok (mkPublishMessage discovery_topic (PJson (VDict payload)) true 1)).

End discovery.

(* ================================================================== *)
(** * nina_client.py *)
(* ================================================================== *)

Module nina_client.

Definition DEVICE_ENDPOINTS : list (string * string) :=
  [("application", "/version");
   ("camera", "/equipment/camera/info");
   ("mount", "/equipment/mount/info");
   ("dome", "/equipment/dome/info");
   ("filterwheel", "/equipment/filterwheel/info");
   ("flatdevice", "/equipment/flatdevice/info");
   ("focuser", "/equipment/focuser/info");
   ("guider", "/equipment/guider/info");
   ("rotator", "/equipment/rotator/info");
   ("safetymonitor", "/equipment/safetymonitor/info");
   ("sequence", "/sequence/json");
   ("switch", "/equipment/switch/info");
   ("weather", "/equipment/weather/info")].

Definition IMAGE_ENDPOINTS : list (string * string) :=
  [("most_recent_image", "/prepared-image");
   ("livestack", "/livestack/image/{target}/{filter}");
   ("screenshot", "/application/screenshot")].

(** The device API as the bridge sees it: the outcome of each method
    of [NINAClient] the orchestration calls.  The methods perform HTTP
    requests; what they return or raise is given by the environment. *)
Record NINAClient : Type := mkNINAClient {
  fetch_device_status : string -> Result value;
  fetch_image : string -> Result (option string);
  send_command : string -> value -> Result value
}.


(** ** The methods of [NINAClient], over an HTTP server

    A method maps the requests sent so far to its outcome and the
    requests sent when it returns. *)

Module http.

Record request : Type := mkRequest {
  url : string;
  params : option (list (string * value))
}.

Definition H (A : Type) : Type := list request -> Result A * list request.

Definition hret {A} (a : A) : H A := fun log => (Ok a, log).
Definition hraise {A} (e : exn) : H A := fun log => (Raise e, log).
Definition hbind {A B} (m : H A) (k : A -> H B) : H B :=
  fun log => match m log with
             | (Ok a, log') => k a log'
             | (Raise e, log') => (Raise e, log')
             end.
Definition hlift {A} (r : Result A) : H A := fun log => (r, log).

Local Notation "x <- m ;; k" := (hbind m (fun x => k))
  (at level 61, m at next level, right associativity).

(** [s == t] for a value [s] and a string literal [t] *)
Definition str_eq (v : value) (t : string) : bool :=
  match v with
  | VStr s => String.eqb s t
  | _ => false
  end.

(** [v.lower()] *)
Definition lower_method (v : value) : Result value :=
  match v with
  | VStr s => Ok (VStr (lower s))
  | VBytes b => Ok (VBytes (lower b))
  | _ => Raise (device_model.no_attribute v "lower")
  end.

(** [v[0]] for a truthy [v] *)
Definition index0 (v : value) : Result value :=
  match v with
  | VList (x :: _) => Ok x
  | VStr (String c _) => Ok (VStr (String c EmptyString))
  | VBytes (String c _) => Ok (VInt (Z.of_nat (nat_of_ascii c)))
  | VList [] => Raise (Exn IndexError "list index out of range")
  | VStr EmptyString => Raise (Exn IndexError "string index out of range")
  | VBytes EmptyString => Raise (Exn IndexError "index out of range")
  | VDict _ => Raise (Exn KeyError "0")
  | _ => Raise (Exn TypeError
                    ("'" ++ device_model.type_name v
                         ++ "' object is not subscriptable")%string)
  end.

Definition tracking_modes : list (string * Z) :=
  [("sidereal", 0); ("siderial", 0); ("lunar", 1); ("moon", 1);
   ("solar", 2); ("sun", 2); ("king", 3); ("stop", 4); ("stopped", 4);
   ("off", 4)]%Z.

(** [_parse_tracking_mode]; a [bool] is an [int] and is returned as it
    is. *)
Definition _parse_tracking_mode (mode : value) : Result value :=
  let as_int :=
    match mode with
    | VInt z => if (0 <=? z)%Z && (z <=? 4)%Z then Some mode else None
    | VBool _ => Some mode
    | _ => None
    end in
  match as_int with
  | Some v => Ok v
  | None =>
      let as_str :=
        match mode with
        | VStr s =>
            let normalized := lower (strip s) in
            match dict_get normalized tracking_modes with
            | Some n => Some (VInt n)
            | None =>
                if isdigit normalized then
                  let numeric := int_of_digits normalized in
                  if (0 <=? numeric)%Z && (numeric <=? 4)%Z
                  then Some (VInt numeric) else None
                else None
            end
        | _ => None
        end in
      match as_str with
      | Some v => Ok v
      | None =>
          Raise (Exn ValueError
                     "Invalid tracking mode; expected 0-4 or sidereal/lunar/solar/king/stopped")
      end
  end.

Section WithServer.

(** [self._base_url] *)
Variable base_url : string.

(** What the server answers to a request, after the requests sent
    before: the parsed JSON body or the body bytes, or what
    [session.get], [raise_for_status] or [response.json] raise. *)
Variable http_json : list request -> request -> Result value.
Variable http_bytes : list request -> request -> Result string.

(** [base64.b64encode(b).decode("ascii")], [urllib.parse.quote] and
    [str]. *)
Variable b64encode : string -> string.
Variable quote : string -> string.
Variable py_str : value -> string.

(** [f"{v}"] *)
Definition fstr (v : value) : string :=
  match v with
  | VStr s => s
  | _ => py_str v
  end.

Definition _get_json (path : string) (ps : option (list (string * value)))
  : H value :=
  fun log =>
    let r := mkRequest (base_url ++ path)%string ps in
    (http_json log r, log ++ [r]).

Definition _get_bytes (path : string) (ps : option (list (string * value)))
  : H string :=
  fun log =>
    let r := mkRequest (base_url ++ path)%string ps in
    (http_bytes log r, log ++ [r]).

Definition fetch_device_status (device : string) : H value :=
  if String.eqb device "application" then
    version <- _get_json "/version" None ;;
    app_start <- _get_json "/application-start" None ;;
    let response :=
      match version with
      | VDict d => get_or_none "Response" d
      | _ => version
      end in
    let start_time :=
      match app_start with
      | VDict d => get_or_none "Response" d
      | _ => app_start
      end in
    hret (VDict [("nina_version", response); ("api_version", response);
                 ("application_start", start_time)])
  else
    match dict_get device DEVICE_ENDPOINTS with
    | None => hraise (Exn ValueError
                          ("Unsupported device type: " ++ device)%string)
    | Some path => _get_json path None
    end.

Definition _fetch_livestack_image : H (option string) :=
  available <- _get_json "/livestack/image/available" None ;;
  let stacks :=
    match available with
    | VDict d => get_or_none "Response" d
    | _ => VNone
    end in
  let stacks := por stacks (VList []) in
  if negb (truthy stacks) then hret None
  else
    latest <- hlift (index0 stacks) ;;
    t1 <- hlift (device_model.get latest "Target" VNone) ;;
    target <- (if truthy t1 then hret t1
               else hlift (device_model.get latest "target" VNone)) ;;
    f1 <- hlift (device_model.get latest "Filter" VNone) ;;
    filter_name <- (if truthy f1 then hret f1
                    else hlift (device_model.get latest "filter" VNone)) ;;
    if negb (truthy target) || negb (truthy filter_name) then hret None
    else
      let path := ("/livestack/image/" ++ quote (py_str target) ++ "/"
                                       ++ quote (py_str filter_name))%string in
      image <- _get_bytes path (Some [("stream", VStr "true")]) ;;
      hret (Some image).

(** [try: body  except requests.HTTPError: return None] *)
Definition except_http_error (body : H (option string)) : H (option string) :=
  fun log => match body log with
             | (Raise (Exn HTTPError _), log') => (Ok None, log')
             | r => r
             end.

Definition fetch_image (image_type : string) : H (option string) :=
  if String.eqb image_type "most_recent_image" then
    except_http_error
      (image <- _get_bytes "/prepared-image"
                           (Some [("autoPrepare", VStr "true");
                                  ("stream", VStr "true")]) ;;
       hret (Some image))
  else if String.eqb image_type "livestack" then
    except_http_error _fetch_livestack_image
  else if String.eqb image_type "screenshot" then
    except_http_error
      (image <- _get_bytes "/application/screenshot"
                           (Some [("stream", VStr "true")]) ;;
       hret (Some image))
  else hraise (Exn ValueError
                   ("Unsupported image type: " ++ image_type)%string).

Definition _handle_sequence_command (action : value) (payload : dict)
  : H value :=
  if str_eq action "start" then
    let ps := [("skipValidation",
                match dict_get "skipValidation" payload with
                | Some v => v
                | None => VBool false
                end)] in
    _get_json "/sequence/start" (Some ps)
  else if str_eq action "stop" then _get_json "/sequence/stop" None
  else if str_eq action "reset" || str_eq action "restart" then
    _get_json "/sequence/reset" None
  else hraise (Exn ValueError
                   ("Unsupported sequence action: " ++ fstr action)%string).

Definition _handle_mount_command (action : value) (payload : dict)
  : H value :=
  if str_eq action "home" then _get_json "/equipment/mount/home" None
  else if str_eq action "park" then _get_json "/equipment/mount/park" None
  else if str_eq action "unpark" then _get_json "/equipment/mount/unpark" None
  else if str_eq action "tracking" || str_eq action "track"
          || str_eq action "set_tracking" then
    mode_value <- hlift (_parse_tracking_mode (get_or_none "mode" payload)) ;;
    _get_json "/equipment/mount/tracking" (Some [("mode", mode_value)])
  else hraise (Exn ValueError
                   ("Unsupported mount action: " ++ fstr action)%string).

Definition _handle_screenshot_command (payload : dict) : H value :=
  let ps :=
    fold_left (fun (ps : list (string * value)) key =>
                 match dict_get key payload with
                 | Some v => dict_set key v ps
                 | None => ps
                 end)
              ["resize"; "quality"; "size"; "scale"]
              [("stream", VStr "true")] in
  image_bytes <- _get_bytes "/application/screenshot" (Some ps) ;;
  hret (VDict [("image_base64", VStr (b64encode image_bytes))]).

Definition send_command (device : string) (payload : value) : H value :=
  match payload with
  | VDict d =>
      action <- hlift (lower_method (por (get_or_none "action" d) (VStr ""))) ;;
      if String.eqb device "sequence" then _handle_sequence_command action d
      else if String.eqb device "mount" then _handle_mount_command action d
      else if String.eqb device "application"
              || String.eqb device "screenshot"
           then _handle_screenshot_command d
      else hraise (Exn ValueError
                       ("Unsupported command target: " ++ device)%string)
  | _ => hraise (device_model.no_attribute payload "get")
  end.

(** The client as the bridge sees it when [log] has been sent. *)
Definition client_at (log : list request) : NINAClient :=
  mkNINAClient (fun device => fst (fetch_device_status device log))
               (fun image_type => fst (fetch_image image_type log))
               (fun device payload => fst (send_command device payload log)).

End WithServer.

End http.

End nina_client.

(* ================================================================== *)
(** * scheduler.py *)
(* ================================================================== *)

Module scheduler.

Section WithWorld.

(** Everything outside the scheduler that a task may read or change,
    including the monotonic clock. *)
Variable World : Type.

(** [time.monotonic()], in seconds. *)
Variable monotonic : World -> Q.

(** [self._stop_event.wait(timeout=t)]: the world after the wait and
    whether another thread set the event meanwhile. *)
Variable stop_wait : Q -> World -> bool * World.

Record ScheduledTask : Type := mkScheduledTask {
  name : string;
  interval : Q;
  fn : World -> Result unit * World;
  last_run : Q
}.

Definition set_last_run (task : ScheduledTask) (t : Q) : ScheduledTask :=
  mkScheduledTask (name task) (interval task) (fn task) t.

(** [_thread]: [None] before the first [start()], otherwise whether
    the thread is alive. *)
Record Scheduler : Type := mkScheduler {
  _tasks : list ScheduledTask;
  _stop_event : bool;
  _thread : option bool
}.

(** [Scheduler()] *)
Definition new : Scheduler := mkScheduler [] false None.

(** [add_task] appends under the lock and has no other path. *)
Definition add_task (task : ScheduledTask) (s : Scheduler)
  : Result Scheduler :=
  Ok (mkScheduler (_tasks s ++ [task]) (_stop_event s) (_thread s)).

Definition start (s : Scheduler) : Scheduler :=
  match _thread s with
  | Some true => s
  | _ => mkScheduler (_tasks s) (_stop_event s) (Some true)
  end.

(** [_safe_run]: the action runs to completion; what it raises is
    logged and dropped. *)
Definition _safe_run (task : ScheduledTask) (w : World) : World :=
  snd (fn task w).

(** The body of the [for task in self._tasks] loop of [_run]. *)
Definition run_task (now : Q) (acc : list ScheduledTask * Q * World)
           (task : ScheduledTask) : list ScheduledTask * Q * World :=
  let '(done, next_delay, w) := acc in
  let due_in := (last_run task + interval task) - now in
  if Qle_bool due_in 0 then
    let w1 := _safe_run task w in
    let task' := set_last_run task (monotonic w1) in
    let due_in := interval task in
    (done ++ [task'], Qmin next_delay (Qmax due_in (5 # 100)), w1)
  else
    (done ++ [task], Qmin next_delay (Qmax due_in (5 # 100)), w).

(** One pass of the [while] loop of [_run], up to the wait. *)
Definition run_pass (tasks : list ScheduledTask) (w : World)
  : list ScheduledTask * Q * World :=
  let now := monotonic w in
  fold_left (run_task now) tasks ([], 1, w).

(** [_run], for at most [fuel] passes. *)
Fixpoint _run (fuel : nat) (s : Scheduler) (w : World)
  : Scheduler * World :=
  match fuel with
  | O => (s, w)
  | S fuel' =>
      if _stop_event s then
        (mkScheduler (_tasks s) true (Some false), w)
      else
        let '(tasks', next_delay, w1) := run_pass (_tasks s) w in
        let '(set, w2) := stop_wait next_delay w1 in
        _run fuel' (mkScheduler tasks' set (_thread s)) w2
  end.

(** [stop()] sets the event; the loop leaves at its next test. *)
Definition stop (s : Scheduler) : Scheduler :=
  mkScheduler (_tasks s) true (_thread s).

End WithWorld.

Arguments name {World} _.
Arguments interval {World} _.
Arguments fn {World} _.
Arguments last_run {World} _.
Arguments mkScheduledTask {World} _ _ _ _.
Arguments set_last_run {World} _ _.
Arguments _tasks {World} _.
Arguments _stop_event {World} _.
Arguments _thread {World} _.
Arguments mkScheduler {World} _ _ _.
Arguments new {World}.
Arguments add_task {World} _ _.
Arguments start {World} _.
Arguments stop {World} _.
Arguments _safe_run {World} _ _.
Arguments run_task {World} _ _ _ _.
Arguments run_pass {World} _ _ _.

End scheduler.

(* ================================================================== *)
(** * bridge.py *)
(* ================================================================== *)

Module bridge.
Import config mqtt_client device_model discovery nina_client.

(** The mutable fields of a [Bridge] object, with its configuration
    [cfg] ([self.config]).  [_publish_queue] is the FIFO content of the
    [queue.Queue], oldest first; [_published_discovery_topics] is the
    [set] of topics; [scheduler_stopped] is the stop event of
    [self.scheduler]. *)
Record Bridge : Type := mkBridge {
  cfg : BridgeConfig;
  _publish_queue : list PublishMessage;
  _stop_event : bool;
  _published_discovery_topics : set string;
  scheduler_stopped : bool
}.

(** [Bridge(config)] *)
Definition new (c : BridgeConfig) : Bridge :=
  mkBridge c [] false (empty_set string) false.

(** ** Methods: state passing, with exceptions

    A method maps the object to its outcome and the object as the
    method left it; what was enqueued before an exception stays
    enqueued. *)

Definition M (A : Type) : Type := Bridge -> Result A * Bridge.

Definition ret {A} (a : A) : M A := fun b => (Ok a, b).
Definition bind {A B} (m : M A) (k : A -> M B) : M B :=
  fun b => match m b with
           | (Ok a, b') => k a b'
           | (Raise e, b') => (Raise e, b')
           end.
Definition lift {A} (r : Result A) : M A := fun b => (r, b).

(** [try: body  except Exception as exc: handler(exc)] *)
Definition try_except {A} (body : M A) (handler : exn -> M A) : M A :=
  fun b => match body b with
           | (Ok a, b') => (Ok a, b')
           | (Raise e, b') => handler e b'
           end.

Notation "x <- m ;; k" := (bind m (fun x => k))
  (at level 61, m at next level, right associativity).
Notation "m ;;; k" := (bind m (fun _ => k))
  (at level 61, right associativity).

(** [self._publish_queue.put(msg)]: the queue is unbounded *)
Definition put (msg : PublishMessage) : M unit :=
  fun b => (Ok tt,
            mkBridge (cfg b) (_publish_queue b ++ [msg]) (_stop_event b)
                     (_published_discovery_topics b) (scheduler_stopped b)).

Definition get_config : M BridgeConfig := fun b => (Ok (cfg b), b).

(** [for x in xs: body(x)] *)
Fixpoint for_each {A} (xs : list A) (body : A -> M unit) : M unit :=
  match xs with
  | [] => ret tt
  | x :: xs' => body x ;;; for_each xs' body
  end.

(** [json.dumps(v)] *)
Definition json_dumps (v : value) : Result payload_t :=
  if json_serializable v then Ok (PJson v)
  else Raise (Exn TypeError
                  "Object of type bytes is not JSON serializable").

(** An inbound MQTT message: its topic and payload bytes. *)
Record MQTTMessage : Set := mkMQTTMessage {
  msg_topic : string;
  msg_payload : string
}.

(** [parts[-2] if len(parts) >= 2 else "unknown"], for
    [parts = topic.split("/")] *)
Definition command_device (topic : string) : string :=
  let parts := split_char "/" topic in
  if (2 <=? List.length parts)%nat
  then nth (List.length parts - 2) parts ""
  else "unknown".

Section WithCollaborators.

(** The device API client [self.nina]. *)
Variable nina : NINAClient.

(** [str(v)] for a value that is neither [bytes] nor [bool]. *)
Variable py_str : value -> string.

(** [json.loads(raw.decode("utf-8") or "{}")] on payload bytes: a
    document, or [JSONDecodeError] / [UnicodeDecodeError]. *)
Variable loads_payload : string -> Result value.

Definition _publish_availability (payload : string) : M unit :=
  c <- get_config ;;
  topic <- lift (render_availability_topic (topics (mqtt c)) None) ;;
  put (mkPublishMessage topic (PText payload) true 1).

(** [set_lwt] and [connect] act on the transport only. *)
Definition _configure_mqtt : M unit :=
  c <- get_config ;;
  availability_topic <- lift (render_availability_topic (topics (mqtt c)) None) ;;
  _publish_availability "ON".

Definition _handle_command (msg : MQTTMessage) : M unit :=
  fun b =>
    match loads_payload (msg_payload msg) with
    | Raise (Exn JSONDecodeError _) => (Ok tt, b)
    | Raise e => (Raise e, b)
    | Ok payload =>
        let device := command_device (msg_topic msg) in
        try_except
          (response <- lift (send_command nina device payload) ;;
           if truthy response then
             let state_topic :=
               state_topic (base_topic (topics (mqtt (cfg b)))) device
                           "command_response" in
             body <- lift (json_dumps response) ;;
             put (mkPublishMessage state_topic body false 0)
           else ret tt)
          (fun exc =>
             c <- get_config ;;
             error_topic <-
               lift (render_command_error_topic (topics (mqtt c)) device) ;;
             put (mkPublishMessage error_topic (PText (exn_msg exc))
                                   false 0))
          b
    end.

(** One pass of the loop of [_publish_device_discovery]. *)
Definition announce (msg : PublishMessage) : M unit :=
  fun b =>
    if set_mem string_dec (topic msg) (_published_discovery_topics b)
    then (Ok tt, b)
    else (Ok tt,
          mkBridge (cfg b) (_publish_queue b ++ [msg]) (_stop_event b)
                   (set_add string_dec (topic msg)
                            (_published_discovery_topics b))
                   (scheduler_stopped b)).

(** The messages [_publish_device_discovery] builds: [None] is the
    early [return] for a device of neither kind. *)
Definition discovery_messages (c : BridgeConfig) (device : string)
           (extra_keys : option (list string))
  : Result (option (list PublishMessage)) :=
  let extra_keys :=
    match extra_keys with Some ks => ks | None => [] end in
  if str_in device IMAGE_DEVICES then
    rbind (build_image_discovery_message c device)
          (fun m => Ok (Some [m]))
  else if dict_mem device DEVICE_SENSORS then
    let refresh :=
      match dict_get device (devices c) with
      | Some dc => refresh_every dc
      | None => 60%Z
      end in
    rbind (build_sensor_discovery_messages c device refresh
                                           (Some extra_keys))
          (fun ms => Ok (Some ms))
  else Ok None.

Definition _publish_device_discovery (device : string)
           (extra_keys : option (list string)) : M unit :=
  c <- get_config ;;
  built <- lift (discovery_messages c device extra_keys) ;;
  match built with
  | None => ret tt
  | Some messages => for_each messages announce
  end.

Definition _publish_discovery : M unit :=
  c <- get_config ;;
  for_each (devices c)
           (fun dc => if enabled (snd dc)
                      then _publish_device_discovery (fst dc) None
                      else ret tt).

Definition _format_value (v : value) : payload_t :=
  match v with
  | VBytes b => PBytes b
  | VBool b => PText (if b then "true" else "false")
  | _ => PText (py_str v)
  end.

(** The body of the state loop of [_poll_device]. *)
Definition publish_state (base_topic device : string)
           (vv : string * value) : M unit :=
  let '(variable, v) := vv in
  match v with
  | VNone => ret tt
  | _ => put (mkPublishMessage (state_topic base_topic device variable)
                               (_format_value v) true 0)
  end.

Definition _poll_device (device : string) : M unit :=
  if negb (dict_mem device DEVICE_ENDPOINTS) then ret tt
  else
    c <- get_config ;;
    availability_topic <-
      lift (render_device_availability_topic (topics (mqtt c)) device) ;;
    try_except
      (status <- lift (fetch_device_status nina device) ;;
       values <- lift (extract_state_values device status) ;;
       _publish_device_discovery device (Some (dict_keys values)) ;;;
       for_each values (publish_state (base_topic (topics (mqtt c))) device) ;;;
       put (mkPublishMessage availability_topic (PText "ON") true 1))
      (fun _ =>
         put (mkPublishMessage availability_topic (PText "OFF") true 1)).

Definition _poll_image (image_type : string) : M unit :=
  if negb (dict_mem image_type IMAGE_ENDPOINTS) then ret tt
  else
    image_bytes <- lift (fetch_image nina image_type) ;;
    c <- get_config ;;
    availability_topic <-
      lift (render_device_availability_topic (topics (mqtt c)) image_type) ;;
    match image_bytes with
    | None =>
        put (mkPublishMessage availability_topic (PText "OFF") true 1)
    | Some bytes =>
        put (mkPublishMessage (image_topic (base_topic (topics (mqtt c))) image_type)
                              (PBytes bytes) false 0) ;;;
        put (mkPublishMessage availability_topic (PText "ON") true 1)
    end.

Definition _publish_all_device_availability (payload : string) : M unit :=
  c <- get_config ;;
  for_each (devices c)
           (fun dc =>
              if enabled (snd dc) then
                topic <- lift (render_device_availability_topic
                                 (topics (mqtt c)) (fst dc)) ;;
                put (mkPublishMessage topic (PText payload) true 1)
              else ret tt).

Definition scheduler_stop : M unit :=
  fun b => (Ok tt,
            mkBridge (cfg b) (_publish_queue b) (_stop_event b)
                     (_published_discovery_topics b) true).

Definition stop_event_set : M unit :=
  fun b => (Ok tt,
            mkBridge (cfg b) (_publish_queue b) true
                     (_published_discovery_topics b)
                     (scheduler_stopped b)).

(** [stop()], up to the join of the publisher thread. *)
Definition stop : M unit :=
  scheduler_stop ;;;
  _publish_all_device_availability "OFF" ;;;
  _publish_availability "OFF" ;;;
  stop_event_set.


(** [_subscribe_commands]: the subscription itself is on the
    transport; rendering the wildcard topic can raise. *)
Definition _subscribe_commands : M unit :=
  c <- get_config ;;
  command_topic <- lift (render_command_topic (topics (mqtt c)) "+") ;;
  ret tt.

(** The tasks [_schedule_polls] adds to the scheduler, in order: one
    per enabled device, each bound to the poll of its kind. *)
Definition poll_task (dc : string * DeviceConfig)
  : scheduler.ScheduledTask Bridge :=
  let device_name := fst dc in
  let task_fn :=
    if dict_mem device_name IMAGE_ENDPOINTS || str_in device_name IMAGE_DEVICES
    then _poll_image device_name
    else _poll_device device_name in
  scheduler.mkScheduledTask ("poll_" ++ device_name)%string
                            (inject_Z (refresh_every (snd dc)))
                            task_fn 0.

Fixpoint schedule_loop (devs : list (string * DeviceConfig))
         (s : scheduler.Scheduler Bridge)
  : Result (scheduler.Scheduler Bridge) :=
  match devs with
  | [] => Ok s
  | dc :: rest =>
      if negb (enabled (snd dc)) then schedule_loop rest s
      else rbind (scheduler.add_task (poll_task dc) s) (schedule_loop rest)
  end.

Definition _schedule_polls (c : BridgeConfig)
           (s : scheduler.Scheduler Bridge)
  : Result (scheduler.Scheduler Bridge) :=
  schedule_loop (devices c) s.

(** [start()], as far as the bridge's own fields go: starting the
    publisher thread, scheduling the polls and starting the scheduler
    leave them unchanged. *)
Definition start : M unit :=
  _configure_mqtt ;;;
  _subscribe_commands ;;;
  _publish_discovery.

End WithCollaborators.

(** ** The publisher thread

    [_publisher_loop] runs beside the producers, so it is a transition
    system: the consumer moves between the program points of the loop
    while the environment enqueues messages and sets the stop event.
    [handed] lists the messages passed to [self.mqtt.publish], oldest
    first. *)

Inductive consumer_pc : Type :=
| AtIsSet                          (* [self._stop_event.is_set()] *)
| AtEmpty                          (* [self._publish_queue.empty()] *)
| AtGet                            (* [self._publish_queue.get(timeout=0.5)] *)
| AtPublish (m : PublishMessage)   (* [self.mqtt.publish(message)] *)
| Exited.

Record Pipeline : Type := mkPipeline {
  queue : list PublishMessage;
  stop_set : bool;
  pc : consumer_pc;
  handed : list PublishMessage
}.

Inductive event : Type :=
| EvPut (m : PublishMessage)       (* a producer's [put] *)
| EvSetStop                        (* [self._stop_event.set()] *)
| EvRunning                        (* [is_set()] returned false *)
| EvStopSeen                       (* [is_set()] returned true *)
| EvNotEmpty                       (* [empty()] returned false *)
| EvExit                           (* [empty()] returned true: loop ends *)
| EvGet (m : PublishMessage)       (* [get] returned [m] *)
| EvTimeout                        (* [get] raised [queue.Empty] *)
| EvPublish (m : PublishMessage) (ok : bool). (* [publish] returned or raised *)

Inductive step : Pipeline -> event -> Pipeline -> Prop :=
| step_put q s p h m :
    step (mkPipeline q s p h) (EvPut m) (mkPipeline (q ++ [m]) s p h)
| step_set_stop q s p h :
    step (mkPipeline q s p h) EvSetStop (mkPipeline q true p h)
| step_running q h :
    step (mkPipeline q false AtIsSet h) EvRunning (mkPipeline q false AtGet h)
| step_stop_seen q h :
    step (mkPipeline q true AtIsSet h) EvStopSeen (mkPipeline q true AtEmpty h)
| step_not_empty m q s h :
    step (mkPipeline (m :: q) s AtEmpty h) EvNotEmpty
         (mkPipeline (m :: q) s AtGet h)
| step_exit s h :
    step (mkPipeline [] s AtEmpty h) EvExit (mkPipeline [] s Exited h)
| step_get m q s h :
    step (mkPipeline (m :: q) s AtGet h) (EvGet m)
         (mkPipeline q s (AtPublish m) h)
| step_timeout s h :
    step (mkPipeline [] s AtGet h) EvTimeout (mkPipeline [] s AtIsSet h)
| step_publish q s h m ok :
    step (mkPipeline q s (AtPublish m) h) (EvPublish m ok)
         (mkPipeline q s AtIsSet (h ++ [m])).

(** A run: the events in the order they happened. *)
Inductive run : Pipeline -> list event -> Pipeline -> Prop :=
| run_nil p : run p [] p
| run_snoc p tr p' e p'' :
    run p tr p' -> step p' e p'' -> run p (tr ++ [e]) p''.

(** The publisher thread starts at the loop test. *)
Definition pipeline_start (q : list PublishMessage) : Pipeline :=
  mkPipeline q false AtIsSet [].

(** The messages producers enqueued during a run, in order. *)
Fixpoint puts (tr : list event) : list PublishMessage :=
  match tr with
  | [] => []
  | EvPut m :: tr' => m :: puts tr'
  | _ :: tr' => puts tr'
  end.

Definition is_env (e : event) : bool :=
  match e with
  | EvPut _ | EvSetStop => true
  | _ => false
  end.

End bridge.

(* ================================================================== *)
(** * Notions used to state the properties *)
(* ================================================================== *)

Module props.
Import config mqtt_client device_model discovery nina_client bridge.

(** The message the consumer holds between [get] and [publish]. *)
Definition inflight (c : consumer_pc) : list PublishMessage :=
  match c with
  | AtPublish m => [m]
  | _ => []
  end.

(** What holds of a pipeline after the events [tr], started with [q0]
    in the queue. *)
Definition drain_inv (q0 : list PublishMessage) (tr : list event)
           (p : Pipeline) : Prop :=
  (stop_set p = true <-> In EvSetStop tr) /\
  match pc p with
  | Exited =>
      exists tr1 tr2 p1,
        tr = tr1 ++ EvExit :: tr2 /\
        forallb is_env tr2 = true /\
        run (pipeline_start q0) tr1 p1 /\
        stop_set p1 = true /\ queue p1 = [] /\
        handed p = q0 ++ puts tr1 /\
        queue p = puts tr2
  | c =>
      q0 ++ puts tr = handed p ++ inflight c ++ queue p /\
      (c = AtEmpty -> stop_set p = true)
  end.

(** A message used in examples. *)
Definition sample_msg (t : string) : PublishMessage :=
  mkPublishMessage t (PText "ON") true 1.

(** ** The life of a bridge, as far as discovery is concerned

    A process performs calls of [_publish_device_discovery] (from
    [start()] and from every poll) between which producers and the
    consumer change the queue in any way; nothing else touches the set
    of published topics. *)
Inductive op : Type :=
| OpDiscovery (device : string) (extra_keys : option (list string))
| OpQueue (f : list PublishMessage -> list PublishMessage).

(** The messages a call appended to the queue. *)
Definition enqueued (b b' : Bridge) : list PublishMessage :=
  skipn (List.length (_publish_queue b)) (_publish_queue b').

Definition set_queue (q : list PublishMessage) (b : Bridge) : Bridge :=
  mkBridge (cfg b) q (_stop_event b) (_published_discovery_topics b)
           (scheduler_stopped b).

(** Runs [ops] from [b]; the first component collects, in order, the
    discovery messages the calls enqueued. *)
Fixpoint lifetime (ops : list op) (b : Bridge) (log : list PublishMessage)
  : list PublishMessage * Bridge :=
  match ops with
  | [] => (log, b)
  | OpDiscovery device extra_keys :: ops' =>
      let b' := snd (_publish_device_discovery device extra_keys b) in
      lifetime ops' b' (log ++ enqueued b b')
  | OpQueue f :: ops' =>
      lifetime ops' (set_queue (f (_publish_queue b)) b) log
  end.

Definition published (b : Bridge) (t : string) : Prop :=
  set_In t (_published_discovery_topics b).


(** ** Scheduler notions *)

(** The time at which the loop next finds [task] due. *)
Definition due_time {World} (task : scheduler.ScheduledTask World) : Q :=
  scheduler.last_run task + scheduler.interval task.

(** The loop's own test, [due_in <= 0], at time [now]. *)
Definition is_due {World} (task : scheduler.ScheduledTask World) (now : Q)
  : bool :=
  Qle_bool ((scheduler.last_run task + scheduler.interval task) - now) 0.



(** ** Extraction notions *)

(** The names under which [_build_lookup] files the fields of a
    status mapping, before normalisation: the keys of the [Response]
    mapping, [parent_child] for the entries of any other mapping, and
    the remaining top-level keys. *)
Definition field_names (status : dict) : list string :=
  flat_map (fun kv : string * value =>
              match snd kv with
              | VDict inner =>
                  if String.eqb (fst kv) "Response" then map fst inner
                  else map (fun iv : string * value =>
                              (fst kv ++ "_" ++ fst iv)%string) inner
              | _ => [fst kv]
              end) status.

Fixpoint nodupb (l : list string) : bool :=
  match l with
  | [] => true
  | x :: l' => negb (existsb (String.eqb x) l') && nodupb l'
  end.


(** [DEVICE_SENSORS.get(device, {})] as a list of entries *)
Definition sensors_of (device : string) : list (string * SensorDef) :=
  match dict_get device DEVICE_SENSORS with
  | Some sensors => sensors
  | None => []
  end.

(** Every entry of [sensors] named [var] has no alias list. *)
Definition no_alias (var : string) (sensors : list (string * SensorDef))
  : bool :=
  forallb (fun vd : string * SensorDef =>
             if String.eqb (fst vd) var
             then match sd_source (snd vd) with
                  | None => true
                  | Some _ => false
                  end
             else true) sensors.

(** The response of the extraction example and two variations. *)
Definition minus_five : value := VFloat (-5)%float.

Definition camera_response : value :=
  VDict [("Response", VDict [("Temperature", minus_five)])].

Definition camera_response_top_level : value :=
  VDict [("Response", VDict []); ("Temperature", minus_five)].

Definition camera_response_null : value :=
  VDict [("Response", VDict [("Temperature", VNone)])].


(** ** Orchestration notions *)

(** The state messages one poll enqueues for [values]: one per entry
    whose value is not [None], in the order of the mapping. *)
Definition state_messages (py_str : value -> string)
           (base device : string) (values : dict) : list PublishMessage :=
  flat_map (fun vv : string * value =>
              match snd vv with
              | VNone => []
              | v => [mkPublishMessage (state_topic base device (fst vv))
                                       (_format_value py_str v) true 0]
              end) values.

(** [b] with [ms] appended to its queue. *)
Definition push (ms : list PublishMessage) (b : Bridge) : Bridge :=
  set_queue (_publish_queue b ++ ms) b.

Definition availability_message (t payload : string) : PublishMessage :=
  mkPublishMessage t (PText payload) true 1.

(** A bridge with the default topics and three enabled devices. *)
Definition sample_config : BridgeConfig :=
  mkBridgeConfig default_nina default_mqtt
                 [("camera", mkDeviceConfig true 30);
                  ("mount", mkDeviceConfig true 60);
                  ("dome", mkDeviceConfig false 60)]
                 default_device_info.

Definition default_availability (device : string) : string :=
  ("nina/" ++ (if String.eqb device "" then "bridge" else device)
           ++ "/availability")%string.

(** A device API whose status call returns [status], whose image call
    finds no image and whose command call returns [reply]. *)
Definition sample_nina (status reply : Result value) : NINAClient :=
  mkNINAClient (fun _ => status) (fun _ => Ok None) (fun _ _ => reply).

(** A stand-in for [str]. *)
Definition sample_str (v : value) : string :=
  match v with
  | VStr s => s
  | VNone => "None"
  | _ => "?"
  end.






(** ** More scheduler notions *)

(** What the loop computes as [due_in] for [task] in a pass at [now]:
    the interval if the task runs in the pass, the remaining time
    otherwise. *)
Definition due_in_after {World} (task : scheduler.ScheduledTask World)
           (now : Q) : Q :=
  if is_due task now then scheduler.interval task
  else due_time task - now.

(** A clock world whose wait lets the requested time pass and never
    sees the stop event. *)
Definition clock_wait (timeout : Q) (w : Q) : bool * Q :=
  (false, w + timeout).



(** ** Switch notions *)

(** The name under which [_append_switches] files field [field] of the
    entry at position [idx] of a switch list. *)
Definition switch_key (kind : string) (idx : nat) (field : string) : string :=
  (kind ++ "_" ++ str_of_nat idx ++ "_" ++ field)%string.

(** A switch status with three read-only entries, the middle one not a
    mapping, and one writable entry. *)
Definition switch_lists : dict :=
  [("Connected", VBool true);
   ("ReadonlySwitches",
    VList [VDict [("Name", VStr "Voltage"); ("Value", VInt 12)];
           VStr "n/a";
           VDict [("Name", VStr "Current"); ("Id", VInt 2)]]);
   ("WriteableSwitches",
    VList [VDict [("Name", VStr "Fan"); ("Min", VInt 0); ("Max", VInt 100)]])].

Definition switch_response : value :=
  VDict [("Response", VDict switch_lists)].

Definition switch_values : dict :=
  match extract_state_values "switch" switch_response with
  | Ok values => values
  | Raise _ => []
  end.

(** ** More orchestration notions *)

(** [m] is a discovery message of one of the enabled devices of [c]. *)
Definition of_enabled_device (c : BridgeConfig) (m : PublishMessage) : Prop :=
  exists device dc ms,
    In (device, dc) (devices c) /\ enabled dc = true /\
    discovery_messages c device None = Ok (Some ms) /\ In m ms.

(** The string has no [/]. *)
Definition no_slash (s : string) : bool :=
  all_chars (fun c => negb (Ascii.eqb c "/")) s.


(** ** Device API notions *)



(** The devices [send_command] dispatches to. *)
Definition is_command_target (device : string) : bool :=
  String.eqb device "sequence" || String.eqb device "mount"
  || String.eqb device "application" || String.eqb device "screenshot".

(** A server that answers every JSON request with the same document
    and every byte request with an HTTP error. *)
Definition server_json (doc : value) (log : list http.request)
           (r : http.request) : Result value := Ok doc.
Definition server_no_bytes (log : list http.request) (r : http.request)
  : Result string := Raise (Exn HTTPError "404 Client Error").

(** Stand-ins for [base64.b64encode] and [urllib.parse.quote]. *)
Definition sample_b64 (b : string) : string := b.
Definition sample_quote (s : string) : string := s.

(** The client of the sample server, as the bridge sees it at start. *)
Definition sample_client (doc : value) : NINAClient :=
  http.client_at "http://127.0.0.1:1888/v2/api" (server_json doc)
                 server_no_bytes sample_b64 sample_quote sample_str [].


(** A method that, from any point, either raises without sending a
    request or sends exactly one. *)
Definition one_request_or_error {A} (m : http.H A) : Prop :=
  forall log,
    (snd (m log) = log /\ exists e, fst (m log) = Raise e) \/
    (exists req, snd (m log) = log ++ [req]).


(** ** Configuration notions *)

(** [int] of a value that is not a number: here it always fails. *)
Definition sample_int (v : value) : Result Z :=
  Raise (Exn ValueError "invalid literal for int() with base 10").

(** A parsed configuration file that speeds the camera up, switches the
    dome off and names a device the bridge does not know. *)
Definition sample_yaml : dict :=
  [("devices",
    VDict [("dome", VDict [("enabled", VBool false)]);
           ("camera", VDict [("refresh_every", VInt 5)]);
           ("telescope", VDict [("refresh_every", VInt 1)])])].

(** The device table built from [sample_yaml]. *)
Definition sample_devices : list (string * DeviceConfig) :=
  map (fun name =>
         (name,
          if String.eqb name "camera" then mkDeviceConfig true 5
          else if String.eqb name "dome" then mkDeviceConfig false 60
          else mkDeviceConfig true 60))
      config_loader.DEFAULT_DEVICE_TYPES.


End props.

Import config mqtt_client device_model discovery nina_client bridge props.

(* ================================================================== *)
(** * The publish pipeline (bridge.py, [_publisher_loop]) *)
(* ================================================================== *)

Lemma puts_app (a b : list event) : puts (a ++ b) = puts a ++ puts b.
Proof.
  induction a as [|e a IH]; simpl; [reflexivity|].
  destruct e; simpl; rewrite IH; reflexivity.
Qed.

Lemma puts_env_only (tr : list event) :
  forallb is_env tr = true -> ~ In EvStopSeen tr /\ ~ In EvExit tr.
Proof.
  induction tr as [|e tr IH]; simpl; intros H.
  - split; intros [].
  - apply andb_prop in H as [He Htr]. destruct (IH Htr) as [H1 H2].
    split; intros [Heq|Hin]; subst; try discriminate; auto.
Qed.

Lemma in_snoc {A} (x y : A) (l : list A) : In x (l ++ [y]) <-> In x l \/ y = x.
Proof.
  rewrite in_app_iff. simpl. tauto.
Qed.

Lemma run_cons (p p' p'' : Pipeline) (e : event) (tr : list event) :
  step p e p' -> run p' tr p'' -> run p (e :: tr) p''.
Proof.
  intros Hs Hr. induction Hr as [q|q tr q' e' q'' Hr IH Hs'].
  - change [e] with ([] ++ [e]). eapply run_snoc; [apply run_nil|exact Hs].
  - change (e :: tr ++ [e']) with ((e :: tr) ++ [e']).
    eapply run_snoc; [apply IH; exact Hs|exact Hs'].
Qed.

Lemma run_drain_inv (q0 : list PublishMessage) (tr : list event) (p : Pipeline) :
  run (pipeline_start q0) tr p -> drain_inv q0 tr p.
Proof.
  intros Hr. remember (pipeline_start q0) as p0 eqn:Hp0.
  induction Hr as [p|p tr p' e p'' Hr IH Hs]; subst.
  - unfold drain_inv, pipeline_start; simpl. split.
    + split; [discriminate|intros []].
    + rewrite app_nil_r. split; [reflexivity|discriminate].
  - specialize (IH eq_refl). destruct IH as [Hstop Hpc].
    assert (Hkeep : forall s e0, e0 <> EvSetStop ->
              (s = true <-> In EvSetStop tr) ->
              (s = true <-> In EvSetStop (tr ++ [e0]))).
    { intros s e0 Hne Hs0. rewrite in_snoc. split; [tauto|].
      intros [H|H]; [tauto|congruence]. }
    inversion Hs as [q s c h m|q s c h|q h|q h|m q s h|s h|m q s h|s h|q s h m ok];
      subst; unfold drain_inv in *; simpl in *;
      (split; [try (apply Hkeep; [discriminate|exact Hstop])|]).
    + (* put *)
      destruct c; simpl in *;
        try (destruct Hpc as [Hq Hc]; split; [|exact Hc];
             rewrite puts_app; simpl; rewrite app_assoc, Hq;
             rewrite <- ?app_assoc; reflexivity).
      destruct Hpc as (tr1 & tr2 & p1 & Htr & Henv & Hr1 & Hs1 & Hq1 & Hh & Hq).
      exists tr1, (tr2 ++ [EvPut m]), p1. subst tr.
      rewrite <- app_assoc. simpl. repeat split; auto.
      * rewrite forallb_app, Henv. reflexivity.
      * rewrite puts_app, Hq. reflexivity.
    + (* set stop *)
      rewrite in_snoc. tauto.
    + destruct c; simpl in *;
        try (destruct Hpc as [Hq Hc]; split; [|reflexivity];
             rewrite puts_app; simpl; rewrite app_nil_r; exact Hq).
      destruct Hpc as (tr1 & tr2 & p1 & Htr & Henv & Hr1 & Hs1 & Hq1 & Hh & Hq).
      exists tr1, (tr2 ++ [EvSetStop]), p1. subst tr.
      rewrite <- app_assoc. simpl. repeat split; auto.
      * rewrite forallb_app, Henv. reflexivity.
      * rewrite puts_app, Hq. simpl. rewrite app_nil_r. reflexivity.
    + (* is_set() is false *)
      destruct Hpc as [Hq _]. split; [|discriminate].
      rewrite puts_app; simpl; rewrite app_nil_r; exact Hq.
    + (* is_set() is true *)
      destruct Hpc as [Hq _]. split; [|reflexivity].
      rewrite puts_app; simpl; rewrite app_nil_r; exact Hq.
    + (* empty() is false *)
      destruct Hpc as [Hq _]. split; [|discriminate].
      rewrite puts_app; simpl; rewrite app_nil_r; exact Hq.
    + (* empty() is true *)
      destruct Hpc as [Hq Hset].
      exists tr, [], (mkPipeline [] s AtEmpty h).
      repeat split; auto.
      rewrite !app_nil_r in Hq. symmetry. exact Hq.
    + (* get returns *)
      destruct Hpc as [Hq _]. split; [|discriminate].
      rewrite puts_app; simpl; rewrite app_nil_r; exact Hq.
    + (* get times out *)
      destruct Hpc as [Hq _]. split; [|discriminate].
      rewrite puts_app; simpl; rewrite app_nil_r; exact Hq.
    + (* publish *)
      destruct Hpc as [Hq _]. split; [|discriminate].
      rewrite puts_app; simpl; rewrite app_nil_r.
      rewrite Hq. simpl. rewrite <- app_assoc. reflexivity.
Qed.

Lemma split_before (A : Type) (a b : A) (pre post l1 l2 : list A) :
  pre ++ a :: post = l1 ++ b :: l2 ->
  a <> b -> ~ In a l2 ->
  exists mid, l1 = pre ++ a :: mid.
Proof.
  revert l1. induction pre as [|x pre IH]; intros l1 Heq Hab Hnin.
  - destruct l1 as [|y l1]; simpl in Heq.
    + inversion Heq; subst. contradiction.
    + inversion Heq; subst. exists l1. reflexivity.
  - destruct l1 as [|y l1]; simpl in Heq.
    + inversion Heq; subst. exfalso. apply Hnin.
      apply in_or_app. right. left. reflexivity.
    + inversion Heq; subst.
      destruct (IH l1 H1 Hab Hnin) as [mid Hmid].
      exists mid. rewrite Hmid. reflexivity.
Qed.

(** Once the stop event is set and the producers are quiet, the consumer
    does leave the loop, after handing over what it holds and all that
    is queued, in order. *)
Lemma drain_from_test (q h : list PublishMessage) :
  exists tr,
    run (mkPipeline q true AtIsSet h) tr (mkPipeline [] true Exited (h ++ q)) /\
    forallb (fun e => negb (is_env e)) tr = true.
Proof.
  revert h. induction q as [|m q IH]; intros h.
  - exists [EvStopSeen; EvExit]. split; [|reflexivity].
    rewrite app_nil_r.
    eapply run_cons; [apply step_stop_seen|].
    eapply run_cons; [apply step_exit|]. apply run_nil.
  - destruct (IH (h ++ [m])) as (tr & Hr & Hc).
    exists (EvStopSeen :: EvNotEmpty :: EvGet m :: EvPublish m true :: tr).
    split; [|simpl; exact Hc].
    eapply run_cons; [apply step_stop_seen|].
    eapply run_cons; [apply step_not_empty|].
    eapply run_cons; [apply step_get|].
    eapply run_cons; [apply step_publish|].
    rewrite <- app_assoc in Hr. exact Hr.
Qed.

(** X7. From any point of the loop, once the stop event is set the
    consumer can run to the end on its own: it leaves the loop having
    handed over the message it holds and then the whole queue, in
    order, with no further help from the producers. *)
Lemma drain_completes (p : Pipeline) :
  pc p <> Exited -> stop_set p = true ->
  exists tr p',
    run p tr p' /\ pc p' = Exited /\
    handed p' = handed p ++ inflight (pc p) ++ queue p /\
    forallb (fun e => negb (is_env e)) tr = true.
Proof.
  destruct p as [q s c h]. simpl. intros Hc Hs. subst s.
  destruct c as [| | |m|]; simpl; [| | | |contradiction].
  - destruct (drain_from_test q h) as (tr & Hr & He).
    exists tr. eexists. split; [exact Hr|]. repeat split. exact He.
  - destruct q as [|m q].
    + exists [EvExit]. eexists. split.
      * eapply run_cons; [apply step_exit|]. apply run_nil.
      * simpl. rewrite app_nil_r. repeat split.
    + destruct (drain_from_test q (h ++ [m])) as (tr & Hr & He).
      exists (EvNotEmpty :: EvGet m :: EvPublish m true :: tr). eexists.
      split.
      * eapply run_cons; [apply step_not_empty|].
        eapply run_cons; [apply step_get|].
        eapply run_cons; [apply step_publish|]. exact Hr.
      * simpl. rewrite <- app_assoc. repeat split. exact He.
  - destruct q as [|m q].
    + destruct (drain_from_test [] h) as (tr & Hr & He).
      exists (EvTimeout :: tr). eexists. split.
      * eapply run_cons; [apply step_timeout|]. exact Hr.
      * simpl. repeat split. exact He.
    + destruct (drain_from_test q (h ++ [m])) as (tr & Hr & He).
      exists (EvGet m :: EvPublish m true :: tr). eexists. split.
      * eapply run_cons; [apply step_get|].
        eapply run_cons; [apply step_publish|]. exact Hr.
      * simpl. rewrite <- app_assoc. repeat split. exact He.
  - destruct (drain_from_test q (h ++ [m])) as (tr & Hr & He).
    exists (EvPublish m true :: tr). eexists. split.
    + eapply run_cons; [apply step_publish|]. exact Hr.
    + simpl. rewrite <- app_assoc. repeat split. exact He.
Qed.

(** C2. The consumer leaves its loop only after [is_set()] returned true
    and then [empty()] returned true: at that moment the stop event is
    set and the queue is empty, and the messages handed to the bus
    client are, in FIFO order, exactly those enqueued up to then.  In
    particular every message enqueued before the consumer observed the
    stop event has been taken from the queue and handed over. *)
Theorem publisher_loop_graceful_drain
        (q0 : list PublishMessage) (tr : list event) (p : Pipeline) :
  run (pipeline_start q0) tr p ->
  pc p = Exited ->
  exists tr1 tr2 p1,
    tr = tr1 ++ EvExit :: tr2 /\
    run (pipeline_start q0) tr1 p1 /\
    stop_set p1 = true /\ queue p1 = [] /\
    handed p = q0 ++ puts tr1 /\
    (forall pre post,
        tr = pre ++ EvStopSeen :: post ->
        forall m, In m (q0 ++ puts pre) -> In m (handed p)).
Proof.
  intros Hr Hpc.
  destruct (run_drain_inv q0 tr p Hr) as [_ Hinv].
  rewrite Hpc in Hinv.
  destruct Hinv as (tr1 & tr2 & p1 & Htr & Henv & Hr1 & Hs1 & Hq1 & Hh & _).
  exists tr1, tr2, p1. repeat split; auto.
  intros pre post Heq m Hin.
  rewrite Htr in Heq. symmetry in Heq.
  destruct (puts_env_only tr2 Henv) as [Hns _].
  destruct (split_before _ EvStopSeen EvExit pre post tr1 tr2) as [mid Hmid];
    [exact Heq|discriminate|exact Hns|].
  rewrite Hh, Hmid, puts_app.
  apply in_app_or in Hin. apply in_or_app.
  destruct Hin as [Hin|Hin]; [left; exact Hin|].
  right. apply in_or_app. left. exact Hin.
Qed.

Lemma publisher_loop_graceful_drain_witness :
  exists tr1 tr2 p1,
    [EvPut (sample_msg "b"); EvRunning; EvGet (sample_msg "a");
     EvPublish (sample_msg "a") true; EvSetStop; EvStopSeen; EvNotEmpty;
     EvGet (sample_msg "b"); EvPublish (sample_msg "b") false;
     EvStopSeen; EvExit; EvPut (sample_msg "c")]
    = tr1 ++ EvExit :: tr2 /\
    run (pipeline_start [sample_msg "a"]) tr1 p1 /\
    stop_set p1 = true /\ queue p1 = [] /\
    [sample_msg "a"; sample_msg "b"] = [sample_msg "a"] ++ puts tr1 /\
    (forall pre post,
        [EvPut (sample_msg "b"); EvRunning; EvGet (sample_msg "a");
         EvPublish (sample_msg "a") true; EvSetStop; EvStopSeen; EvNotEmpty;
         EvGet (sample_msg "b"); EvPublish (sample_msg "b") false;
         EvStopSeen; EvExit; EvPut (sample_msg "c")]
        = pre ++ EvStopSeen :: post ->
        forall m, In m ([sample_msg "a"] ++ puts pre) ->
                  In m [sample_msg "a"; sample_msg "b"]).
Proof.
  apply (publisher_loop_graceful_drain
           [sample_msg "a"] _
           (mkPipeline [sample_msg "c"] true Exited
                       [sample_msg "a"; sample_msg "b"])).
  - unfold pipeline_start.
    eapply run_cons; [apply step_put|]. simpl.
    eapply run_cons; [apply step_running|].
    eapply run_cons; [apply step_get|].
    eapply run_cons; [apply (step_publish _ _ [] _ true)|]. simpl.
    eapply run_cons; [apply step_set_stop|].
    eapply run_cons; [apply step_stop_seen|].
    eapply run_cons; [apply step_not_empty|].
    eapply run_cons; [apply step_get|].
    eapply run_cons; [apply (step_publish _ _ [_] _ false)|]. simpl.
    eapply run_cons; [apply step_stop_seen|].
    eapply run_cons; [apply step_exit|].
    eapply run_cons; [apply (step_put [])|]. simpl.
    apply run_nil.
  - reflexivity.
Defined.

(* ================================================================== *)
(** * Discovery deduplication (bridge.py, [_publish_device_discovery]) *)
(* ================================================================== *)

Lemma published_add (b : Bridge) (m : PublishMessage) (t : string) :
  set_In t (set_add string_dec (topic m) (_published_discovery_topics b)) <->
  published b t \/ t = topic m.
Proof.
  unfold published. rewrite set_add_iff. tauto.
Qed.

Lemma announce_all_spec (ms : list PublishMessage) (b : Bridge) :
  fst (for_each ms announce b) = Ok tt /\
  cfg (snd (for_each ms announce b)) = cfg b /\
  exists new,
    _publish_queue (snd (for_each ms announce b)) = _publish_queue b ++ new /\
    NoDup (map topic new) /\
    (forall m, In m new -> In m ms /\ ~ published b (topic m)) /\
    (forall t, published (snd (for_each ms announce b)) t <->
               published b t \/ In t (map topic new)) /\
    (forall m, In m ms -> published (snd (for_each ms announce b)) (topic m)).
Proof.
  revert b. induction ms as [|m ms IH]; intros b.
  - simpl. split; [reflexivity|]. split; [reflexivity|].
    exists []. rewrite app_nil_r. simpl.
    split; [reflexivity|]. split; [constructor|].
    split; [intros ? []|]. split; [tauto|intros ? []].
  - cbn [for_each]. unfold bind. unfold announce at 1 3 5 7 9.
    destruct (set_mem string_dec (topic m) (_published_discovery_topics b))
      eqn:Hmem.
    + apply set_mem_correct1 in Hmem.
      destruct (IH b) as (Hok & Hcfg & new & Hq & Hnd & Hnew & Hpub & Hall).
      split; [exact Hok|]. split; [exact Hcfg|].
      exists new. split; [exact Hq|]. split; [exact Hnd|].
      split; [|split; [exact Hpub|]].
      * intros m' Hin. destruct (Hnew m' Hin) as [H1 H2].
        split; [right; exact H1|exact H2].
      * intros m' [Heq|Hin]; [subst m'|apply Hall; exact Hin].
        apply Hpub. left. exact Hmem.
    + apply set_mem_complete1 in Hmem.
      match goal with
      | |- context [for_each ms announce ?x] => set (b1 := x)
      end.
      destruct (IH b1) as (Hok & Hcfg & new & Hq & Hnd & Hnew & Hpub & Hall).
      assert (Hb1 : forall t, published b1 t <-> published b t \/ t = topic m)
        by (intros t; apply published_add).
      split; [exact Hok|]. split; [exact Hcfg|].
      exists (m :: new).
      split; [rewrite Hq; unfold b1; simpl; rewrite <- app_assoc; reflexivity|].
      split.
      { simpl. constructor; [|exact Hnd].
        intros Hin. apply in_map_iff in Hin as (m' & Ht & Hm').
        destruct (Hnew m' Hm') as [_ Hnp]. apply Hnp.
        apply Hb1. right. exact Ht. }
      split.
      { intros m' [Heq|Hin].
        - subst m'. split; [left; reflexivity|exact Hmem].
        - destruct (Hnew m' Hin) as [H1 H2]. split; [right; exact H1|].
          intros Hp. apply H2. apply Hb1. left. exact Hp. }
      split.
      { intros t. rewrite Hpub, Hb1. simpl. split.
        - intros [[Hp|Hp]|Hp]; auto.
        - intros [Hp|[Hp|Hp]]; auto. }
      intros m' [Heq|Hin]; [subst m'|apply Hall; exact Hin].
      apply Hpub. left. apply Hb1. right. reflexivity.
Qed.


Lemma publish_device_discovery_unfold
      (device : string) (extra_keys : option (list string)) (b : Bridge) :
  _publish_device_discovery device extra_keys b =
  match discovery_messages (cfg b) device extra_keys with
  | Ok (Some messages) => for_each messages announce b
  | Ok None => (Ok tt, b)
  | Raise e => (Raise e, b)
  end.
Proof.
  unfold _publish_device_discovery, bind, get_config, lift, ret.
  destruct (discovery_messages (cfg b) device extra_keys) as [[ms|]|e];
    reflexivity.
Qed.

Lemma publish_device_discovery_spec
      (device : string) (extra_keys : option (list string)) (b : Bridge) :
  cfg (snd (_publish_device_discovery device extra_keys b)) = cfg b /\
  exists new,
    _publish_queue (snd (_publish_device_discovery device extra_keys b))
    = _publish_queue b ++ new /\
    NoDup (map topic new) /\
    (forall m, In m new -> ~ published b (topic m)) /\
    (forall t, published (snd (_publish_device_discovery device extra_keys b)) t
               <-> published b t \/ In t (map topic new)) /\
    (forall ms, discovery_messages (cfg b) device extra_keys = Ok (Some ms) ->
                (forall m, In m new -> In m ms) /\
                (forall m, In m ms ->
                           published
                             (snd (_publish_device_discovery device extra_keys b))
                             (topic m))).
Proof.
  rewrite publish_device_discovery_unfold.
  destruct (discovery_messages (cfg b) device extra_keys) as [[ms|]|e].
  - destruct (announce_all_spec ms b)
      as (_ & Hcfg & new & Hq & Hnd & Hnew & Hpub & Hall).
    split; [exact Hcfg|]. exists new.
    split; [exact Hq|]. split; [exact Hnd|].
    split; [intros m Hin; apply (Hnew m Hin)|].
    split; [exact Hpub|].
    intros ms' Heq. inversion Heq; subst ms'.
    split; [intros m Hin; apply (Hnew m Hin)|exact Hall].
  - simpl. split; [reflexivity|]. exists []. rewrite app_nil_r. simpl.
    split; [reflexivity|]. split; [constructor|].
    split; [intros ? []|]. split; [tauto|discriminate].
  - simpl. split; [reflexivity|]. exists []. rewrite app_nil_r. simpl.
    split; [reflexivity|]. split; [constructor|].
    split; [intros ? []|]. split; [tauto|discriminate].
Qed.



(** Two discovery calls for one device, with the queue emptied in
    between: the second call enqueues nothing. *)
Example discovery_twice_enqueues_once :
  map topic
      (fst (lifetime [OpDiscovery "safetymonitor" None;
                      OpQueue (fun _ => []);
                      OpDiscovery "safetymonitor" None]
                     (new sample_config) []))
  = ["homeassistant/binary_sensor/nina_server_safetymonitor/is_safe/config";
     "homeassistant/binary_sensor/nina_server_safetymonitor/connected/config";
     "homeassistant/sensor/nina_server_safetymonitor/name/config";
     "homeassistant/sensor/nina_server_safetymonitor/displayname/config"].
Proof. vm_compute. reflexivity. Qed.

(* ================================================================== *)
(** * The scheduler (scheduler.py) *)
(* ================================================================== *)





(** A task that is not yet due is left as it is, and its action is not
    run: the world is unchanged. *)
Lemma task_not_due_is_left_alone
      (World : Type) (monotonic : World -> Q) (now : Q)
      (done : list (scheduler.ScheduledTask World)) (next_delay : Q)
      (w : World) (task : scheduler.ScheduledTask World) :
  now < due_time task ->
  scheduler.run_task monotonic now (done, next_delay, w) task
  = (done ++ [task],
     Qmin next_delay (Qmax (due_time task - now) (5 # 100)), w).
Proof.
  intros Hlt. unfold scheduler.run_task.
  destruct (Qle_bool (scheduler.last_run task + scheduler.interval task - now) 0)
    eqn:Hd; [|reflexivity].
  apply Qle_bool_iff in Hd. unfold due_time in Hlt. lra.
Qed.


(* ================================================================== *)
(** * State extraction (device_model.py) *)
(* ================================================================== *)

Section DictFacts.
Context {V : Type}.
Implicit Types (d : list (string * V)) (k : string) (v : V).

Lemma dict_get_set_same k v d : dict_get k (dict_set k v d) = Some v.
Proof.
  induction d as [|[k' v'] d IH]; simpl.
  - rewrite String.eqb_refl. reflexivity.
  - destruct (String.eqb k k') eqn:He; simpl; rewrite He;
      [reflexivity|exact IH].
Qed.

Lemma dict_get_set_other k k' v d :
  k <> k' -> dict_get k (dict_set k' v d) = dict_get k d.
Proof.
  intros Hne. induction d as [|[k0 v0] d IH]; simpl.
  - apply String.eqb_neq in Hne. rewrite Hne. reflexivity.
  - destruct (String.eqb k' k0) eqn:He; simpl.
    + apply String.eqb_eq in He. subst k0.
      apply String.eqb_neq in Hne. rewrite Hne. reflexivity.
    + rewrite IH. reflexivity.
Qed.

Lemma dict_get_in k v d : dict_get k d = Some v -> In (k, v) d.
Proof.
  induction d as [|[k' v'] d IH]; simpl; [discriminate|].
  destruct (String.eqb k k') eqn:He.
  - apply String.eqb_eq in He. intros H. inversion H; subst. left. reflexivity.
  - intros H. right. apply IH, H.
Qed.

Lemma dict_mem_set k k' v d :
  dict_mem k (dict_set k' v d) = String.eqb k k' || dict_mem k d.
Proof.
  unfold dict_mem. destruct (String.eqb k k') eqn:He.
  - apply String.eqb_eq in He. subst. rewrite dict_get_set_same. reflexivity.
  - apply String.eqb_neq in He. rewrite (dict_get_set_other _ _ _ _ He).
    reflexivity.
Qed.
End DictFacts.

Lemma nodupb_sound (l : list string) : nodupb l = true -> NoDup l.
Proof.
  induction l as [|x l IH]; simpl; intros H; [constructor|].
  apply andb_prop in H as [Hx Hl]. constructor; [|apply IH, Hl].
  intros Hin. apply negb_true_iff in Hx.
  assert (Hex : existsb (String.eqb x) l = true).
  { apply existsb_exists. exists x. split; [exact Hin|apply String.eqb_refl]. }
  congruence.
Qed.

(** The variables of each device kind are pairwise distinct, as the keys
    of a Python dict are. *)
Lemma DEVICE_SENSORS_keys_nodup (device : string)
      (sensors : list (string * SensorDef)) :
  dict_get device DEVICE_SENSORS = Some sensors -> NoDup (map fst sensors).
Proof.
  intros H. apply dict_get_in in H.
  assert (Hall : forallb (fun ds : string * list (string * SensorDef) =>
                            nodupb (map fst (snd ds))) DEVICE_SENSORS = true)
    by (vm_compute; reflexivity).
  rewrite forallb_forall in Hall. specialize (Hall _ H).
  apply nodupb_sound. exact Hall.
Qed.

(** Every key of the lookup table is the normalised form of a field
    name of the status. *)
Lemma fold_dict_set_mem {A} (f : A -> string) (g : A -> value)
      (l : list A) (acc : dict) (k : string) :
  dict_mem k (fold_left (fun lk a => dict_set (f a) (g a) lk) l acc) = true ->
  dict_mem k acc = true \/ In k (map f l).
Proof.
  revert acc. induction l as [|a l IH]; simpl; intros acc H; [left; exact H|].
  apply IH in H. destruct H as [H|H]; [|right; right; exact H].
  rewrite dict_mem_set in H. apply orb_prop in H as [H|H].
  - apply String.eqb_eq in H. right. left. symmetry. exact H.
  - left. exact H.
Qed.

Lemma lookup_step_mem (acc : dict) (kv : string * value) (k : string) :
  dict_mem k (lookup_step acc kv) = true ->
  dict_mem k acc = true \/ In k (map _normalize (field_names [kv])).
Proof.
  destruct kv as [key val]. unfold field_names. simpl. rewrite app_nil_r.
  destruct val; simpl;
    try (rewrite dict_mem_set; intros H; apply orb_prop in H as [H|H];
         [apply String.eqb_eq in H; right; left; symmetry; exact H
         |left; exact H]).
  destruct (String.eqb key "Response"); intros H;
    apply fold_dict_set_mem in H; rewrite map_map;
    (destruct H as [H|H]; [left; exact H|right; exact H]).
Qed.

Lemma field_names_cons (kv : string * value) (st : dict) :
  field_names (kv :: st) = field_names [kv] ++ field_names st.
Proof.
  unfold field_names. simpl. rewrite app_nil_r. reflexivity.
Qed.

Lemma build_lookup_mem (st : dict) (acc : dict) (k : string) :
  dict_mem k (fold_left lookup_step st acc) = true ->
  dict_mem k acc = true \/ In k (map _normalize (field_names st)).
Proof.
  revert acc. induction st as [|kv st IH]; intros acc H;
    [left; exact H|].
  cbn [fold_left] in H.
  apply IH in H. rewrite field_names_cons, map_app, in_app_iff.
  destruct H as [H|H]; [|right; right; exact H].
  apply lookup_step_mem in H. tauto.
Qed.

(** The extraction loop leaves a variable alone unless one of its own
    candidates is in the lookup table. *)
Lemma extract_fold_other (lookup : dict) (k : string)
      (sensors : list (string * SensorDef)) (values : dict) :
  ~ In k (map fst sensors) ->
  dict_get k (fold_left (extract_step lookup) sensors values)
  = dict_get k values.
Proof.
  revert values. induction sensors as [|[var def] sensors IH];
    simpl; intros values Hnin; [reflexivity|].
  rewrite IH by tauto. unfold extract_step.
  destruct (first_candidate lookup (candidates var def)); [|reflexivity].
  apply dict_get_set_other. intros Heq. apply Hnin. left. symmetry. exact Heq.
Qed.

Lemma extract_fold_found (lookup : dict) (var : string) (def : SensorDef)
      (v : value) (sensors : list (string * SensorDef)) (values : dict) :
  NoDup (map fst sensors) ->
  In (var, def) sensors ->
  first_candidate lookup (candidates var def) = Some v ->
  dict_get var (fold_left (extract_step lookup) sensors values) = Some v.
Proof.
  revert values. induction sensors as [|[var' def'] sensors IH];
    simpl; intros values Hnd Hin Hfound; [contradiction|].
  inversion Hnd as [|x l Hnin Hnd']; subst.
  destruct Hin as [Heq|Hin].
  - inversion Heq; subst var' def'.
    rewrite extract_fold_other by exact Hnin.
    unfold extract_step. rewrite Hfound. apply dict_get_set_same.
  - apply IH; assumption.
Qed.

Lemma extract_fold_missing (lookup : dict) (var : string)
      (sensors : list (string * SensorDef)) (values : dict) :
  dict_get var values = None ->
  (forall def, In (var, def) sensors ->
               first_candidate lookup (candidates var def) = None) ->
  dict_get var (fold_left (extract_step lookup) sensors values) = None.
Proof.
  revert values. induction sensors as [|[var' def'] sensors IH];
    simpl; intros values Hv Hmiss; [exact Hv|].
  apply IH; [|intros def Hin; apply Hmiss; right; exact Hin].
  unfold extract_step.
  destruct (first_candidate lookup (candidates var' def')) eqn:Hc; [|exact Hv].
  destruct (string_dec var var') as [Heq|Hne].
  - subst var'. rewrite (Hmiss def') in Hc by (left; reflexivity).
    discriminate.
  - rewrite dict_get_set_other by exact Hne. exact Hv.
Qed.

Lemma first_candidate_empty (cands : list string) :
  first_candidate [] cands = None.
Proof.
  induction cands as [|c cands IH]; simpl; [reflexivity|exact IH].
Qed.

Lemma extract_fold_empty_lookup (sensors : list (string * SensorDef))
      (values : dict) :
  fold_left (extract_step []) sensors values = values.
Proof.
  revert values. induction sensors as [|[var def] sensors IH];
    simpl; intros values; [reflexivity|].
  rewrite first_candidate_empty. apply IH.
Qed.

Lemma append_switches_falsy (status : value) :
  truthy status = false -> _append_switches status [] = Ok [].
Proof.
  intros H. destruct status as [| | | | | | |d]; try reflexivity.
  destruct d; [reflexivity|discriminate].
Qed.

(** X10. An absent status, and any other falsy one (an empty mapping,
    list or string, zero, false), extracts to the empty mapping for
    every device kind, the switch included, and raises nothing. *)
Lemma extract_falsy_status_empty (device : string) (status : value) :
  truthy status = false -> extract_state_values device status = Ok [].
Proof.
  intros H. unfold extract_state_values.
  destruct (dict_get device DEVICE_SENSORS) as [sensors|]; [|reflexivity].
  rewrite (append_switches_falsy status H).
  unfold por. rewrite H.
  destruct (String.eqb device "switch");
    cbn [rbind _build_lookup items fold_left];
    rewrite extract_fold_empty_lookup; reflexivity.
Qed.

Lemma append_switches_non_mapping (status : value) :
  isinstance_dict status = false -> _append_switches status [] = Ok [].
Proof.
  intros H. destruct status; try reflexivity. discriminate.
Qed.

(** A status that is neither falsy nor a mapping makes the extraction
    raise, for every known device kind: [_build_lookup] asks it for
    [items]. *)
Lemma extract_truthy_non_mapping_raises (device : string) (status : value) :
  dict_mem device DEVICE_SENSORS = true ->
  isinstance_dict status = false ->
  truthy status = true ->
  extract_state_values device status = Raise (no_attribute status "items").
Proof.
  intros Hdev Hnd Ht. unfold extract_state_values.
  unfold dict_mem in Hdev.
  destruct (dict_get device DEVICE_SENSORS) as [sensors|]; [|discriminate].
  rewrite (append_switches_non_mapping status Hnd).
  unfold por. rewrite Ht.
  destruct (String.eqb device "switch"); cbn [rbind];
    (destruct status; try reflexivity; discriminate).
Qed.

(** C5, at the failing input: for the camera, a status that is the JSON
    array [[1]] is passed to [_build_lookup] as it is, and the call of
    its [items] raises [AttributeError]; no mapping is returned. *)
Theorem extract_non_mapping_status_raises :
  extract_state_values "camera" (VList [VInt 1])
  = Raise (Exn AttributeError "'list' object has no attribute 'items'").
Proof.
  vm_compute. reflexivity.
Qed.

(** C4.  The camera response [{"Response": {"Temperature": -5.0}}]
    extracts to [{"temperature": -5.0}]; and a status mapping none of
    whose field names (entries of the [Response] mapping, composite
    names of other mappings, remaining top-level keys) normalises to
    [temperature] extracts to a mapping without the key [temperature]. *)
Theorem extract_camera_temperature (st : dict) :
  (forall n, In n (field_names st) -> _normalize n <> "temperature") ->
  extract_state_values "camera" camera_response
  = Ok [("temperature", minus_five)] /\
  exists values,
    extract_state_values "camera" (VDict st) = Ok values /\
    dict_get "temperature" values = None.
Proof.
  intros Hnames. split; [vm_compute; reflexivity|].
  assert (Hs : dict_get "camera" DEVICE_SENSORS = Some (sensors_of "camera"))
    by (vm_compute; reflexivity).
  assert (Hsrc : no_alias "temperature" (sensors_of "camera") = true)
    by (vm_compute; reflexivity).
  unfold extract_state_values. rewrite Hs.
  change (String.eqb "camera" "switch") with false. cbn [rbind].
  assert (Hlk : _build_lookup (por (VDict st) (VDict []))
                = Ok (fold_left lookup_step st [])).
  { destruct st; reflexivity. }
  rewrite Hlk. cbn [rbind]. eexists. split; [reflexivity|].
  apply extract_fold_missing; [reflexivity|].
  intros def Hin.
  unfold no_alias in Hsrc. rewrite forallb_forall in Hsrc.
  specialize (Hsrc _ Hin). simpl in Hsrc.
  unfold candidates. destruct (sd_source def); [discriminate|].
  simpl.
  destruct (dict_mem (_normalize "temperature") (fold_left lookup_step st []))
    eqn:Hmem; [|reflexivity].
  apply build_lookup_mem in Hmem. destruct Hmem as [Hmem|Hmem];
    [discriminate|].
  apply in_map_iff in Hmem as (n & Hn & Hin').
  exfalso. apply (Hnames n Hin'). rewrite Hn. vm_compute. reflexivity.
Qed.

Lemma extract_camera_temperature_witness :
  extract_state_values "camera" camera_response
  = Ok [("temperature", minus_five)] /\
  exists values,
    extract_state_values "camera"
                         (VDict [("Response", VDict [("Gain", VInt 100)])])
    = Ok values /\
    dict_get "temperature" values = None.
Proof.
  apply (extract_camera_temperature [("Response", VDict [("Gain", VInt 100)])]).
  simpl. intros n [Hn|[]]. subst n. vm_compute. discriminate.
Defined.

(** C4, second half as specified, does not hold: here the [Response]
    mapping has no [Temperature] field, and the result binds
    [temperature] all the same, from the top-level field. *)
Lemma extract_top_level_temperature_is_found :
  dict_get "Response" [("Response", VDict []); ("Temperature", minus_five)]
  = Some (VDict []) /\
  dict_get "Temperature" (@nil (string * value)) = None /\
  extract_state_values "camera" camera_response_top_level
  = Ok [("temperature", minus_five)] /\
  dict_get "temperature" [("temperature", minus_five)] = Some minus_five.
Proof.
  repeat split; vm_compute; reflexivity.
Qed.

(* ================================================================== *)
(** * Orchestration (bridge.py) *)
(* ================================================================== *)

Lemma push_nil (b : Bridge) : push [] b = b.
Proof.
  destruct b. unfold push, set_queue. simpl. rewrite app_nil_r. reflexivity.
Qed.

Lemma push_push (ms ms' : list PublishMessage) (b : Bridge) :
  push ms' (push ms b) = push (ms ++ ms') b.
Proof.
  unfold push, set_queue. simpl. rewrite app_assoc. reflexivity.
Qed.

Lemma put_push (m : PublishMessage) (b : Bridge) :
  put m b = (Ok tt, push [m] b).
Proof. reflexivity. Qed.

Lemma state_messages_cons (py_str : value -> string) (base device : string)
      (vv : string * value) (values : dict) :
  state_messages py_str base device (vv :: values)
  = state_messages py_str base device [vv]
    ++ state_messages py_str base device values.
Proof.
  unfold state_messages. simpl. rewrite app_nil_r. reflexivity.
Qed.

Lemma publish_states_spec (py_str : value -> string) (base device : string)
      (values : dict) (b : Bridge) :
  for_each values (publish_state py_str base device) b
  = (Ok tt, push (state_messages py_str base device values) b).
Proof.
  revert b. induction values as [|[variable v] values IH]; intros b.
  - simpl. rewrite push_nil. reflexivity.
  - cbn [for_each]. unfold bind.
    assert (Hstep : publish_state py_str base device (variable, v) b
                    = (Ok tt, push (state_messages py_str base device
                                                   [(variable, v)]) b)).
    { unfold state_messages. simpl.
      destruct v; simpl; rewrite ?push_nil; reflexivity. }
    rewrite Hstep, IH, push_push, <- state_messages_cons. reflexivity.
Qed.

Lemma state_messages_not_null (py_str : value -> string)
      (base device : string) (values : dict) (m : PublishMessage) :
  In m (state_messages py_str base device values) ->
  exists variable v,
    In (variable, v) values /\ v <> VNone /\
    m = mkPublishMessage (state_topic base device variable)
                         (_format_value py_str v) true 0.
Proof.
  unfold state_messages. rewrite in_flat_map.
  intros [[variable v] [Hin Hm]]. exists variable, v. simpl in Hm.
  destruct v; simpl in Hm; try contradiction;
    (destruct Hm as [Hm|[]]; subst m;
     split; [exact Hin|split; [discriminate|reflexivity]]).
Qed.

(** With the availability topic rendered, building the discovery
    messages of a device does not raise. *)
Lemma discovery_messages_ok (c : BridgeConfig) (device : string)
      (extra_keys : option (list string)) (t : string) :
  render_device_availability_topic (topics (mqtt c)) device = Ok t ->
  exists built, discovery_messages c device extra_keys = Ok built.
Proof.
  intros Ht. unfold discovery_messages, build_image_discovery_message,
               build_sensor_discovery_messages.
  rewrite Ht. cbn [rbind].
  destruct (str_in device IMAGE_DEVICES); [eexists; reflexivity|].
  destruct (dict_mem device DEVICE_SENSORS); eexists; reflexivity.
Qed.

Lemma publish_device_discovery_returns (device : string)
      (extra_keys : option (list string)) (b : Bridge) (t : string) :
  render_device_availability_topic (topics (mqtt (cfg b))) device = Ok t ->
  fst (_publish_device_discovery device extra_keys b) = Ok tt.
Proof.
  intros Ht.
  destruct (discovery_messages_ok (cfg b) device extra_keys t Ht)
    as [built Hb].
  rewrite publish_device_discovery_unfold, Hb.
  destruct built as [ms|]; [|reflexivity].
  apply (announce_all_spec ms b).
Qed.

(** ** One poll of a value-producing device *)

Lemma poll_device_success (nina : NINAClient) (py_str : value -> string)
      (device : string) (b : Bridge) (t : string) (status : value)
      (values : dict) :
  dict_mem device DEVICE_ENDPOINTS = true ->
  render_device_availability_topic (topics (mqtt (cfg b))) device = Ok t ->
  fetch_device_status nina device = Ok status ->
  extract_state_values device status = Ok values ->
  _poll_device nina py_str device b
  = (Ok tt,
     push (state_messages py_str (base_topic (topics (mqtt (cfg b)))) device values
           ++ [availability_message t "ON"])
          (snd (_publish_device_discovery device (Some (dict_keys values)) b))).
Proof.
  intros Hdev Ht Hfetch Hextract.
  unfold _poll_device. rewrite Hdev. cbn [negb].
  unfold bind at 1, get_config. unfold bind at 1, lift. rewrite Ht.
  unfold try_except.
  unfold bind at 1, lift. rewrite Hfetch.
  unfold bind at 1, lift. rewrite Hextract.
  unfold bind at 1.
  pose proof (publish_device_discovery_returns
                device (Some (dict_keys values)) b t Ht) as Hret.
  destruct (_publish_device_discovery device (Some (dict_keys values)) b)
    as [r b1] eqn:Hdisc.
  simpl in Hret. subst r. cbn [snd].
  unfold bind at 1. rewrite publish_states_spec.
  rewrite put_push, push_push. reflexivity.
Qed.

Lemma poll_device_failure (nina : NINAClient) (py_str : value -> string)
      (device : string) (b : Bridge) (t : string) :
  dict_mem device DEVICE_ENDPOINTS = true ->
  render_device_availability_topic (topics (mqtt (cfg b))) device = Ok t ->
  (forall values,
      rbind (fetch_device_status nina device) (extract_state_values device)
      <> Ok values) ->
  _poll_device nina py_str device b
  = (Ok tt, push [availability_message t "OFF"] b).
Proof.
  intros Hdev Ht Hfail.
  unfold _poll_device. rewrite Hdev. cbn [negb].
  unfold bind at 1, get_config. unfold bind at 1, lift. rewrite Ht.
  unfold try_except.
  unfold bind at 1, lift.
  destruct (fetch_device_status nina device) as [status|e]; [|reflexivity].
  unfold bind at 1, lift. cbn [rbind] in Hfail.
  destruct (extract_state_values device status) as [values|e];
    [|reflexivity].
  exfalso. apply (Hfail values). reflexivity.
Qed.

(** C6, as the code has it.  In a successful poll: a configured variable
    whose first candidate present in the lookup table is bound to null
    is in the extracted mapping, bound to null; and the state messages
    enqueued are those of the entries whose value is not null, so none
    is enqueued for a null value. *)
Theorem null_value_is_extracted_and_not_published
        (nina : NINAClient) (py_str : value -> string) (device : string)
        (b : Bridge) (t : string) (status : value) (values lookup : dict) :
  dict_mem device DEVICE_ENDPOINTS = true ->
  render_device_availability_topic (topics (mqtt (cfg b))) device = Ok t ->
  fetch_device_status nina device = Ok status ->
  extract_state_values device status = Ok values ->
  _build_lookup (por status (VDict [])) = Ok lookup ->
  (forall var def,
      In (var, def) (sensors_of device) ->
      first_candidate lookup (candidates var def) = Some VNone ->
      dict_get var values = Some VNone) /\
  _poll_device nina py_str device b
  = (Ok tt,
     push (state_messages py_str (base_topic (topics (mqtt (cfg b)))) device values
           ++ [mkPublishMessage t (PText "ON") true 1])
          (snd (_publish_device_discovery device (Some (dict_keys values)) b)))
  /\
  (forall m,
      In m (state_messages py_str (base_topic (topics (mqtt (cfg b)))) device values) ->
      exists variable v,
        In (variable, v) values /\ v <> VNone /\
        m = mkPublishMessage
              (state_topic (base_topic (topics (mqtt (cfg b)))) device variable)
              (_format_value py_str v) true 0).
Proof.
  intros Hdev Ht Hfetch Hextract Hlookup. split; [|split].
  - intros var def Hin Hnull.
    unfold extract_state_values in Hextract. unfold sensors_of in Hin.
    destruct (dict_get device DEVICE_SENSORS) as [sensors|] eqn:Hs;
      [|contradiction].
    destruct (if String.eqb device "switch" then _append_switches status []
              else Ok []) as [values0|e]; [|discriminate].
    cbn [rbind] in Hextract. rewrite Hlookup in Hextract.
    cbn [rbind] in Hextract. inversion Hextract; subst values.
    apply (extract_fold_found lookup var def VNone sensors values0);
      [exact (DEVICE_SENSORS_keys_nodup device sensors Hs)|exact Hin
       |exact Hnull].
  - apply (poll_device_success nina py_str device b t status values);
      assumption.
  - intros m Hin. apply (state_messages_not_null _ _ _ _ _ Hin).
Qed.

Lemma null_value_is_extracted_and_not_published_witness :
  (forall var def,
      In (var, def) (sensors_of "camera") ->
      first_candidate [("temperature", VNone)] (candidates var def)
      = Some VNone ->
      dict_get var [("temperature", VNone)] = Some VNone) /\
  _poll_device (sample_nina (Ok camera_response_null) (Ok VNone)) sample_str
               "camera" (new sample_config)
  = (Ok tt,
     push (state_messages sample_str
                          (base_topic (topics (mqtt (cfg (new sample_config)))))
                          "camera" [("temperature", VNone)]
           ++ [mkPublishMessage "nina/camera/availability" (PText "ON") true 1])
          (snd (_publish_device_discovery
                  "camera" (Some (dict_keys [("temperature", VNone)]))
                  (new sample_config))))
  /\
  (forall m,
      In m (state_messages sample_str
                           (base_topic (topics (mqtt (cfg (new sample_config)))))
                           "camera" [("temperature", VNone)]) ->
      exists variable v,
        In (variable, v) [("temperature", VNone)] /\ v <> VNone /\
        m = mkPublishMessage
              (state_topic (base_topic (topics (mqtt (cfg (new sample_config)))))
                           "camera" variable)
              (_format_value sample_str v) true 0).
Proof.
  apply (null_value_is_extracted_and_not_published
           (sample_nina (Ok camera_response_null) (Ok VNone)) sample_str
           "camera" (new sample_config) "nina/camera/availability"
           camera_response_null).
  - vm_compute. reflexivity.
  - vm_compute. reflexivity.
  - reflexivity.
  - vm_compute. reflexivity.
  - vm_compute. reflexivity.
Defined.

(** C6, first half as specified, does not hold: the camera's
    [Temperature] is an explicit null, and [temperature] is a key of the
    extracted mapping, bound to null. *)
Lemma extract_null_temperature_is_present :
  extract_state_values "camera" camera_response_null
  = Ok [("temperature", VNone)] /\
  dict_mem "temperature" [("temperature", VNone)] = true.
Proof.
  split; vm_compute; reflexivity.
Qed.

(** ** Availability *)

Lemma publish_availability_spec (payload : string) (b : Bridge) (t : string) :
  render_availability_topic (topics (mqtt (cfg b))) None = Ok t ->
  _publish_availability payload b
  = (Ok tt, push [mkPublishMessage t (PText payload) true 1] b).
Proof.
  intros Ht. unfold _publish_availability.
  unfold bind at 1, get_config. unfold bind at 1, lift. rewrite Ht.
  reflexivity.
Qed.

(** The sweep over the configured devices: one message per enabled
    device, in configuration order. *)
Lemma sweep_spec (c : BridgeConfig) (avail : string -> string)
      (payload : string) (devs : list (string * DeviceConfig)) :
  (forall d, render_device_availability_topic (topics (mqtt c)) d = Ok (avail d)) ->
  forall b,
    for_each devs
             (fun dc : string * DeviceConfig =>
                if enabled (snd dc) then
                  bind (lift (render_device_availability_topic
                                (topics (mqtt c)) (fst dc)))
                       (fun topic =>
                          put (mkPublishMessage topic (PText payload) true 1))
                else ret tt) b
    = (Ok tt,
       push (map (fun dc : string * DeviceConfig =>
                    mkPublishMessage (avail (fst dc)) (PText payload) true 1)
                 (filter (fun dc : string * DeviceConfig => enabled (snd dc))
                         devs)) b).
Proof.
  intros Havail. induction devs as [|[d dc] devs IH]; intros b.
  - simpl. rewrite push_nil. reflexivity.
  - cbn [for_each filter fst snd]. unfold bind at 1.
    destruct (enabled dc).
    + unfold bind at 1, lift. rewrite Havail. rewrite put_push, IH, push_push.
      reflexivity.
    + unfold ret. rewrite IH. reflexivity.
Qed.

Lemma publish_all_device_availability_spec
      (avail : string -> string) (payload : string) (b : Bridge) :
  (forall d, render_device_availability_topic (topics (mqtt (cfg b))) d
             = Ok (avail d)) ->
  _publish_all_device_availability payload b
  = (Ok tt,
     push (map (fun dc : string * DeviceConfig =>
                  mkPublishMessage (avail (fst dc)) (PText payload) true 1)
               (filter (fun dc : string * DeviceConfig => enabled (snd dc))
                       (devices (cfg b)))) b).
Proof.
  intros Havail. unfold _publish_all_device_availability.
  unfold bind at 1, get_config.
  apply (sweep_spec (cfg b) avail payload (devices (cfg b)) Havail b).
Qed.

Lemma poll_image_spec (nina : NINAClient) (image_type : string) (b : Bridge)
      (t : string) :
  dict_mem image_type IMAGE_ENDPOINTS = true ->
  render_device_availability_topic (topics (mqtt (cfg b))) image_type = Ok t ->
  _poll_image nina image_type b
  = match fetch_image nina image_type with
    | Ok None => (Ok tt, push [mkPublishMessage t (PText "OFF") true 1] b)
    | Ok (Some bytes) =>
        (Ok tt,
         push [mkPublishMessage
                 (image_topic (base_topic (topics (mqtt (cfg b)))) image_type)
                 (PBytes bytes) false 0;
               mkPublishMessage t (PText "ON") true 1] b)
    | Raise e => (Raise e, b)
    end.
Proof.
  intros Himg Ht. unfold _poll_image. rewrite Himg. cbn [negb].
  unfold bind at 1, lift.
  destruct (fetch_image nina image_type) as [[bytes|]|e]; [| |reflexivity].
  - unfold bind at 1, get_config. unfold bind at 1, lift. rewrite Ht.
    unfold bind at 1. rewrite !put_push, push_push. reflexivity.
  - unfold bind at 1, get_config. unfold bind at 1, lift. rewrite Ht.
    rewrite put_push. reflexivity.
Qed.

(** C8. With the availability template rendering ([avail d] for a device
    [d], [t_bridge] for the bridge itself), each place that enqueues an
    availability message enqueues it with payload [ON] or [OFF],
    [retain = true] and [qos = 1]: the announcement at start-up, the end
    of a successful and of a failed device poll, the image poll, the
    shutdown sweep over the enabled devices, and the bridge's own [OFF]
    at shutdown. *)
Theorem availability_messages_are_retained_on_off
        (nina : NINAClient) (py_str : value -> string) (b : Bridge)
        (avail : string -> string) (t_bridge : string) :
  (forall d, render_device_availability_topic (topics (mqtt (cfg b))) d
             = Ok (avail d)) ->
  render_availability_topic (topics (mqtt (cfg b))) None = Ok t_bridge ->
  _configure_mqtt b
  = (Ok tt, push [mkPublishMessage t_bridge (PText "ON") true 1] b) /\
  (forall device status values,
      dict_mem device DEVICE_ENDPOINTS = true ->
      fetch_device_status nina device = Ok status ->
      extract_state_values device status = Ok values ->
      _poll_device nina py_str device b
      = (Ok tt,
         push (state_messages py_str (base_topic (topics (mqtt (cfg b)))) device
                              values
               ++ [mkPublishMessage (avail device) (PText "ON") true 1])
              (snd (_publish_device_discovery
                      device (Some (dict_keys values)) b)))) /\
  (forall device,
      dict_mem device DEVICE_ENDPOINTS = true ->
      (forall values,
          rbind (fetch_device_status nina device)
                (extract_state_values device) <> Ok values) ->
      _poll_device nina py_str device b
      = (Ok tt,
         push [mkPublishMessage (avail device) (PText "OFF") true 1] b)) /\
  (forall image_type,
      dict_mem image_type IMAGE_ENDPOINTS = true ->
      _poll_image nina image_type b
      = match fetch_image nina image_type with
        | Ok None =>
            (Ok tt,
             push [mkPublishMessage (avail image_type) (PText "OFF") true 1] b)
        | Ok (Some bytes) =>
            (Ok tt,
             push [mkPublishMessage
                     (image_topic (base_topic (topics (mqtt (cfg b)))) image_type)
                     (PBytes bytes) false 0;
                   mkPublishMessage (avail image_type) (PText "ON") true 1] b)
        | Raise e => (Raise e, b)
        end) /\
  _publish_all_device_availability "OFF" b
  = (Ok tt,
     push (map (fun dc : string * DeviceConfig =>
                  mkPublishMessage (avail (fst dc)) (PText "OFF") true 1)
               (filter (fun dc : string * DeviceConfig => enabled (snd dc))
                       (devices (cfg b)))) b) /\
  exists b',
    stop b = (Ok tt, b') /\
    _stop_event b' = true /\ scheduler_stopped b' = true /\
    _publish_queue b'
    = _publish_queue b
      ++ map (fun dc : string * DeviceConfig =>
                mkPublishMessage (avail (fst dc)) (PText "OFF") true 1)
             (filter (fun dc : string * DeviceConfig => enabled (snd dc))
                     (devices (cfg b)))
      ++ [mkPublishMessage t_bridge (PText "OFF") true 1].
Proof.
  intros Havail Hbridge.
  split.
  { unfold _configure_mqtt.
    unfold bind at 1, get_config. unfold bind at 1, lift. rewrite Hbridge.
    apply publish_availability_spec. exact Hbridge. }
  split.
  { intros device status values Hdev Hfetch Hextract.
    apply (poll_device_success nina py_str device b (avail device)
                               status values Hdev (Havail device)
                               Hfetch Hextract). }
  split.
  { intros device Hdev Hfail.
    apply (poll_device_failure nina py_str device b (avail device)
                               Hdev (Havail device) Hfail). }
  split.
  { intros image_type Himg.
    apply (poll_image_spec nina image_type b (avail image_type)
                           Himg (Havail image_type)). }
  split.
  { apply publish_all_device_availability_spec. exact Havail. }
  unfold stop. unfold bind at 1. unfold scheduler_stop at 1.
  set (b0 := mkBridge (cfg b) (_publish_queue b) (_stop_event b)
                      (_published_discovery_topics b) true).
  unfold bind at 1.
  rewrite (publish_all_device_availability_spec avail "OFF" b0)
    by exact Havail.
  unfold bind at 1.
  rewrite (publish_availability_spec "OFF" _ t_bridge) by exact Hbridge.
  eexists. split; [reflexivity|].
  simpl. rewrite <- app_assoc. repeat split.
Qed.

Lemma default_availability_renders (d : string) :
  render_device_availability_topic (topics (mqtt sample_config)) d
  = Ok (default_availability d).
Proof.
  unfold render_device_availability_topic, render_availability_topic,
    default_availability.
  destruct (String.eqb d ""); reflexivity.
Qed.

Lemma availability_messages_are_retained_on_off_witness :
  _configure_mqtt (new sample_config)
  = (Ok tt,
     push [mkPublishMessage "nina/bridge/availability" (PText "ON") true 1]
          (new sample_config)) /\
  exists b',
    stop (new sample_config) = (Ok tt, b') /\
    _stop_event b' = true /\ scheduler_stopped b' = true /\
    _publish_queue b'
    = [mkPublishMessage "nina/camera/availability" (PText "OFF") true 1;
       mkPublishMessage "nina/mount/availability" (PText "OFF") true 1;
       mkPublishMessage "nina/bridge/availability" (PText "OFF") true 1].
Proof.
  destruct (availability_messages_are_retained_on_off
              (sample_nina (Ok camera_response) (Ok VNone)) sample_str
              (new sample_config) default_availability
              "nina/bridge/availability"
              default_availability_renders eq_refl)
    as (Hconf & _ & _ & _ & _ & Hstop).
  split; [exact Hconf|exact Hstop].
Defined.

(** ** Commands *)



(** A payload that does not parse is dropped: nothing is enqueued. *)
Lemma handle_command_malformed_payload
      (nina : NINAClient) (loads_payload : string -> Result value)
      (msg : MQTTMessage) (b : Bridge) (detail : string) :
  loads_payload (msg_payload msg) = Raise (Exn JSONDecodeError detail) ->
  _handle_command nina loads_payload msg b = (Ok tt, b).
Proof.
  intros H. unfold _handle_command. rewrite H. reflexivity.
Qed.

(** ** Boolean state values and binary sensors *)




(* ================================================================== *)
(** * Further properties: the scheduler loop (scheduler.py) *)
(* ================================================================== *)

Section SchedulerLoop.
Context {World : Type}.
Variable monotonic : World -> Q.
Variable stop_wait : Q -> World -> bool * World.
Implicit Types (task : scheduler.ScheduledTask World)
         (tasks done : list (scheduler.ScheduledTask World)).

Lemma run_task_shape now done d w task :
  exists task' w',
    scheduler.run_task monotonic now (done, d, w) task
    = (done ++ [task'],
       Qmin d (Qmax (due_in_after task now) (5 # 100)), w') /\
    scheduler.name task' = scheduler.name task /\
    scheduler.interval task' = scheduler.interval task /\
    scheduler.fn task' = scheduler.fn task /\
    (is_due task now = false -> task' = task /\ w' = w).
Proof.
  unfold scheduler.run_task, due_in_after, is_due, due_time.
  destruct (Qle_bool (scheduler.last_run task + scheduler.interval task - now) 0).
  - eexists. eexists. split; [reflexivity|].
    repeat split; discriminate.
  - exists task, w. repeat split.
Qed.

Lemma delay_step_bounds (d x : Q) :
  5 # 100 <= d -> d <= 1 ->
  5 # 100 <= Qmin d (Qmax x (5 # 100)) /\ Qmin d (Qmax x (5 # 100)) <= 1.
Proof.
  intros Hlo Hhi. split.
  - apply Q.min_glb; [exact Hlo|apply Q.le_max_r].
  - eapply Qle_trans; [apply Q.le_min_l|exact Hhi].
Qed.

Lemma run_tasks_spec now tasks :
  forall done d w,
    5 # 100 <= d -> d <= 1 ->
    exists tasks' d' w',
      fold_left (scheduler.run_task monotonic now) tasks (done, d, w)
      = (done ++ tasks', d', w') /\
      map scheduler.name tasks' = map scheduler.name tasks /\
      map scheduler.interval tasks' = map scheduler.interval tasks /\
      map scheduler.fn tasks' = map scheduler.fn tasks /\
      5 # 100 <= d' /\ d' <= 1 /\ d' <= d /\
      (forall task, In task tasks ->
                    d' <= Qmax (due_in_after task now) (5 # 100)) /\
      (Forall (fun task => is_due task now = false) tasks ->
       tasks' = tasks /\ w' = w).
Proof.
  induction tasks as [|task tasks IH]; intros done d w Hlo Hhi.
  - exists [], d, w. simpl. rewrite app_nil_r.
    repeat split; auto; try apply Qle_refl. intros ? [].
  - cbn [fold_left].
    destruct (run_task_shape now done d w task)
      as (task' & w1 & Hstep & Hn & Hi & Hf & Hidle).
    rewrite Hstep.
    destruct (delay_step_bounds d (due_in_after task now) Hlo Hhi)
      as [Hlo1 Hhi1].
    destruct (IH (done ++ [task'])
                 (Qmin d (Qmax (due_in_after task now) (5 # 100))) w1
                 Hlo1 Hhi1)
      as (tasks' & d' & w' & Hfold & Hns & His & Hfs & Hlo' & Hhi' & Hle
          & Hall & Hidles).
    exists (task' :: tasks'), d', w'.
    split; [rewrite Hfold, <- app_assoc; reflexivity|].
    split; [simpl; rewrite Hn, Hns; reflexivity|].
    split; [simpl; rewrite Hi, His; reflexivity|].
    split; [simpl; rewrite Hf, Hfs; reflexivity|].
    split; [exact Hlo'|]. split; [exact Hhi'|].
    split; [eapply Qle_trans; [exact Hle|apply Q.le_min_l]|].
    split.
    + intros t [Heq|Hin]; [subst t|apply Hall; exact Hin].
      eapply Qle_trans; [exact Hle|apply Q.le_min_r].
    + intros Hnone. inversion Hnone as [|t ts Ht Hts]; subst.
      destruct (Hidle Ht) as [Htask Hw]. subst task' w1.
      destruct (Hidles Hts) as [Htasks Hw']. subst tasks' w'.
      split; reflexivity.
Qed.

(** X1. Whatever the tasks and their actions, the time a pass tells the
    loop to wait lies between 50 ms and one second. *)
Theorem run_pass_delay_bounds tasks (w : World) :
  5 # 100 <= snd (fst (scheduler.run_pass monotonic tasks w)) /\
  snd (fst (scheduler.run_pass monotonic tasks w)) <= 1.
Proof.
  unfold scheduler.run_pass.
  destruct (run_tasks_spec (monotonic w) tasks [] 1 w)
    as (tasks' & d' & w' & Hfold & _ & _ & _ & Hlo & Hhi & _);
    [unfold Qle; simpl; lia|apply Qle_refl|].
  rewrite Hfold. simpl. split; assumption.
Qed.



Lemma run_pass_keeps_tasks tasks (w : World) :
  map scheduler.name (fst (fst (scheduler.run_pass monotonic tasks w)))
  = map scheduler.name tasks /\
  map scheduler.interval (fst (fst (scheduler.run_pass monotonic tasks w)))
  = map scheduler.interval tasks /\
  map scheduler.fn (fst (fst (scheduler.run_pass monotonic tasks w)))
  = map scheduler.fn tasks.
Proof.
  unfold scheduler.run_pass.
  destruct (run_tasks_spec (monotonic w) tasks [] 1 w)
    as (tasks' & d' & w' & Hfold & Hn & Hi & Hf & _);
    [unfold Qle; simpl; lia|apply Qle_refl|].
  rewrite Hfold. simpl. repeat split; assumption.
Qed.

(** X4. However long the loop runs and whatever the actions do or
    raise, the scheduler keeps the same tasks in the same order, with
    their names, intervals and actions: no task is dropped, disabled or
    duplicated. *)
Theorem run_keeps_task_set (fuel : nat) (s : scheduler.Scheduler World)
        (w : World) :
  map scheduler.name
      (scheduler._tasks (fst (scheduler._run World monotonic stop_wait fuel s w)))
  = map scheduler.name (scheduler._tasks s) /\
  map scheduler.interval
      (scheduler._tasks (fst (scheduler._run World monotonic stop_wait fuel s w)))
  = map scheduler.interval (scheduler._tasks s) /\
  map scheduler.fn
      (scheduler._tasks (fst (scheduler._run World monotonic stop_wait fuel s w)))
  = map scheduler.fn (scheduler._tasks s).
Proof.
  revert s w. induction fuel as [|fuel IH]; intros s w.
  - simpl. repeat split.
  - cbn [scheduler._run].
    destruct (scheduler._stop_event s); [simpl; repeat split|].
    pose proof (run_pass_keeps_tasks (scheduler._tasks s) w) as Hpass.
    destruct (scheduler.run_pass monotonic (scheduler._tasks s) w)
      as [[tasks' d] w1].
    simpl in Hpass. destruct Hpass as (Hn & Hi & Hf).
    destruct (stop_wait d w1) as [set w2].
    destruct (IH (scheduler.mkScheduler tasks' set (scheduler._thread s)) w2)
      as (Hn' & Hi' & Hf').
    simpl in Hn', Hi', Hf'.
    rewrite Hn', Hi', Hf', Hn, Hi, Hf. repeat split.
Qed.

(** X5. The stop event is never cleared: once [stop()] has been called,
    a new [start()] gets a loop that leaves at its first test, so no
    action runs again and the world is untouched. *)
Theorem stopped_scheduler_never_runs (fuel : nat)
        (s : scheduler.Scheduler World) (w : World) :
  scheduler._stop_event (scheduler.start (scheduler.stop s)) = true /\
  snd (scheduler._run World monotonic stop_wait fuel
                      (scheduler.start (scheduler.stop s)) w) = w /\
  scheduler._tasks
    (fst (scheduler._run World monotonic stop_wait fuel
                         (scheduler.start (scheduler.stop s)) w))
  = scheduler._tasks s.
Proof.
  assert (Hs : scheduler._stop_event (scheduler.start (scheduler.stop s)) = true
               /\ scheduler._tasks (scheduler.start (scheduler.stop s))
                  = scheduler._tasks s).
  { unfold scheduler.start, scheduler.stop. simpl.
    destruct (scheduler._thread s) as [[|]|]; simpl; split; reflexivity. }
  destruct Hs as [Hstop Htasks]. split; [exact Hstop|].
  destruct fuel as [|fuel]; simpl; [split; [reflexivity|exact Htasks]|].
  rewrite Hstop. simpl. split; [reflexivity|exact Htasks].
Qed.

End SchedulerLoop.



(* ================================================================== *)
(** * Further properties: the publish pipeline (bridge.py) *)
(* ================================================================== *)

(** X6. At every moment of a run, what has been handed to the bus
    client is an initial part of what was enqueued, in the same order:
    messages leave in FIFO order, none is handed over twice (a failed
    publish is not retried) and none is made up. *)
Theorem publisher_hands_over_in_fifo_order
        (q0 : list PublishMessage) (tr : list event) (p : Pipeline) :
  run (pipeline_start q0) tr p ->
  exists rest, q0 ++ puts tr = handed p ++ rest.
Proof.
  intros Hr. destruct (run_drain_inv q0 tr p Hr) as [_ Hinv].
  destruct (pc p) eqn:Hpc;
    try (destruct Hinv as [Hq _]; eexists; exact Hq).
  destruct Hinv as (tr1 & tr2 & p1 & Htr & _ & _ & _ & _ & Hh & _).
  exists (puts tr2). rewrite Hh, Htr, puts_app. simpl.
  rewrite app_assoc. reflexivity.
Qed.

Lemma sample_run :
  run (pipeline_start [sample_msg "a"])
      [EvPut (sample_msg "b"); EvRunning; EvGet (sample_msg "a");
       EvPublish (sample_msg "a") false; EvPut (sample_msg "c")]
      (mkPipeline [sample_msg "b"; sample_msg "c"] false AtIsSet
                  [sample_msg "a"]).
Proof.
  unfold pipeline_start.
  eapply run_cons; [apply step_put|]. simpl.
  eapply run_cons; [apply step_running|].
  eapply run_cons; [apply step_get|].
  eapply run_cons; [apply (step_publish _ _ [] _ false)|]. simpl.
  eapply run_cons; [apply (step_put [_])|]. simpl.
  apply run_nil.
Qed.

Lemma publisher_hands_over_in_fifo_order_witness :
  exists rest,
    [sample_msg "a"]
      ++ puts [EvPut (sample_msg "b"); EvRunning; EvGet (sample_msg "a");
               EvPublish (sample_msg "a") false; EvPut (sample_msg "c")]
    = handed (mkPipeline [sample_msg "b"; sample_msg "c"] false AtIsSet
                         [sample_msg "a"]) ++ rest.
Proof.
  apply (publisher_hands_over_in_fifo_order _ _ _ sample_run).
Defined.

Lemma drain_completes_witness :
  exists tr p',
    run (mkPipeline [sample_msg "b"] true (AtPublish (sample_msg "a")) []) tr p'
    /\ pc p' = Exited /\
    handed p' = [] ++ [sample_msg "a"] ++ [sample_msg "b"] /\
    forallb (fun e => negb (is_env e)) tr = true.
Proof.
  apply (drain_completes
           (mkPipeline [sample_msg "b"] true (AtPublish (sample_msg "a")) [])).
  - simpl. discriminate.
  - reflexivity.
Defined.

(* ================================================================== *)
(** * Further properties: normalisation and extraction (device_model.py) *)
(* ================================================================== *)


Lemma isalnum_to_lower (c : ascii) : isalnum (to_lower c) = isalnum c.
Proof.
  destruct c as [[] [] [] [] [] [] [] []]; reflexivity.
Qed.












Lemma extract_falsy_status_empty_witness :
  extract_state_values "switch" (VList []) = Ok [].
Proof.
  apply (extract_falsy_status_empty "switch" (VList [])). reflexivity.
Defined.

(** ** Switch entries *)

Lemma str_of_nat_inj (n m : nat) : str_of_nat n = str_of_nat m -> n = m.
Proof.
  unfold str_of_nat. intros H.
  apply (f_equal NilEmpty.uint_of_string) in H.
  rewrite !NilEmpty.usu in H. inversion H as [H'].
  apply (f_equal Nat.of_uint) in H'.
  rewrite !DecimalNat.Unsigned.of_to in H'. exact H'.
Qed.

Lemma str_of_nat_digits (n : nat) : all_chars is_digit (str_of_nat n) = true.
Proof.
  unfold str_of_nat. generalize (Nat.to_uint n). intros d.
  induction d; simpl; auto.
Qed.

Lemma digits_then_underscore (a b x y : string) :
  all_chars is_digit a = true -> all_chars is_digit b = true ->
  (a ++ String "_" x)%string = (b ++ String "_" y)%string ->
  a = b /\ x = y.
Proof.
  revert b. induction a as [|c a IH]; intros [|c' b] Ha Hb Heq; simpl in *.
  - inversion Heq. split; reflexivity.
  - inversion Heq; subst c'. discriminate.
  - inversion Heq; subst c. discriminate.
  - inversion Heq; subst c'.
    apply andb_prop in Ha as [_ Ha]. apply andb_prop in Hb as [_ Hb].
    destruct (IH b Ha Hb H1) as [Hab Hxy]. subst. split; reflexivity.
Qed.

Lemma append_inv_head (p a b : string) :
  (p ++ a)%string = (p ++ b)%string -> a = b.
Proof.
  induction p as [|c p IH]; simpl; intros H; [exact H|].
  inversion H. apply IH. assumption.
Qed.

Lemma switch_key_inj (kind : string) (i j : nat) (f g : string) :
  switch_key kind i f = switch_key kind j g -> i = j /\ f = g.
Proof.
  unfold switch_key. intros H. apply append_inv_head in H.
  simpl in H. inversion H as [H'].
  destruct (digits_then_underscore _ _ _ _ (str_of_nat_digits i)
                                   (str_of_nat_digits j) H') as [Hij Hfg].
  split; [apply str_of_nat_inj; exact Hij|exact Hfg].
Qed.

Lemma fold_set_other {A} (K : A -> string) (V : A -> value) (l : list A)
      (values : dict) (k : string) :
  ~ In k (map K l) ->
  dict_get k (fold_left (fun vs a => dict_set (K a) (V a) vs) l values)
  = dict_get k values.
Proof.
  revert values. induction l as [|a l IH]; simpl; intros values Hnin;
    [reflexivity|].
  rewrite IH by tauto. apply dict_get_set_other.
  intros Heq. apply Hnin. left. symmetry. exact Heq.
Qed.

Lemma fold_set_member {A} (K : A -> string) (V : A -> value) (l : list A)
      (values : dict) (a : A) :
  NoDup (map K l) -> In a l ->
  dict_get (K a) (fold_left (fun vs a => dict_set (K a) (V a) vs) l values)
  = Some (V a).
Proof.
  revert values. induction l as [|x l IH]; simpl; intros values Hnd Hin;
    [contradiction|].
  inversion Hnd as [|y ys Hnin Hnd']; subst.
  destruct Hin as [Heq|Hin].
  - subst x. rewrite fold_set_other by exact Hnin. apply dict_get_set_same.
  - apply IH; assumption.
Qed.

Lemma field_keys_nodup (kind : string) (idx : nat)
      (fields : list (string * string)) :
  NoDup (map fst fields) ->
  NoDup (map (fun f : string * string => switch_key kind idx (fst f)) fields).
Proof.
  induction fields as [|[f F] fields IH]; simpl; intros Hnd; [constructor|].
  inversion Hnd as [|y ys Hnin Hnd']; subst. constructor; [|apply IH, Hnd'].
  intros Hin. apply in_map_iff in Hin as ([g G] & Hk & Hin).
  simpl in Hk. apply switch_key_inj in Hk as [_ Hg]. subst g.
  apply Hnin. apply in_map_iff. exists (f, G). split; [reflexivity|exact Hin].
Qed.

Lemma switch_entry_get (kind : string) (fields : list (string * string))
      (values : dict) (idx : nat) (entry : value) (i : nat) (f F : string) :
  NoDup (map fst fields) -> In (f, F) fields ->
  dict_get (switch_key kind i f)
           (switch_entry kind fields values (idx, entry))
  = match entry with
    | VDict e =>
        if Nat.eqb i idx then Some (get_or_none F e)
        else dict_get (switch_key kind i f) values
    | _ => dict_get (switch_key kind i f) values
    end.
Proof.
  intros Hnd Hin. unfold switch_entry.
  destruct entry as [| | | | | | |e]; try reflexivity.
  change (fun (vs : dict) (f0 : string * string) =>
            dict_set (kind ++ "_" ++ str_of_nat idx ++ "_" ++ fst f0)%string
                     (get_or_none (snd f0) e) vs)
    with (fun (vs : dict) (f0 : string * string) =>
            dict_set ((fun g : string * string => switch_key kind idx (fst g)) f0)
                     ((fun g : string * string => get_or_none (snd g) e) f0) vs).
  destruct (Nat.eqb i idx) eqn:Hi.
  - apply Nat.eqb_eq in Hi. subst i.
    apply (fold_set_member
             (fun g : string * string => switch_key kind idx (fst g))
             (fun g : string * string => get_or_none (snd g) e)
             fields values (f, F));
      [apply field_keys_nodup; exact Hnd|exact Hin].
  - apply Nat.eqb_neq in Hi. apply fold_set_other.
    intros Hk. apply in_map_iff in Hk as ([g G] & Hk & _).
    simpl in Hk. apply switch_key_inj in Hk as [Hidx _]. congruence.
Qed.

Lemma switch_entry_other (kind : string) (fields : list (string * string))
      (values : dict) (ie : nat * value) (k : string) :
  (forall idx f, k <> switch_key kind idx f) ->
  dict_get k (switch_entry kind fields values ie) = dict_get k values.
Proof.
  intros Hk. destruct ie as [idx entry]. unfold switch_entry.
  destruct entry as [| | | | | | |e]; try reflexivity.
  apply (fold_set_other
           (fun g : string * string => switch_key kind idx (fst g))
           (fun g : string * string => get_or_none (snd g) e)).
  intros Hin. apply in_map_iff in Hin as ([g G] & Heq & _).
  apply (Hk idx g). symmetry. exact Heq.
Qed.

Lemma switch_loop_other (kind : string) (fields : list (string * string))
      (entries : list (nat * value)) (values : dict) (k : string) :
  (forall idx f, k <> switch_key kind idx f) ->
  dict_get k (fold_left (switch_entry kind fields) entries values)
  = dict_get k values.
Proof.
  intros Hk. revert values.
  induction entries as [|ie entries IH]; simpl; intros values; [reflexivity|].
  rewrite IH. apply switch_entry_other. exact Hk.
Qed.

Lemma switch_loop_get (kind : string) (fields : list (string * string))
      (i : nat) (f F : string) :
  NoDup (map fst fields) -> In (f, F) fields ->
  forall (l : list value) (s : nat) (values : dict),
    dict_get (switch_key kind i f)
             (fold_left (switch_entry kind fields)
                        (combine (seq s (List.length l)) l) values)
    = match (if (s <=? i)%nat then nth_error l (i - s) else None) with
      | Some (VDict e) => Some (get_or_none F e)
      | _ => dict_get (switch_key kind i f) values
      end.
Proof.
  intros Hnd Hin. induction l as [|x l IH]; intros s values.
  - simpl. destruct (s <=? i)%nat; [destruct (i - s)%nat|]; reflexivity.
  - cbn [List.length seq combine fold_left]. rewrite IH.
    rewrite (switch_entry_get kind fields values s x i f F Hnd Hin).
    destruct (Nat.leb_spec (S s) i) as [Hlt|Hge].
    + assert (Hs : (s <=? i)%nat = true) by (apply Nat.leb_le; lia).
      rewrite Hs.
      replace (i - s)%nat with (S (i - S s)) by lia. cbn [nth_error].
      assert (Hne : Nat.eqb i s = false) by (apply Nat.eqb_neq; lia).
      rewrite Hne.
      destruct (nth_error l (i - S s)) as [[| | | | | | |e]|];
        destruct x; reflexivity.
    + destruct (Nat.leb_spec s i) as [Hle|Hlt'].
      * assert (i = s) by lia. subst i. rewrite Nat.sub_diag, Nat.eqb_refl.
        cbn [nth_error]. destruct x; reflexivity.
      * assert (Hne : Nat.eqb i s = false) by (apply Nat.eqb_neq; lia).
        rewrite Hne. destruct x; reflexivity.
Qed.

Lemma iterate_por_list (l : list value) :
  iterate (por (VList l) (VList [])) = Ok l.
Proof. destruct l; reflexivity. Qed.

(** X11. For a switch status whose [Response] holds the two switch
    lists, the extracted mapping has the value
    [<kind>_<index>_<field>] exactly for the list entries that are
    mappings, [index] being the entry's position in the list as
    received: an entry that is not a mapping is skipped and the
    positions after it are not renumbered.  A field the entry lacks is
    bound to null. *)
Theorem switch_entries_keep_their_positions
        (st resp : dict) (ro rw : list value) (values : dict)
        (i : nat) (f F : string) :
  dict_get "Response" st = Some (VDict resp) ->
  dict_get "ReadonlySwitches" resp = Some (VList ro) ->
  dict_get "WriteableSwitches" resp = Some (VList rw) ->
  extract_state_values "switch" (VDict st) = Ok values ->
  (In (f, F) ro_fields ->
   dict_get (switch_key "readonly_switch" i f) values
   = match nth_error ro i with
     | Some (VDict e) => Some (get_or_none F e)
     | _ => None
     end) /\
  (In (f, F) rw_fields ->
   dict_get (switch_key "writable_switch" i f) values
   = match nth_error rw i with
     | Some (VDict e) => Some (get_or_none F e)
     | _ => None
     end).
Proof.
  intros Hresp Hro Hrw Hex.
  assert (Hs : dict_get "switch" DEVICE_SENSORS = Some (sensors_of "switch"))
    by (vm_compute; reflexivity).
  assert (Hkeys : map fst (sensors_of "switch")
                  = ["connected"; "name"; "displayname"])
    by (vm_compute; reflexivity).
  remember (sensors_of "switch") as sensors eqn:Hsens.
  unfold extract_state_values in Hex. rewrite Hs in Hex.
  change (String.eqb "switch" "switch") with true in Hex.
  assert (Happ : _append_switches (VDict st) []
                 = Ok (fold_left (switch_entry "writable_switch" rw_fields)
                                 (enumerate rw)
                                 (fold_left (switch_entry "readonly_switch" ro_fields)
                                            (enumerate ro) []))).
  { unfold _append_switches. cbn [isinstance_dict get]. rewrite Hresp.
    cbn [rbind get]. rewrite Hro. cbn [rbind]. rewrite iterate_por_list.
    cbn [rbind]. rewrite Hrw. cbn [rbind]. rewrite iterate_por_list.
    reflexivity. }
  rewrite Happ in Hex. cbn [rbind] in Hex.
  destruct (_build_lookup (por (VDict st) (VDict []))) as [lookup|e];
    [|discriminate].
  cbn [rbind] in Hex. inversion Hex; subst values. clear Hex.
  assert (Hndro : NoDup (map fst ro_fields))
    by (apply nodupb_sound; reflexivity).
  assert (Hndrw : NoDup (map fst rw_fields))
    by (apply nodupb_sound; reflexivity).
  split; intros Hin.
  - rewrite extract_fold_other.
    2:{ rewrite Hkeys. unfold switch_key. simpl.
        intros [H|[H|[H|[]]]]; discriminate H. }
    rewrite switch_loop_other.
    2:{ intros idx g. unfold switch_key. simpl. discriminate. }
    unfold enumerate.
    rewrite (switch_loop_get "readonly_switch" ro_fields i f F Hndro Hin).
    simpl. rewrite Nat.sub_0_r.
    destruct (nth_error ro i) as [[| | | | | | |e]|]; reflexivity.
  - rewrite extract_fold_other.
    2:{ rewrite Hkeys. unfold switch_key. simpl.
        intros [H|[H|[H|[]]]]; discriminate H. }
    unfold enumerate.
    rewrite (switch_loop_get "writable_switch" rw_fields i f F Hndrw Hin).
    simpl. rewrite Nat.sub_0_r.
    rewrite switch_loop_other.
    2:{ intros idx g. unfold switch_key. simpl. discriminate. }
    destruct (nth_error rw i) as [[| | | | | | |e]|]; reflexivity.
Qed.

Lemma switch_entries_keep_their_positions_witness :
  (In ("name", "Name") ro_fields ->
   dict_get (switch_key "readonly_switch" 2 "name") switch_values
   = match nth_error [VDict [("Name", VStr "Voltage"); ("Value", VInt 12)];
                      VStr "n/a";
                      VDict [("Name", VStr "Current"); ("Id", VInt 2)]] 2 with
     | Some (VDict e) => Some (get_or_none "Name" e)
     | _ => None
     end) /\
  (In ("name", "Name") rw_fields ->
   dict_get (switch_key "writable_switch" 2 "name") switch_values
   = match nth_error [VDict [("Name", VStr "Fan"); ("Min", VInt 0);
                             ("Max", VInt 100)]] 2 with
     | Some (VDict e) => Some (get_or_none "Name" e)
     | _ => None
     end).
Proof.
  apply (switch_entries_keep_their_positions
           [("Response", VDict switch_lists)] switch_lists).
  - reflexivity.
  - reflexivity.
  - reflexivity.
  - vm_compute. reflexivity.
Defined.

(* ================================================================== *)
(** * Further properties: discovery (discovery.py, bridge.py) *)
(* ================================================================== *)

Lemma iter_ignores_extra_keys (device : string)
      (extra_keys : option (list string)) :
  String.eqb device "switch" = false ->
  _iter_sensor_definitions device extra_keys = sensors_of device.
Proof.
  intros Hsw. unfold _iter_sensor_definitions, sensors_of.
  rewrite Hsw.
  generalize (match dict_get device DEVICE_SENSORS with
              | Some defs => defs
              | None => []
              end).
  intros defs.
  generalize (match extra_keys with Some ks => ks | None => [] end).
  intros ks. rewrite <- (app_nil_r defs) at 2. f_equal.
  induction ks as [|k ks IH]; simpl; [reflexivity|].
  destruct (dict_mem k defs); simpl; exact IH.
Qed.

Lemma discovery_messages_ignore_extra_keys
      (c : BridgeConfig) (device : string) (ks ks' : option (list string)) :
  String.eqb device "switch" = false ->
  discovery_messages c device ks = discovery_messages c device ks'.
Proof.
  intros Hsw. unfold discovery_messages, build_sensor_discovery_messages.
  rewrite !(iter_ignores_extra_keys device _ Hsw). reflexivity.
Qed.

Lemma announce_published_noop (ms : list PublishMessage) (b : Bridge) :
  (forall m, In m ms -> published b (topic m)) ->
  for_each ms announce b = (Ok tt, b).
Proof.
  induction ms as [|m ms IH]; intros Hall; [reflexivity|].
  cbn [for_each]. unfold bind. unfold announce at 1.
  rewrite (set_mem_correct2 string_dec (topic m) _ (Hall m (or_introl eq_refl))).
  apply IH. intros m' Hin. apply Hall. right. exact Hin.
Qed.

(** X12. For a device kind other than the switch the extra keys play no
    part, so its discovery is complete after one call: a further call
    (every later poll makes one) leaves the queue and the published set
    as they are. *)
Theorem discovery_of_fixed_device_is_done_once
        (device : string) (ks ks' : option (list string)) (b : Bridge) :
  String.eqb device "switch" = false ->
  snd (_publish_device_discovery
         device ks' (snd (_publish_device_discovery device ks b)))
  = snd (_publish_device_discovery device ks b).
Proof.
  intros Hsw.
  destruct (publish_device_discovery_spec device ks b)
    as (Hcfg & new & _ & _ & _ & _ & Hbuilt).
  set (b1 := snd (_publish_device_discovery device ks b)) in *.
  rewrite (publish_device_discovery_unfold device ks' b1), Hcfg.
  rewrite (discovery_messages_ignore_extra_keys (cfg b) device ks' ks Hsw).
  destruct (discovery_messages (cfg b) device ks) as [[ms|]|e] eqn:Hd;
    try reflexivity.
  destruct (Hbuilt ms eq_refl) as [_ Hall].
  rewrite (announce_published_noop ms b1 Hall). reflexivity.
Qed.

Lemma discovery_of_fixed_device_is_done_once_witness :
  snd (_publish_device_discovery
         "camera" (Some ["temperature"; "gain"])
         (snd (_publish_device_discovery "camera" None (new sample_config))))
  = snd (_publish_device_discovery "camera" None (new sample_config)).
Proof.
  apply (discovery_of_fixed_device_is_done_once
           "camera" None (Some ["temperature"; "gain"]) (new sample_config)).
  reflexivity.
Defined.












(* ================================================================== *)
(** * Further properties: start-up, scheduling, commands (bridge.py) *)
(* ================================================================== *)

Lemma publish_discovery_loop (c : BridgeConfig)
      (devs : list (string * DeviceConfig)) :
  (forall dc, In dc devs -> In dc (devices c)) ->
  forall b,
    cfg b = c ->
    cfg (snd (for_each devs
                       (fun dc : string * DeviceConfig =>
                          if enabled (snd dc)
                          then _publish_device_discovery (fst dc) None
                          else ret tt) b)) = c /\
    exists new,
      _publish_queue
        (snd (for_each devs
                       (fun dc : string * DeviceConfig =>
                          if enabled (snd dc)
                          then _publish_device_discovery (fst dc) None
                          else ret tt) b))
      = _publish_queue b ++ new /\
      forall m, In m new -> of_enabled_device c m.
Proof.
  induction devs as [|[device dc] devs IH]; intros Hsub b Hcfg.
  - simpl. split; [exact Hcfg|]. exists []. rewrite app_nil_r.
    split; [reflexivity|intros ? []].
  - cbn [for_each fst snd]. unfold bind.
    assert (Hsub' : forall x, In x devs -> In x (devices c))
      by (intros x Hx; apply Hsub; right; exact Hx).
    destruct (enabled dc) eqn:Hen.
    + destruct (publish_device_discovery_spec device None b)
        as (Hcfg1 & new1 & Hq1 & _ & _ & _ & Hbuilt).
      destruct (_publish_device_discovery device None b) as [r b1] eqn:Hcall.
      cbn [snd] in *.
      assert (Hnew1 : forall m, In m new1 -> of_enabled_device c m).
      { intros m Hm. rewrite Hcfg in Hbuilt.
        destruct (discovery_messages c device None) as [[ms|]|e] eqn:Hd.
        - exists device, dc, ms. split; [apply Hsub; left; reflexivity|].
          split; [exact Hen|]. split; [exact Hd|].
          apply (Hbuilt ms eq_refl). exact Hm.
        - exfalso. rewrite publish_device_discovery_unfold, Hcfg, Hd in Hcall.
          inversion Hcall; subst b1.
          apply (f_equal (@List.length _)) in Hq1.
          rewrite length_app in Hq1. destruct new1; [contradiction|].
          simpl in Hq1. lia.
        - exfalso. rewrite publish_device_discovery_unfold, Hcfg, Hd in Hcall.
          inversion Hcall; subst b1.
          apply (f_equal (@List.length _)) in Hq1.
          rewrite length_app in Hq1. destruct new1; [contradiction|].
          simpl in Hq1. lia. }
      destruct r as [[]|e].
      * destruct (IH Hsub' b1 (eq_trans Hcfg1 Hcfg)) as (Hc & new & Hq & Hnew).
        split; [exact Hc|]. exists (new1 ++ new).
        split; [rewrite Hq, Hq1, <- app_assoc; reflexivity|].
        intros m Hm. apply in_app_or in Hm as [Hm|Hm]; auto.
      * cbn [snd]. split; [rewrite Hcfg1; exact Hcfg|].
        exists new1. split; [exact Hq1|exact Hnew1].
    + unfold ret. apply IH; assumption.
Qed.

(** X15. The start-up discovery enqueues discovery messages of enabled
    devices only: nothing is announced for a device that is disabled
    (or is of no known kind). *)
Theorem publish_discovery_announces_enabled_devices_only
        (c : BridgeConfig) (m : PublishMessage) :
  In m (_publish_queue (snd (_publish_discovery (new c)))) ->
  of_enabled_device c m.
Proof.
  unfold _publish_discovery. unfold bind at 1, get_config. cbn [cfg new].
  destruct (publish_discovery_loop c (devices c) (fun dc H => H) (new c)
                                   eq_refl) as (_ & added & Hq & Hadded).
  rewrite Hq. simpl. apply Hadded.
Qed.

Lemma publish_discovery_announces_enabled_devices_only_witness :
  of_enabled_device sample_config
                    (hd (sample_msg "")
                        (_publish_queue
                           (snd (_publish_discovery (new sample_config))))).
Proof.
  apply (publish_discovery_announces_enabled_devices_only sample_config).
  vm_compute. left. reflexivity.
Defined.

Lemma schedule_loop_spec (nina : NINAClient) (py_str : value -> string)
      (devs : list (string * DeviceConfig)) :
  forall s,
    schedule_loop nina py_str devs s
    = Ok (scheduler.mkScheduler
            (scheduler._tasks s
             ++ map (poll_task nina py_str)
                    (filter (fun dc : string * DeviceConfig => enabled (snd dc))
                            devs))
            (scheduler._stop_event s) (scheduler._thread s)).
Proof.
  induction devs as [|dc devs IH]; intros s.
  - simpl. rewrite app_nil_r. destruct s; reflexivity.
  - cbn [schedule_loop filter]. destruct (enabled (snd dc)); cbn [negb].
    + unfold scheduler.add_task. cbn [rbind]. rewrite IH. simpl.
      rewrite <- app_assoc. reflexivity.
    + apply IH.
Qed.


Lemma split_char_nonempty (c : ascii) (s : string) : split_char c s <> [].
Proof.
  destruct s as [|x s]; simpl; [discriminate|].
  destruct (Ascii.eqb x c); [discriminate|].
  destruct (split_char c s); discriminate.
Qed.

Lemma split_char_app (c : ascii) (a b : string) :
  split_char c (a ++ String c b) = split_char c a ++ split_char c b.
Proof.
  induction a as [|x a IH]; simpl.
  - rewrite Ascii.eqb_refl. reflexivity.
  - destruct (Ascii.eqb x c); [rewrite IH; reflexivity|].
    rewrite IH.
    destruct (split_char c a) as [|h t] eqn:Hs;
      [exfalso; apply (split_char_nonempty c a Hs)|reflexivity].
Qed.

Lemma split_char_no_sep (c : ascii) (s : string) :
  all_chars (fun x => negb (Ascii.eqb x c)) s = true -> split_char c s = [s].
Proof.
  induction s as [|x s IH]; simpl; [reflexivity|].
  intros H. apply andb_prop in H as [Hx Hs].
  apply negb_true_iff in Hx. rewrite Hx, (IH Hs). reflexivity.
Qed.

Lemma render_default_command_topic (t : MQTTTopicConfig) (device : string) :
  command_topic t = DEFAULT_COMMAND_TOPIC_TEMPLATE ->
  render_command_topic t device
  = Ok (base_topic t ++ "/" ++ device ++ "/command")%string.
Proof.
  intros H. unfold render_command_topic. rewrite H. reflexivity.
Qed.

(** X17. With the default command template, the device the handler
    reads back from a command topic is the device the topic was
    rendered for, whatever the base topic, as long as the device name
    has no [/]; a topic with no [/] at all is attributed to [unknown]. *)
Theorem command_topic_round_trip
        (t : MQTTTopicConfig) (device topic : string) :
  command_topic t = DEFAULT_COMMAND_TOPIC_TEMPLATE ->
  no_slash device = true ->
  render_command_topic t device = Ok topic ->
  command_device topic = device /\
  (forall s, no_slash s = true -> command_device s = "unknown").
Proof.
  intros Htpl Hdev Hrender.
  rewrite (render_default_command_topic t device Htpl) in Hrender.
  inversion Hrender; subst topic. clear Hrender. split.
  - unfold command_device.
    change (base_topic t ++ "/" ++ device ++ "/command")%string
      with (base_topic t ++ String "/" (device ++ String "/" "command"))%string.
    rewrite !split_char_app.
    rewrite (split_char_no_sep "/" device Hdev).
    change (split_char "/" "command") with ["command"].
    destruct (split_char "/" (base_topic t)) as [|h l] eqn:Hb;
      [exfalso; apply (split_char_nonempty _ _ Hb)|].
    rewrite !length_app. cbn [List.length].
    replace (2 <=? S (List.length l) + (1 + 1))%nat with true
      by (symmetry; apply Nat.leb_le; lia).
    replace (S (List.length l) + (1 + 1) - 2)%nat
      with (List.length (h :: l)) by (simpl; lia).
    rewrite app_nth2 by lia. rewrite Nat.sub_diag. reflexivity.
  - intros s Hs. unfold command_device.
    rewrite (split_char_no_sep "/" s Hs). reflexivity.
Qed.

Lemma command_topic_round_trip_witness :
  command_device "nina/filterwheel/command" = "filterwheel" /\
  (forall s, no_slash s = true -> command_device s = "unknown").
Proof.
  apply (command_topic_round_trip default_topics "filterwheel"
                                  "nina/filterwheel/command");
    reflexivity.
Defined.

(** X18. With the availability template rendering, a device poll never
    raises, whatever the device API returns or raises, and leaves the
    configuration and the stop event alone; an image poll raises
    exactly what fetching the image raises, and then enqueues nothing. *)
Theorem polls_and_errors
        (nina : NINAClient) (py_str : value -> string) (device : string)
        (b : Bridge) (t : string) :
  render_device_availability_topic (topics (mqtt (cfg b))) device = Ok t ->
  fst (_poll_device nina py_str device b) = Ok tt /\
  cfg (snd (_poll_device nina py_str device b)) = cfg b /\
  _stop_event (snd (_poll_device nina py_str device b)) = _stop_event b /\
  (dict_mem device IMAGE_ENDPOINTS = true ->
   forall e,
     fetch_image nina device = Raise e ->
     _poll_image nina device b = (Raise e, b)) /\
  (dict_mem device IMAGE_ENDPOINTS = true ->
   (exists r, fetch_image nina device = Ok r) ->
   fst (_poll_image nina device b) = Ok tt).
Proof.
  intros Ht.
  assert (Hdev : fst (_poll_device nina py_str device b) = Ok tt /\
                 cfg (snd (_poll_device nina py_str device b)) = cfg b /\
                 _stop_event (snd (_poll_device nina py_str device b))
                 = _stop_event b).
  { destruct (dict_mem device DEVICE_ENDPOINTS) eqn:Hsup.
    - destruct (rbind (fetch_device_status nina device)
                      (extract_state_values device)) as [values|e] eqn:Hr.
      + destruct (fetch_device_status nina device) as [status|e'] eqn:Hf;
          [|discriminate]. cbn [rbind] in Hr.
        rewrite (poll_device_success nina py_str device b t status values
                                     Hsup Ht Hf Hr).
        destruct (publish_device_discovery_spec
                    device (Some (dict_keys values)) b) as (Hcfg & _).
        cbn [fst snd]. unfold push, set_queue. cbn [cfg _stop_event].
        split; [reflexivity|]. split; [exact Hcfg|].
        rewrite publish_device_discovery_unfold.
        destruct (discovery_messages (cfg b) device (Some (dict_keys values)))
          as [[ms|]|e']; try reflexivity.
        clear. revert b. induction ms as [|m ms IH]; intros b; [reflexivity|].
        cbn [for_each]. unfold bind. unfold announce at 1.
        destruct (set_mem string_dec (topic m) (_published_discovery_topics b));
          rewrite IH; reflexivity.
      + rewrite (poll_device_failure nina py_str device b t Hsup Ht).
        * repeat split.
        * intros values Hv. rewrite Hv in Hr. discriminate.
    - unfold _poll_device. rewrite Hsup. repeat split. }
  destruct Hdev as (H1 & H2 & H3).
  split; [exact H1|]. split; [exact H2|]. split; [exact H3|].
  split.
  - intros Himg e He.
    rewrite (poll_image_spec nina device b t Himg Ht), He. reflexivity.
  - intros Himg [r Hr].
    rewrite (poll_image_spec nina device b t Himg Ht), Hr.
    destruct r; reflexivity.
Qed.

Lemma polls_and_errors_witness :
  fst (_poll_device (sample_nina (Raise (Exn HTTPError "503")) (Ok VNone))
                    sample_str "camera" (new sample_config)) = Ok tt /\
  cfg (snd (_poll_device (sample_nina (Raise (Exn HTTPError "503")) (Ok VNone))
                         sample_str "camera" (new sample_config)))
  = cfg (new sample_config) /\
  _stop_event
    (snd (_poll_device (sample_nina (Raise (Exn HTTPError "503")) (Ok VNone))
                       sample_str "camera" (new sample_config)))
  = _stop_event (new sample_config) /\
  (dict_mem "camera" IMAGE_ENDPOINTS = true ->
   forall e,
     fetch_image (sample_nina (Raise (Exn HTTPError "503")) (Ok VNone)) "camera"
     = Raise e ->
     _poll_image (sample_nina (Raise (Exn HTTPError "503")) (Ok VNone))
                 "camera" (new sample_config)
     = (Raise e, new sample_config)) /\
  (dict_mem "camera" IMAGE_ENDPOINTS = true ->
   (exists r,
       fetch_image (sample_nina (Raise (Exn HTTPError "503")) (Ok VNone))
                   "camera" = Ok r) ->
   fst (_poll_image (sample_nina (Raise (Exn HTTPError "503")) (Ok VNone))
                    "camera" (new sample_config)) = Ok tt).
Proof.
  apply (polls_and_errors
           (sample_nina (Raise (Exn HTTPError "503")) (Ok VNone)) sample_str
           "camera" (new sample_config) "nina/camera/availability").
  vm_compute. reflexivity.
Defined.

(** X19. When [start()] returns normally, the first message it has
    enqueued is the bridge's own availability [ON] (retained, qos 1),
    and all that follow are discovery messages of enabled devices. *)
Theorem start_announces_the_bridge_first (b : Bridge) (t : string) :
  render_availability_topic (topics (mqtt (cfg b))) None = Ok t ->
  fst (start b) = Ok tt ->
  exists rest,
    _publish_queue (snd (start b))
    = _publish_queue b ++ mkPublishMessage t (PText "ON") true 1 :: rest /\
    forall m, In m rest -> of_enabled_device (cfg b) m.
Proof.
  intros Ht Hok. unfold start in *. unfold bind at 1 in Hok. unfold bind at 1.
  assert (Hconf : _configure_mqtt b
                  = (Ok tt, push [mkPublishMessage t (PText "ON") true 1] b)).
  { unfold _configure_mqtt. unfold bind at 1, get_config.
    unfold bind at 1, lift. rewrite Ht.
    apply publish_availability_spec. exact Ht. }
  rewrite Hconf in *. set (b1 := push _ b) in *.
  unfold bind at 1 in Hok. unfold bind at 1.
  unfold _subscribe_commands in *.
  unfold bind at 1, get_config in Hok. unfold bind at 1, get_config.
  unfold bind at 1, lift in Hok. unfold bind at 1, lift.
  destruct (render_command_topic (topics (mqtt (cfg b1))) "+") as [ct|e];
    [|discriminate Hok].
  unfold ret. unfold _publish_discovery. unfold bind at 1, get_config.
  destruct (publish_discovery_loop (cfg b1) (devices (cfg b1))
                                   (fun dc H => H) b1 eq_refl)
    as (_ & added & Hq & Hadded).
  exists added. split; [|exact Hadded].
  rewrite Hq. unfold b1, push, set_queue. simpl.
  rewrite <- app_assoc. reflexivity.
Qed.

Lemma start_announces_the_bridge_first_witness :
  exists rest,
    _publish_queue (snd (start (new sample_config)))
    = _publish_queue (new sample_config)
      ++ mkPublishMessage "nina/bridge/availability" (PText "ON") true 1 :: rest
    /\ forall m, In m rest -> of_enabled_device (cfg (new sample_config)) m.
Proof.
  apply (start_announces_the_bridge_first (new sample_config)
                                          "nina/bridge/availability").
  - reflexivity.
  - vm_compute. reflexivity.
Defined.

(* ================================================================== *)
(** * Further properties: the device API client (nina_client.py) *)
(* ================================================================== *)



Section Client.
Variable base_url : string.
Variable http_json : list http.request -> http.request -> Result value.
Variable http_bytes : list http.request -> http.request -> Result string.
Variable b64encode : string -> string.
Variable quote : string -> string.
Variable py_str : value -> string.

Lemma one_request_get_json path ps :
  one_request_or_error (http._get_json base_url http_json path ps).
Proof. intros log. right. eexists. reflexivity. Qed.

Lemma one_request_raise {A} (e : exn) :
  one_request_or_error (@http.hraise A e).
Proof. intros log. left. split; [reflexivity|exists e; reflexivity]. Qed.

Lemma one_request_lift_bind {A B} (r : Result A) (k : A -> http.H B) :
  (forall a, one_request_or_error (k a)) ->
  one_request_or_error (http.hbind (http.hlift r) k).
Proof.
  intros Hk log. unfold http.hbind, http.hlift.
  destruct r as [a|e]; [apply Hk|].
  left. split; [reflexivity|exists e; reflexivity].
Qed.

Lemma one_request_bytes_then_ret {A} path ps (f : string -> A) :
  one_request_or_error
    (http.hbind (http._get_bytes base_url http_bytes path ps)
                (fun x => http.hret (f x))).
Proof.
  intros log. right. unfold http.hbind, http._get_bytes, http.hret.
  destruct (http_bytes log _); eexists; reflexivity.
Qed.

(** X21. A command costs the device at most one request: [send_command]
    either raises before sending anything or sends exactly one request;
    it never returns a result without having sent one. *)
Theorem send_command_sends_at_most_one_request
        (device : string) (payload : value) (log : list http.request) :
  (snd (http.send_command base_url http_json http_bytes b64encode py_str
                          device payload log) = log
   \/ exists req,
        snd (http.send_command base_url http_json http_bytes b64encode py_str
                               device payload log) = log ++ [req]) /\
  (snd (http.send_command base_url http_json http_bytes b64encode py_str
                          device payload log) = log ->
   exists e,
     fst (http.send_command base_url http_json http_bytes b64encode py_str
                            device payload log) = Raise e).
Proof.
  assert (H : one_request_or_error
                (http.send_command base_url http_json http_bytes b64encode
                                   py_str device payload)).
  { unfold http.send_command.
    destruct payload; try apply one_request_raise.
    apply one_request_lift_bind. intros action.
    destruct (String.eqb device "sequence").
    { unfold http._handle_sequence_command.
      repeat match goal with
             | |- one_request_or_error (if ?c then _ else _) => destruct c
             end;
        try apply one_request_get_json; apply one_request_raise. }
    destruct (String.eqb device "mount").
    { unfold http._handle_mount_command.
      repeat match goal with
             | |- one_request_or_error (if ?c then _ else _) => destruct c
             end;
        try apply one_request_get_json; try apply one_request_raise.
      apply one_request_lift_bind. intros m. apply one_request_get_json. }
    destruct (String.eqb device "application" || String.eqb device "screenshot").
    { unfold http._handle_screenshot_command.
      apply one_request_bytes_then_ret. }
    apply one_request_raise. }
  destruct (H log) as [[Hlog Hr]|[req Hreq]].
  - split; [left; exact Hlog|intros _; exact Hr].
  - split; [right; exists req; exact Hreq|].
    intros Hsame. rewrite Hreq in Hsame.
    apply (f_equal (@List.length _)) in Hsame.
    rewrite length_app in Hsame. simpl in Hsame. lia.
Qed.

(** X22. A command for a device other than sequence, mount,
    application or screenshot is refused with
    "Unsupported command target: <device>" and no request is sent. *)
Theorem unknown_command_target_is_refused_before_any_request
        (device : string) (d : dict) (action : string)
        (log : list http.request) :
  por (get_or_none "action" d) (VStr "") = VStr action ->
  is_command_target device = false ->
  http.send_command base_url http_json http_bytes b64encode py_str
                    device (VDict d) log
  = (Raise (Exn ValueError ("Unsupported command target: " ++ device)%string),
     log).
Proof.
  intros Hact Htarget. unfold is_command_target in Htarget.
  apply orb_false_elim in Htarget as [Htarget Hshot].
  apply orb_false_elim in Htarget as [Htarget Happ].
  apply orb_false_elim in Htarget as [Hseq Hmount].
  unfold http.send_command. rewrite Hact.
  unfold http.hbind, http.hlift. cbn [http.lower_method].
  rewrite Hseq, Hmount, Happ, Hshot. reflexivity.
Qed.


(** X24. For the application device [fetch_device_status] asks for
    [/version] and then [/application-start].  When both answer with a
    JSON object whose [Response] is not itself an object, the values a
    poll extracts are the version answer for both [nina_version] and
    [api_version], and the start answer for [application_start]. *)
Theorem application_status_is_two_requests
        (log : list http.request) (dv da : dict) :
  http_json log (http.mkRequest (base_url ++ "/version") None)
  = Ok (VDict dv) ->
  http_json (log ++ [http.mkRequest (base_url ++ "/version") None])
            (http.mkRequest (base_url ++ "/application-start") None)
  = Ok (VDict da) ->
  isinstance_dict (get_or_none "Response" dv) = false ->
  isinstance_dict (get_or_none "Response" da) = false ->
  exists status,
    http.fetch_device_status base_url http_json "application" log
    = (Ok status,
       log ++ [http.mkRequest (base_url ++ "/version") None;
               http.mkRequest (base_url ++ "/application-start") None]) /\
    extract_state_values "application" status
    = Ok [("nina_version", get_or_none "Response" dv);
          ("api_version", get_or_none "Response" dv);
          ("application_start", get_or_none "Response" da)].
Proof.
  intros Hv Ha Hr Hs.
  eexists. split.
  - unfold http.fetch_device_status.
    change (String.eqb "application" "application") with true. cbv iota.
    unfold http.hbind, http._get_json, http.hret.
    rewrite Hv, Ha. rewrite <- app_assoc. reflexivity.
  - generalize dependent (get_or_none "Response" da).
    generalize dependent (get_or_none "Response" dv).
    intros r Hr s Hs.
    destruct r; try discriminate Hr; destruct s; try discriminate Hs;
      reflexivity.
Qed.

(** X25. [fetch_image] never lets an HTTP error out: whatever the image
    kind and whatever the device answers, the error it raises, if any,
    is not [requests.HTTPError]. *)
Theorem fetch_image_never_raises_http_error
        (image_type : string) (log : list http.request) (msg : string) :
  fst (http.fetch_image base_url http_json http_bytes quote py_str
                        image_type log)
  <> Raise (Exn HTTPError msg).
Proof.
  assert (Hex : forall body l,
             fst (http.except_http_error body l) <> Raise (Exn HTTPError msg)).
  { intros body l. unfold http.except_http_error.
    destruct (body l) as [[r|[k m]] l']; [discriminate|].
    destruct k; cbn [fst]; discriminate. }
  unfold http.fetch_image.
  destruct (String.eqb image_type "most_recent_image"); [apply Hex|].
  destruct (String.eqb image_type "livestack"); [apply Hex|].
  destruct (String.eqb image_type "screenshot"); [apply Hex|].
  discriminate.
Qed.

(** X26. When the download of the latest image or of a screenshot fails
    with an HTTP error, the image poll does not fail: it enqueues one
    retained OFF on the image's availability topic and nothing else. *)
Theorem failed_image_download_publishes_off
        (image_type : string) (log : list http.request) (b : Bridge)
        (t : string) :
  image_type = "most_recent_image" \/ image_type = "screenshot" ->
  (forall r, exists msg, http_bytes log r = Raise (Exn HTTPError msg)) ->
  render_device_availability_topic (topics (mqtt (cfg b))) image_type = Ok t ->
  _poll_image (http.client_at base_url http_json http_bytes b64encode quote
                              py_str log)
              image_type b
  = (Ok tt, push [availability_message t "OFF"] b).
Proof.
  intros Hkind Hfail Ht.
  assert (Hmem : dict_mem image_type IMAGE_ENDPOINTS = true)
    by (destruct Hkind; subst; reflexivity).
  rewrite (poll_image_spec _ image_type b t Hmem Ht).
  assert (Hf : fetch_image
                 (http.client_at base_url http_json http_bytes b64encode quote
                                 py_str log) image_type = Ok None).
  { unfold http.client_at. cbn [fetch_image].
    destruct Hkind; subst image_type; unfold http.fetch_image;
      cbn [String.eqb Ascii.eqb Bool.eqb];
      unfold http.except_http_error, http.hbind, http._get_bytes;
      match goal with
      | |- context [http_bytes log ?r] =>
          destruct (Hfail r) as [msg Hmsg]; rewrite Hmsg
      end; reflexivity. }
  rewrite Hf. reflexivity.
Qed.

End Client.

Lemma unknown_command_target_is_refused_before_any_request_witness :
  http.send_command "http://127.0.0.1:1888/v2/api" (server_json VNone)
                    server_no_bytes sample_b64 sample_str
                    "camera" (VDict [("action", VStr "Cool")]) []
  = (Raise (Exn ValueError "Unsupported command target: camera"), []).
Proof.
  apply (unknown_command_target_is_refused_before_any_request
           "http://127.0.0.1:1888/v2/api" (server_json VNone) server_no_bytes
           sample_b64 sample_str "camera" [("action", VStr "Cool")] "Cool" []).
  - reflexivity.
  - reflexivity.
Defined.


Lemma application_status_is_two_requests_witness :
  exists status,
    http.fetch_device_status "http://127.0.0.1:1888/v2/api"
                             (server_json (VDict [("Response", VStr "3.1")]))
                             "application" []
    = (Ok status,
       [] ++ [http.mkRequest ("http://127.0.0.1:1888/v2/api" ++ "/version") None;
              http.mkRequest ("http://127.0.0.1:1888/v2/api"
                                ++ "/application-start") None]) /\
    extract_state_values "application" status
    = Ok [("nina_version", get_or_none "Response" [("Response", VStr "3.1")]);
          ("api_version", get_or_none "Response" [("Response", VStr "3.1")]);
          ("application_start",
           get_or_none "Response" [("Response", VStr "3.1")])].
Proof.
  apply (application_status_is_two_requests
           "http://127.0.0.1:1888/v2/api"
           (server_json (VDict [("Response", VStr "3.1")])) []
           [("Response", VStr "3.1")] [("Response", VStr "3.1")]);
    reflexivity.
Defined.

Lemma failed_image_download_publishes_off_witness :
  _poll_image (sample_client VNone) "screenshot" (new sample_config)
  = (Ok tt,
     push [availability_message "nina/screenshot/availability" "OFF"]
          (new sample_config)).
Proof.
  apply (failed_image_download_publishes_off
           "http://127.0.0.1:1888/v2/api" (server_json VNone) server_no_bytes
           sample_b64 sample_quote sample_str "screenshot" []
           (new sample_config) "nina/screenshot/availability").
  - right. reflexivity.
  - intros r. exists "404 Client Error". reflexivity.
  - reflexivity.
Defined.

(* ================================================================== *)
(** * Further properties: the device table of the configuration *)
(* ================================================================== *)

Section Devices.
Variable int_conv : value -> Result Z.

Lemma dict_keys_set_fresh {V} (k : string) (v : V) (d : list (string * V)) :
  ~ In k (dict_keys d) -> dict_keys (dict_set k v d) = dict_keys d ++ [k].
Proof.
  induction d as [|[k' v'] d IH]; intros Hk; [reflexivity|].
  cbn [dict_set]. destruct (String.eqb k k') eqn:E.
  - apply String.eqb_eq in E. subst k'. exfalso. apply Hk. left. reflexivity.
  - cbn [dict_keys map fst app]. f_equal. apply IH.
    intros Hin. apply Hk. right. exact Hin.
Qed.

Lemma dict_get_of_entry {V} (d : string) (v : V) (devices : list (string * V)) :
  NoDup (dict_keys devices) -> In (d, v) devices -> dict_get d devices = Some v.
Proof.
  induction devices as [|[k w] rest IH]; intros Hnd Hin; [destruct Hin|].
  cbn [dict_get]. cbn [dict_keys map fst] in Hnd.
  inversion Hnd as [|x l Hnotin Hnd']; subst x l.
  destruct Hin as [Hd|Hd].
  - inversion Hd; subst. rewrite String.eqb_refl. reflexivity.
  - destruct (String.eqb d k) eqn:E.
    + apply String.eqb_eq in E. subst k. exfalso. apply Hnotin.
      apply (in_map fst _ _ Hd).
    + apply IH; assumption.
Qed.

Lemma build_device_positive (ds : value) (device : string) (dc : DeviceConfig) :
  config_loader.build_device int_conv ds device = Ok dc ->
  (0 < refresh_every dc)%Z.
Proof.
  unfold config_loader.build_device. intros H.
  destruct (device_model.get ds device (VDict [])) as [raw|]; [|discriminate].
  cbn [rbind] in H.
  destruct (device_model.get raw "enabled" (VBool true)) as [en|];
    [|discriminate].
  cbn [rbind] in H.
  destruct (device_model.get raw "refresh_every" _) as [r|]; [|discriminate].
  cbn [rbind] in H.
  destruct (config_loader.py_int int_conv r) as [z|]; [|discriminate].
  cbn [rbind] in H.
  destruct (z <=? 0)%Z eqn:Hz; [discriminate|].
  inversion H; subst dc. cbn [refresh_every]. apply Z.leb_gt in Hz. exact Hz.
Qed.

Lemma build_devices_loop_spec (ds : value) (todo : list string) :
  forall acc devices,
    NoDup todo ->
    (forall d, In d todo -> ~ In d (dict_keys acc)) ->
    config_loader.build_devices_loop int_conv ds todo acc = Ok devices ->
    dict_keys devices = dict_keys acc ++ todo /\
    (forall d, In d todo ->
       exists dc, config_loader.build_device int_conv ds d = Ok dc /\
                  dict_get d devices = Some dc) /\
    (forall d, ~ In d todo -> dict_get d devices = dict_get d acc).
Proof.
  induction todo as [|device rest IH]; intros acc devices Hnd Hfresh Hrun.
  - cbn in Hrun. inversion Hrun; subst devices.
    rewrite app_nil_r. split; [reflexivity|]. split; [intros d []|reflexivity].
  - cbn [config_loader.build_devices_loop] in Hrun.
    destruct (config_loader.build_device int_conv ds device) as [dc|] eqn:Hdc;
      [|discriminate].
    cbn [rbind] in Hrun.
    inversion Hnd as [|x l Hnotin Hnd']; subst x l.
    assert (Hk : dict_keys (dict_set device dc acc) = dict_keys acc ++ [device]).
    { apply dict_keys_set_fresh. apply Hfresh. left. reflexivity. }
    destruct (IH (dict_set device dc acc) devices Hnd') as (Hkeys & Hin & Hout).
    + intros d Hd. rewrite Hk. intros Hin. apply in_app_or in Hin.
      destruct Hin as [Hin|[Hin|[]]].
      * apply (Hfresh d); [right; exact Hd|exact Hin].
      * subst d. contradiction.
    + exact Hrun.
    + split; [|split].
      * rewrite Hkeys, Hk, <- app_assoc. reflexivity.
      * intros d [Hd|Hd].
        -- subst d. exists dc. split; [exact Hdc|].
           rewrite (Hout device Hnotin). apply dict_get_set_same.
        -- apply Hin. exact Hd.
      * intros d Hd. rewrite Hout.
        -- apply dict_get_set_other. intros Heq. apply Hd. left.
           symmetry. exact Heq.
        -- intros Hin'. apply Hd. right. exact Hin'.
Qed.

Lemma default_device_types_nodup : NoDup config_loader.DEFAULT_DEVICE_TYPES.
Proof.
  unfold config_loader.DEFAULT_DEVICE_TYPES.
  repeat (constructor; [cbn; intuition discriminate|]). constructor.
Qed.

(** X27. When [_build_devices] returns, the table has exactly the
    sixteen default device types, in their fixed order and whatever
    other names the file lists, and every entry has a positive
    [refresh_every]. *)
Theorem built_devices_are_the_default_types
        (config : value) (devices : list (string * DeviceConfig)) :
  config_loader._build_devices int_conv config = Ok devices ->
  dict_keys devices = config_loader.DEFAULT_DEVICE_TYPES /\
  (forall d dc, In (d, dc) devices -> (0 < refresh_every dc)%Z).
Proof.
  unfold config_loader._build_devices. intros H.
  destruct (device_model.get config "devices" (VDict [])) as [ds|];
    [|discriminate].
  cbn [rbind] in H.
  destruct (build_devices_loop_spec _ _ [] devices default_device_types_nodup
                                    (fun d _ Hin => Hin) H)
    as (Hkeys & Hin & _).
  cbn [dict_keys map app] in Hkeys. split; [exact Hkeys|].
  intros d dc Hd.
  assert (Hdk : In d config_loader.DEFAULT_DEVICE_TYPES).
  { rewrite <- Hkeys. unfold dict_keys. apply (in_map fst _ _ Hd). }
  destruct (Hin d Hdk) as (dc' & Hbuild & Hget).
  assert (Hnd : NoDup (dict_keys devices))
    by (rewrite Hkeys; apply default_device_types_nodup).
  assert (Hsame : dict_get d devices = Some dc)
    by (apply dict_get_of_entry; assumption).
  rewrite Hsame in Hget. inversion Hget; subst dc'.
  apply (build_device_positive _ _ _ Hbuild).
Qed.

(** X28. A configuration with no [devices] section, or an empty one,
    enables every default device type with the default refresh of 60
    seconds. *)
Theorem missing_devices_section_enables_all (d : dict) :
  truthy (match dict_get "devices" d with
          | Some v => v
          | None => VDict []
          end) = false ->
  config_loader._build_devices int_conv (VDict d)
  = Ok (map (fun name => (name, mkDeviceConfig true DEFAULT_REFRESH_SECONDS))
            config_loader.DEFAULT_DEVICE_TYPES).
Proof.
  intros Hfalsy. unfold config_loader._build_devices.
  cbn [device_model.get rbind]. unfold por. rewrite Hfalsy. reflexivity.
Qed.

(** X29. A device entry whose [refresh_every] is an integer that is
    zero or negative makes [_build_devices] fail: no table is built. *)
Theorem non_positive_refresh_is_rejected
        (config section raw : dict) (device : string) (z : Z) :
  dict_get "devices" config = Some (VDict section) ->
  dict_get device section = Some (VDict raw) ->
  dict_get "refresh_every" raw = Some (VInt z) ->
  In device config_loader.DEFAULT_DEVICE_TYPES ->
  (z <= 0)%Z ->
  exists e, config_loader._build_devices int_conv (VDict config) = Raise e.
Proof.
  intros Hsec Hdev Hraw Hin Hz.
  destruct (config_loader._build_devices int_conv (VDict config))
    as [devices|e] eqn:Hrun; [|exists e; reflexivity].
  exfalso.
  unfold config_loader._build_devices in Hrun.
  cbn [device_model.get rbind] in Hrun. rewrite Hsec in Hrun.
  assert (Htruthy : truthy (VDict section) = true).
  { destruct section; [discriminate Hdev|reflexivity]. }
  unfold por in Hrun. rewrite Htruthy in Hrun.
  destruct (build_devices_loop_spec _ _ [] devices default_device_types_nodup
                                    (fun d _ Hin => Hin) Hrun)
    as (_ & Hall & _).
  destruct (Hall device Hin) as (dc & Hbuild & _).
  unfold config_loader.build_device in Hbuild.
  cbn [device_model.get rbind] in Hbuild. rewrite Hdev in Hbuild.
  cbn [device_model.get rbind] in Hbuild. rewrite Hraw in Hbuild.
  cbn [config_loader.py_int rbind] in Hbuild.
  apply Z.leb_le in Hz. rewrite Hz in Hbuild. discriminate.
Qed.

(** X30. The polls scheduled from a table that [_build_devices] built
    all have a positive interval. *)
Theorem built_devices_give_positive_intervals
        (nina : NINAClient) (py_str : value -> string) (config : value)
        (devices : list (string * DeviceConfig))
        (n : NINAConfig) (m : MQTTConfig) (info : DeviceInfo)
        (s : scheduler.Scheduler Bridge) :
  config_loader._build_devices int_conv config = Ok devices ->
  _schedule_polls nina py_str (mkBridgeConfig n m devices info)
                  scheduler.new = Ok s ->
  Forall (fun task => 0 < scheduler.interval task) (scheduler._tasks s).
Proof.
  intros Hbuild Hsched. apply Forall_forall. intros task Htask.
  unfold config_loader._build_devices in Hbuild.
  destruct (device_model.get config "devices" (VDict [])) as [ds|];
    [|discriminate].
  cbn [rbind] in Hbuild.
  destruct (build_devices_loop_spec _ _ [] devices default_device_types_nodup
                                    (fun d _ Hin => Hin) Hbuild)
    as (Hkeys & Hall & _).
  unfold _schedule_polls in Hsched. cbn [config.devices] in Hsched.
  rewrite schedule_loop_spec in Hsched. inversion Hsched; subst s.
  cbn [scheduler._tasks scheduler.new app] in Htask.
  apply in_map_iff in Htask as ([d dc] & Htask & Hin).
  apply filter_In in Hin as [Hin _]. subst task.
  cbn [poll_task scheduler.interval snd].
  assert (Hpos : (0 < refresh_every dc)%Z).
  { cbn [dict_keys map app] in Hkeys.
    assert (Hdk : In d config_loader.DEFAULT_DEVICE_TYPES).
    { rewrite <- Hkeys. unfold dict_keys. apply (in_map fst _ _ Hin). }
    destruct (Hall d Hdk) as (dc' & Hb & Hget).
    assert (Hnd : NoDup (dict_keys devices))
      by (rewrite Hkeys; apply default_device_types_nodup).
    assert (Hsame : dict_get d devices = Some dc)
      by (apply dict_get_of_entry; assumption).
    rewrite Hsame in Hget. inversion Hget; subst dc'.
    apply (build_device_positive _ _ _ Hb). }
  unfold Qlt, inject_Z. cbn. lia.
Qed.

End Devices.

Lemma built_devices_are_the_default_types_witness :
  dict_keys sample_devices = config_loader.DEFAULT_DEVICE_TYPES /\
  (forall d dc, In (d, dc) sample_devices -> (0 < refresh_every dc)%Z).
Proof.
  apply (built_devices_are_the_default_types sample_int (VDict sample_yaml)).
  vm_compute. reflexivity.
Defined.

Lemma missing_devices_section_enables_all_witness :
  config_loader._build_devices sample_int (VDict [("devices", VNone)])
  = Ok (map (fun name => (name, mkDeviceConfig true DEFAULT_REFRESH_SECONDS))
            config_loader.DEFAULT_DEVICE_TYPES).
Proof.
  apply (missing_devices_section_enables_all sample_int [("devices", VNone)]).
  reflexivity.
Defined.

Lemma non_positive_refresh_is_rejected_witness :
  exists e,
    config_loader._build_devices
      sample_int
      (VDict [("devices",
               VDict [("weather", VDict [("refresh_every", VInt 0)])])])
    = Raise e.
Proof.
  apply (non_positive_refresh_is_rejected
           sample_int
           [("devices", VDict [("weather", VDict [("refresh_every", VInt 0)])])]
           [("weather", VDict [("refresh_every", VInt 0)])]
           [("refresh_every", VInt 0)] "weather" 0).
  - reflexivity.
  - reflexivity.
  - reflexivity.
  - simpl. tauto.
  - lia.
Defined.

Lemma built_devices_give_positive_intervals_witness :
  Forall (fun task => 0 < scheduler.interval task)
         (scheduler._tasks
            (scheduler.mkScheduler
               (map (poll_task (sample_client VNone) sample_str)
                    (filter (fun dc : string * DeviceConfig => enabled (snd dc))
                            sample_devices))
               false None)).
Proof.
  apply (built_devices_give_positive_intervals
           sample_int (sample_client VNone) sample_str (VDict sample_yaml)
           sample_devices default_nina default_mqtt default_device_info).
  - vm_compute. reflexivity.
  - reflexivity.
Defined.
